(** * pytorch3d/vis/plotly_vis.py: a shallow embedding and its properties

    The module turns batched meshes and point clouds into traces of a
    figure of the plotting library, arranged in a grid of 3D subplots.

    Conventions of the embedding.
    - Python [int] is [Z] (or [nat] for lengths and indices that cannot be
      negative); finite tensor elements are rationals [Q], without
      rounding.  NaN arises in one place, the mean over an empty selection
      of vertices: there a value is an [option], [None] being NaN.
    - Python [dict] is an association list kept in insertion order with
      distinct keys ([dict_set] overwrites in place).
    - The module's effects (warnings, the random source, the figure under
      construction, exceptions) live in the monad [M].
    - The plotting library is external: [make_subplots] refuses a grid
      without rows or columns and otherwise returns the empty figure with
      the grid asked for; [add_trace] and the layout updates record what
      the module asked for. *)

From Stdlib Require Import ZArith QArith Qround String Ascii Bool List.
From Stdlib Require Import Qminmax Lia Lqa Permutation DecimalString.
From Stdlib Require Import DecimalPos DecimalZ.
Import ListNotations.

Local Open Scope string_scope.
Local Open Scope Z_scope.

(** ** Python built-ins used by the module *)

Module Py.

(** [str(n)] for an [int]. *)
Definition str (z : Z) : string := NilZero.string_of_int (Z.to_int z).

Definition Qltb (a b : Q) : bool := negb (Qle_bool b a).

(** [min(a, b)] and [max(a, b)]: the first argument is kept unless the
    second one is strictly smaller (resp. larger). *)
Definition min (a b : Q) : Q := if Qltb b a then b else a.
Definition max (a b : Q) : Q := if Qltb a b then b else a.

(** Ordered dictionaries with string keys. *)
Definition dict (V : Type) := list (string * V).

Fixpoint dict_get {V} (d : dict V) (k : string) : option V :=
  match d with
  | [] => None
  | (k', v) :: d' => if String.eqb k' k then Some v else dict_get d' k
  end.

(** [d[k] = v]: an existing key keeps its position. *)
Fixpoint dict_set {V} (d : dict V) (k : string) (v : V) : dict V :=
  match d with
  | [] => [(k, v)]
  | (k', v') :: d' =>
      if String.eqb k' k then (k, v) :: d' else (k', v') :: dict_set d' k v
  end.

(** [d.update(other)]. *)
Definition dict_update {V} (d other : dict V) : dict V :=
  fold_left (fun acc kv => dict_set acc (fst kv) (snd kv)) other d.

Definition keys {V} (d : dict V) : list string := map fst d.

End Py.

(** ** Data model *)

Definition vec3 : Type := Q * Q * Q.
Definition face : Type := nat * nat * nat.

Inductive Textures :=
| NoTextures
| TexturesVertex (verts_features : list (list vec3))
| TexturesOther.

(** A batch of meshes: one vertex list and one face list per element. *)
Record Meshes := mkMeshes {
  verts_list : list (list vec3);
  faces_list : list (list face);
  textures : Textures
}.

(** A batch of point clouds; the optional features have [C] channels. *)
Record Pointclouds := mkPointclouds {
  points_list : list (list vec3);
  features_list : option (nat * list (list (list Q)))
}.

Inductive structure :=
| SMeshes (m : Meshes)
| SPointclouds (p : Pointclouds).

(** Python values that can sit in a scene dictionary or in a message. *)
Inductive pyobj :=
| PStruct (s : structure)
| PInt (z : Z)
| POther (repr : string).

(** The NamedTuples at the top of the file. *)
Record AxisArgs := mkAxisArgs {
  showgrid : bool;
  zeroline : bool;
  showline : bool;
  ticks : string;
  showticklabels : bool;
  backgroundcolor : string;
  showaxeslabels : bool
}.

Definition AxisArgs_default : AxisArgs :=
  mkAxisArgs false false false EmptyString false "#fff" false.

Record Lighting := mkLighting {
  ambient : Q;
  diffuse : Q;
  fresnel : Q;
  specular : Q;
  roughness : Q;
  facenormalsepsilon : Q;
  vertexnormalsepsilon : Q
}.

Definition Lighting_default : Lighting :=
  mkLighting (8 # 10) 1 0 0 (5 # 10) (1 # 1000000) (1 # 1000000000000).

Inductive setting :=
| SBool (b : bool)
| SStr (s : string)
| SRange (lo hi : Q).

Definition AxisArgs_asdict (a : AxisArgs) : Py.dict setting :=
  [ ("showgrid", SBool (showgrid a));
    ("zeroline", SBool (zeroline a));
    ("showline", SBool (showline a));
    ("ticks", SStr (ticks a));
    ("showticklabels", SBool (showticklabels a));
    ("backgroundcolor", SStr (backgroundcolor a));
    ("showaxeslabels", SBool (showaxeslabels a)) ].

(** ** The figure of the plotting library *)

Definition range : Type := Q * Q.

(** The [range] property of an axis: unset, a pair of NaN, or a pair of
    finite bounds. *)
Inductive range_value :=
| RangeNone
| RangeNaN
| Range (r : range).

Record axis := mkAxis {
  ax_range : range_value;
  ax_props : Py.dict setting
}.

Record scene := mkScene {
  xaxis : axis;
  yaxis : axis;
  zaxis : axis;
  aspectmode : option string;
  camera_up : option (Z * Z * Z)
}.

Definition empty_axis : axis := mkAxis RangeNone [].
Definition empty_scene : scene :=
  mkScene empty_axis empty_axis empty_axis None None.

Inductive trace_data :=
| Mesh3d (x y z : list (option Q)) (vertexcolor : option (list vec3))
         (i j k : list nat) (lighting : Lighting)
| Scatter3d (x y z : list Q) (color : option (list string))
            (size : Z) (mode : string).

Record trace := mkTrace {
  tr_data : trace_data;
  tr_name : string;
  tr_row : Z;
  tr_col : Z
}.

Record figure := mkFigure {
  fig_rows : Z;
  fig_cols : Z;
  fig_specs : list (list string);
  fig_titles : list string;
  fig_column_widths : list Q;
  fig_data : list trace;
  fig_layout : Py.dict scene
}.

(** ** Effects *)

Inductive exn :=
| ValueError (template : string) (args : list pyobj)
| ZeroDivisionError
| IndexError (what : string)
| KeyError (key : string)
| TypeError (what : string)
| TensorError (what : string).

Inductive result (A : Type) :=
| Ok (a : A)
| Raise (e : exn).
Arguments Ok {A} a.
Arguments Raise {A} e.

(** [st_rng] is the tape of the process-wide random source: each call of
    [np.random.choice] consumes one entry. *)
Record state := mkState {
  st_warnings : list string;
  st_rng : list (list nat);
  st_fig : option figure
}.

Definition M (A : Type) : Type := state -> state * result A.

Definition ret {A} (a : A) : M A := fun s => (s, Ok a).

Definition bind {A B} (c : M A) (k : A -> M B) : M B :=
  fun s =>
    match c s with
    | (s', Ok a) => k a s'
    | (s', Raise e) => (s', Raise e)
    end.

Definition raise {A} (e : exn) : M A := fun s => (s, Raise e).

Definition lift {A} (r : result A) : M A := fun s => (s, r).

Declare Scope py_scope.
Delimit Scope py_scope with py.
Notation "x <- c ;; k" := (bind c (fun x => k))
  (at level 100, c at next level, right associativity) : py_scope.
Notation "c ;;; k" := (bind c (fun _ => k))
  (at level 100, right associativity) : py_scope.
Local Open Scope py_scope.

(** [warnings.warn(msg)]. *)
Definition warn (msg : string) : M unit :=
  fun s => (mkState (st_warnings s ++ [msg]) (st_rng s) (st_fig s), Ok tt).

(** [for x in l: body x]. *)
Fixpoint for_ {A} (l : list A) (body : A -> M unit) : M unit :=
  match l with
  | [] => ret tt
  | x :: l' => body x ;;; for_ l' body
  end.

(** Reading and mutating the figure under construction. *)
Definition set_fig (f : figure) : M unit :=
  fun s => (mkState (st_warnings s) (st_rng s) (Some f), Ok tt).

Definition modify_fig (g : figure -> figure) : M unit :=
  fun s => (mkState (st_warnings s) (st_rng s) (option_map g (st_fig s)), Ok tt).

Definition get_fig : M figure :=
  fun s =>
    match st_fig s with
    | Some f => (s, Ok f)
    | None => (s, Raise (TypeError "no figure"))
    end.

(** ** [_update_axes_bounds] *)

Definition vsub (c : vec3) (e : Q) : vec3 :=
  let '(x, y, z) := c in ((x - e)%Q, (y - e)%Q, (z - e)%Q).
Definition vadd (c : vec3) (e : Q) : vec3 :=
  let '(x, y, z) := c in ((x + e)%Q, (y + e)%Q, (z + e)%Q).

(** One of the three identical blocks
    [if old is not None: r[0] = min(r[0], old[0]); r[1] = max(r[1], old[1])]. *)
Definition widen (new : range) (old : option range) : range :=
  match old with
  | Some o => (Py.min (fst new) (fst o), Py.max (snd new) (snd o))
  | None => new
  end.

(** [current_layout.update({"xaxis": {"range": r}})] changes the range only. *)
Definition set_range (a : axis) (r : range) : axis :=
  mkAxis (Range r) (ax_props a).

(** The bounds of a range when they are finite.  A range of NaN is not
    [None], so the blocks above run for it, but every comparison with NaN
    is false and [min] and [max] then keep their first argument: the new
    bounds come out as they do for an axis without range. *)
Definition finite_range (v : range_value) : option range :=
  match v with
  | Range r => Some r
  | RangeNone | RangeNaN => None
  end.

(** [_update_axes_bounds] for a finite center and a finite extent. *)
Definition _update_axes_bounds
  (verts_center : vec3) (max_expand : Q) (current_layout : scene) : scene :=
  let '(xmin, ymin, zmin) := vsub verts_center max_expand in
  let '(xmax, ymax, zmax) := vadd verts_center max_expand in
  let old_xrange := finite_range (ax_range (xaxis current_layout)) in
  let old_yrange := finite_range (ax_range (yaxis current_layout)) in
  let old_zrange := finite_range (ax_range (zaxis current_layout)) in
  let x_range := widen (xmin, xmax) old_xrange in
  let y_range := widen (ymin, ymax) old_yrange in
  let z_range := widen (zmin, zmax) old_zrange in
  mkScene (set_range (xaxis current_layout) x_range)
          (set_range (yaxis current_layout) y_range)
          (set_range (zaxis current_layout) z_range)
          (aspectmode current_layout)
          (camera_up current_layout).

Definition set_nan_range (a : axis) : axis :=
  mkAxis RangeNaN (ax_props a).

(** [_update_axes_bounds] on tensors that may hold NaN ([None]).  With a
    NaN center or extent the candidate bounds are NaN, and they stay so
    whatever the old range is: [min] and [max] keep their first argument
    when the comparison fails. *)
Definition _update_axes_bounds_float
  (verts_center : option vec3) (max_expand : option Q)
  (current_layout : scene) : scene :=
  match verts_center, max_expand with
  | Some c, Some e => _update_axes_bounds c e current_layout
  | _, _ =>
      mkScene (set_nan_range (xaxis current_layout))
              (set_nan_range (yaxis current_layout))
              (set_nan_range (zaxis current_layout))
              (aspectmode current_layout)
              (camera_up current_layout)
  end.

(** ** [_gen_fig_with_subplots] *)

(** The grid constructor of the plotting library: it refuses a number of
    rows or of columns that is not positive, and otherwise returns the
    empty figure with the requested grid. *)
Definition make_subplots (rows cols : Z) (specs : list (list string))
  (subplot_titles : list string) (column_widths : list Q) : result figure :=
  if rows <=? 0
  then Raise (ValueError
                "The 'rows' argument to make_subplots must be an int greater than 0."
                [PInt rows])
  else if cols <=? 0
  then Raise (ValueError
                "The 'cols' argument to make_subplots must be an int greater than 0."
                [PInt cols])
  else Ok (mkFigure rows cols specs subplot_titles column_widths [] []).

(** [l * n] on lists: a non-positive [n] gives the empty list. *)
Definition list_mul {A} (l : list A) (n : Z) : list A :=
  concat (repeat l (Z.to_nat n)).

(** Python's [%] and [//] on [int] agree with [Z.modulo] and [Z.div]
    (floor division, remainder with the sign of the divisor); a zero
    divisor raises. *)
Definition py_mod (a b : Z) : M Z :=
  if b =? 0 then raise ZeroDivisionError else ret (a mod b).
Definition py_floordiv (a b : Z) : M Z :=
  if b =? 0 then raise ZeroDivisionError else ret (a / b).

Definition _gen_fig_with_subplots
  (batch_size ncols : Z) (subplot_titles : list string) : M unit :=
  r <- py_mod batch_size ncols ;;
  (if negb (r =? 0)
   then warn "ncols is invalid for the given mesh batch size."
   else ret tt) ;;;
  fig_rows <- py_floordiv batch_size ncols ;;
  let fig_cols := ncols in
  let fig_type := ["scene"] in
  let specs := list_mul [list_mul fig_type fig_cols] fig_rows in
  fig <- lift (make_subplots fig_rows fig_cols specs subplot_titles
                 (list_mul [1%Q] fig_cols)) ;;
  set_fig fig.

(** ** Structures of the geometry library *)

(** Modelled from the spec: [len(s)], the batch length of a structure
    (the classes [Meshes] and [Pointclouds] are not in this file). *)
Definition len (s : structure) : nat :=
  match s with
  | SMeshes m => length (verts_list m)
  | SPointclouds p => length (points_list p)
  end.

Definition textures_getitem (t : Textures) (i : nat) : Textures :=
  match t with
  | TexturesVertex fs => TexturesVertex [nth i fs []]
  | other => other
  end.

(** The batch of length one holding element [i] of [s]. *)
Definition select (s : structure) (i : nat) : structure :=
  match s with
  | SMeshes m =>
      SMeshes (mkMeshes [nth i (verts_list m) []]
                        [nth i (faces_list m) []]
                        (textures_getitem (textures m) i))
  | SPointclouds p =>
      SPointclouds
        (mkPointclouds [nth i (points_list p) []]
           (option_map (fun cf : nat * list (list (list Q)) =>
                          (fst cf, [nth i (snd cf) []]))
              (features_list p)))
  end.

(** Modelled from the spec: [s[idx]], "accessing element i yields one
    surface" / "indexing by i yields one point set": a structure of batch
    length 1; a negative index counts from the end, as for Python lists,
    and an index outside the batch raises. *)
Definition getitem (s : structure) (idx : Z) : result structure :=
  let i := if idx <? 0 then idx + Z.of_nat (len s) else idx in
  if (i <? 0) || (Z.of_nat (len s) <=? i)
  then Raise (IndexError "structure index out of range")
  else Ok (select s (Z.to_nat i)).

(** Modelled from the spec: the packed representation, "a batch of
    structures flattened into single concatenated arrays with index
    bookkeeping": vertices are concatenated and the face indices of each
    element are shifted by the number of vertices before it. *)
Definition verts_packed (m : Meshes) : list vec3 := concat (verts_list m).

Definition shift_face (off : nat) (f : face) : face :=
  let '(a, b, c) := f in (a + off, b + off, c + off)%nat.

Fixpoint faces_packed_from (off : nat) (vs : list (list vec3))
  (fs : list (list face)) : list face :=
  match fs with
  | [] => []
  | f :: fs' =>
      map (shift_face off) f ++
      faces_packed_from (off + length (hd [] vs)) (tl vs) fs'
  end.

Definition faces_packed (m : Meshes) : list face :=
  faces_packed_from 0 (verts_list m) (faces_list m).

Definition verts_features_packed (fs : list (list vec3)) : list vec3 :=
  concat fs.

(** Modelled from the spec: [join_meshes_as_scene], "joining a batch into
    one scene concatenates/repositions geometry": one mesh whose vertices
    and faces are the packed ones of the batch. *)
Definition join_meshes_as_scene (m : Meshes) : Meshes :=
  mkMeshes [verts_packed m] [faces_packed m]
    match textures m with
    | TexturesVertex fs => TexturesVertex [verts_features_packed fs]
    | other => other
    end.

Definition points_packed (p : Pointclouds) : list vec3 :=
  concat (points_list p).

(** ** Tensor operations of [_add_mesh_trace] *)

Definition Qclamp (lo hi x : Q) : Q := Qmin (Qmax x lo) hi.

Definition vmap (f : Q -> Q) (v : vec3) : vec3 :=
  let '(x, y, z) := v in (f x, f y, f z).

Definition col0 (v : vec3) : Q := fst (fst v).
Definition col1 (v : vec3) : Q := snd (fst v).
Definition col2 (v : vec3) : Q := snd v.

Definition Qsum (l : list Q) : Q := fold_right Qplus 0%Q l.

(** [t.mean(0)] of an (n, 3) tensor of finite rows; NaN ([None]) for
    [n = 0]. *)
Definition mean0 (l : list vec3) : option vec3 :=
  match l with
  | [] => None
  | _ =>
      let n := inject_Z (Z.of_nat (length l)) in
      Some ((Qsum (map col0 l) / n)%Q,
            (Qsum (map col1 l) / n)%Q,
            (Qsum (map col2 l) / n)%Q)
  end.

(** Maximum and minimum of a column; the reduction needs one element. *)
Definition Qmaximum (l : list Q) : option Q :=
  match l with
  | [] => None
  | a :: l' => Some (fold_left Qmax l' a)
  end.
Definition Qminimum (l : list Q) : option Q :=
  match l with
  | [] => None
  | a :: l' => Some (fold_left Qmin l' a)
  end.

(** [(verts.max(0)[0] - verts.min(0)[0]).max()]. *)
Definition max_spread (verts : list vec3) : option Q :=
  match Qmaximum (map col0 verts), Qminimum (map col0 verts),
        Qmaximum (map col1 verts), Qminimum (map col1 verts),
        Qmaximum (map col2 verts), Qminimum (map col2 verts) with
  | Some x1, Some x0, Some y1, Some y0, Some z1, Some z0 =>
      Some (Qmax (Qmax (x1 - x0) (y1 - y0)) (z1 - z0))%Q
  | _, _, _, _, _, _ => None
  end.

(** [torch.unique]: the sorted list of the distinct values. *)
Fixpoint insert_unique (n : nat) (l : list nat) : list nat :=
  match l with
  | [] => [n]
  | m :: l' =>
      match Nat.compare n m with
      | Lt => n :: m :: l'
      | Eq => m :: l'
      | Gt => m :: insert_unique n l'
      end
  end.

Definition flatten_faces (faces : list face) : list nat :=
  flat_map (fun f : face => let '(a, b, c) := f in [a; b; c]) faces.

Definition unique (l : list nat) : list nat :=
  fold_right insert_unique [] l.

(** [mask[i] = True]; an index outside the mask raises. *)
Fixpoint set_true (mask : list bool) (i : nat) : option (list bool) :=
  match mask, i with
  | [], _ => None
  | _ :: mask', O => Some (true :: mask')
  | b :: mask', S i' => option_map (cons b) (set_true mask' i')
  end.

(** [mask[idxs] = True]. *)
Fixpoint index_put_true (mask : list bool) (idxs : list nat)
  : result (list bool) :=
  match idxs with
  | [] => Ok mask
  | i :: idxs' =>
      match set_true mask i with
      | Some mask' => index_put_true mask' idxs'
      | None => Raise (IndexError "index out of range in mask assignment")
      end
  end.

(** [verts[mask]]. *)
Definition masked_select (verts : list vec3) (mask : list bool) : list vec3 :=
  map fst (filter snd (combine verts mask)).

(** [verts[~mask] = c], where [c] is a finite row or the row of NaN: the
    rows of the result are finite ([Some]) or NaN ([None]). *)
Definition masked_fill_not (verts : list vec3) (mask : list bool)
  (c : option vec3) : list (option vec3) :=
  map (fun vb : vec3 * bool => if snd vb then Some (fst vb) else c)
      (combine verts mask).

(** The block "Reposition the unused vertices": the plotted vertices and
    [verts_center].  When no vertex is used the mean is NaN, and every
    vertex is moved there. *)
Definition reposition_unused (verts : list vec3) (faces : list face)
  : result (list (option vec3) * option vec3) :=
  let verts_used0 := repeat false (length verts) in
  match index_put_true verts_used0 (unique (flatten_faces faces)) with
  | Raise e => Raise e
  | Ok verts_used =>
      let verts_center := mean0 (masked_select verts verts_used) in
      Ok (masked_fill_not verts verts_used verts_center, verts_center)
  end.

(** The rows of a tensor when none of them is NaN. *)
Fixpoint all_finite {A} (l : list (option A)) : option (list A) :=
  match l with
  | [] => Some []
  | Some a :: l' => option_map (cons a) (all_finite l')
  | None :: _ => None
  end.

(** [(verts.max(0)[0] - verts.min(0)[0]).max()] on rows that may be NaN:
    the reductions raise on a tensor without rows, and a NaN row makes
    the result NaN. *)
Definition max_spread_float (verts : list (option vec3)) : result (option Q) :=
  match verts with
  | [] => Raise (TensorError "max of an empty tensor")
  | _ =>
      Ok (match all_finite verts with
          | Some rows => max_spread rows
          | None => None
          end)
  end.

(** ** Access to the figure *)

Definition scene_key (subplot_idx : Z) : string :=
  "scene" ++ Py.str (subplot_idx + 1).

Definition add_trace (d : trace_data) (name : string) (row col : Z) : M unit :=
  modify_fig (fun f =>
    mkFigure (fig_rows f) (fig_cols f) (fig_specs f) (fig_titles f)
      (fig_column_widths f) (fig_data f ++ [mkTrace d name row col])
      (fig_layout f)).

(** [fig["layout"][key]]. *)
Definition get_layout (key : string) : M scene :=
  f <- get_fig ;;
  ret (match Py.dict_get (fig_layout f) key with
       | Some sc => sc
       | None => empty_scene
       end).

Definition set_layout (key : string) (sc : scene) : M unit :=
  modify_fig (fun f =>
    mkFigure (fig_rows f) (fig_cols f) (fig_specs f) (fig_titles f)
      (fig_column_widths f) (fig_data f)
      (Py.dict_set (fig_layout f) key sc)).

(** ** [_add_mesh_trace] *)

Definition _add_mesh_trace (meshes : Meshes) (trace_name : string)
  (subplot_idx ncols : Z) (lighting : Lighting) : M unit :=
  let mesh := join_meshes_as_scene meshes in
  let verts := verts_packed mesh in
  let faces := faces_packed mesh in
  let verts_rgb :=
    match textures mesh with
    | TexturesVertex fs =>
        Some (map (vmap (fun c => (255 * Qclamp 0 1 c)%Q))
                  (verts_features_packed fs))
    | _ => None
    end in
  vc <- lift (reposition_unused verts faces) ;;
  let '(verts, verts_center) := vc in
  q <- py_floordiv subplot_idx ncols ;;
  r <- py_mod subplot_idx ncols ;;
  let row := q + 1 in
  let col := r + 1 in
  add_trace
    (Mesh3d (map (option_map col0) verts) (map (option_map col1) verts)
       (map (option_map col2) verts) verts_rgb
       (map (fun f : face => fst (fst f)) faces)
       (map (fun f : face => snd (fst f)) faces)
       (map (fun f : face => snd f) faces)
       lighting)
    trace_name row col ;;;
  let plot_scene := scene_key subplot_idx in
  current_layout <- get_layout plot_scene ;;
  max_expand <- lift (max_spread_float verts) ;;
  set_layout plot_scene
    (_update_axes_bounds_float verts_center max_expand current_layout).

(** ** Tensors of [_add_pointcloud_trace]

    The feature tensor changes its number of dimensions under
    [features[indices]], so it is modelled with its shape: a tensor is a
    scalar or a stack of tensors of shape [inner]. *)

#[warnings="-register-all"]
Inductive tensor :=
| Scalar (x : Q)
| Stack (inner : list nat) (elems : list tensor).

Definition shape (t : tensor) : list nat :=
  match t with
  | Scalar _ => []
  | Stack inner elems => length elems :: inner
  end.

Definition row_tensor (r : list Q) : tensor := Stack [] (map Scalar r).

(** Modelled from the spec: [features_packed()], the (N, C) tensor of the
    concatenated per-point features, or [None]. *)
Definition features_packed (p : Pointclouds) : option tensor :=
  option_map
    (fun cf : nat * list (list (list Q)) =>
       Stack [fst cf] (map row_tensor (concat (snd cf))))
    (features_list p).

(** [l[idxs]] for an integer array [idxs]. *)
Fixpoint gather {A} (l : list A) (idxs : list nat) : result (list A) :=
  match idxs with
  | [] => Ok []
  | i :: idxs' =>
      match nth_error l i, gather l idxs' with
      | Some a, Ok r => Ok (a :: r)
      | None, _ => Raise (IndexError "index out of range")
      | _, Raise e => Raise e
      end
  end.

(** [t[indices]]: [None] inserts a leading dimension of size one, an
    integer array selects along the first dimension. *)
Definition tensor_index (t : tensor) (indices : option (list nat))
  : result tensor :=
  match indices with
  | None => Ok (Stack (shape t) [t])
  | Some idxs =>
      match t with
      | Scalar _ => Raise (IndexError "too many indices for tensor")
      | Stack inner elems =>
          match gather elems idxs with
          | Ok r => Ok (Stack inner r)
          | Raise e => Raise e
          end
      end
  end.

(** [t.shape[1]]. *)
Definition shape1 (t : tensor) : result nat :=
  match shape t with
  | _ :: d :: _ => Ok d
  | _ => Raise (IndexError "tuple index out of range")
  end.

Definition take_elems (n : nat) (t : tensor) : tensor :=
  match t with
  | Scalar x => Scalar x
  | Stack inner elems => Stack inner (firstn n elems)
  end.

(** [t[:, :n]]. *)
Definition slice_dim1 (n : nat) (t : tensor) : result tensor :=
  match t with
  | Stack (d :: rest) elems =>
      Ok (Stack (Nat.min n d :: rest) (map (take_elems n) elems))
  | _ => Raise (IndexError "too many indices for tensor")
  end.

Definition nth_elem (n : nat) (t : tensor) : tensor :=
  match t with
  | Scalar x => Scalar x
  | Stack _ elems => nth n elems (Scalar 0)
  end.

(** [t[:, n]]. *)
Definition select_dim1 (n : nat) (t : tensor) : result tensor :=
  match t with
  | Stack (d :: rest) elems =>
      if (n <? d)%nat then Ok (Stack rest (map (nth_elem n) elems))
      else Raise (IndexError "index out of range")
  | _ => Raise (IndexError "too many indices for tensor")
  end.

Fixpoint tmap (f : Q -> Q) (t : tensor) : tensor :=
  match t with
  | Scalar x => Scalar (f x)
  | Stack inner elems => Stack inner (map (tmap f) elems)
  end.

(** Conversion of a tensor element to [int]: truncation toward zero. *)
Definition Qtrunc (q : Q) : Z := Z.quot (Qnum q) (Z.pos (Qden q)).

(** [(t.clamp(0.0, 1.0) * 255).int()]. *)
Definition to_rgb255 (t : tensor) : tensor :=
  tmap (fun c => inject_Z (Qtrunc (Qclamp 0 1 c * 255))) t.

(** Iteration over the first dimension. *)
Definition iter (t : tensor) : result (list tensor) :=
  match t with
  | Scalar _ => Raise (TypeError "iteration over a 0-d tensor")
  | Stack _ elems => Ok elems
  end.

(** Conversion to a Python scalar: the tensor must have one element. *)
Fixpoint item (t : tensor) : option Q :=
  match t with
  | Scalar x => Some x
  | Stack _ [e] => item e
  | Stack _ _ => None
  end.

(** *** The [%] operator on strings *)

Inductive piece :=
| Lit (s : string)
| PctD
| PctF.

Definition format_d (q : Q) : string := Py.str (Qtrunc q).

Fixpoint zeros (n : nat) : string :=
  match n with
  | O => EmptyString
  | S n' => String "0" (zeros n')
  end.

(** Left padding with zeros up to [width] characters. *)
Definition pad_zeros (width : nat) (s : string) : string :=
  (zeros (width - String.length s) ++ s)%string.

(** [%f]: six digits after the point, the exact value rounded half to
    even. *)
Definition format_f (q : Q) : string :=
  let n := Z.abs (Qnum q) * 1000000 in
  let d := Z.pos (Qden q) in
  let fl := n / d in
  let r := n mod d in
  let m := if 2 * r <? d then fl
           else if d <? 2 * r then fl + 1
           else if Z.even fl then fl else fl + 1 in
  ((if (Qnum q <? 0)%Z then "-" else "") ++
   Py.str (m / 1000000) ++ "." ++ pad_zeros 6 (Py.str (m mod 1000000)))%string.

Fixpoint py_format (template : list piece) (args : list tensor)
  : result string :=
  match template with
  | [] =>
      match args with
      | [] => Ok EmptyString
      | _ => Raise (TypeError "not all arguments converted during string formatting")
      end
  | Lit s :: template' =>
      match py_format template' args with
      | Ok r => Ok (s ++ r)%string
      | Raise e => Raise e
      end
  | spec :: template' =>
      match args with
      | [] => Raise (TypeError "not enough arguments for format string")
      | a :: args' =>
          match item a with
          | None =>
              Raise (ValueError
                "only one element tensors can be converted to Python scalars" [])
          | Some x =>
              match py_format template' args' with
              | Ok r =>
                  Ok ((match spec with PctF => format_f x | _ => format_d x end)
                      ++ r)%string
              | Raise e => Raise e
              end
          end
      end
  end.

Definition template_rgba : list piece :=
  [Lit "rgb("; PctD; Lit ", "; PctD; Lit ", "; PctD; Lit ", "; PctF; Lit ")"].

Definition template_rgb : list piece :=
  [Lit "rgb("; PctD; Lit ", "; PctD; Lit ", "; PctD; Lit ")"].

Fixpoint mapR {A B} (f : A -> result B) (l : list A) : result (list B) :=
  match l with
  | [] => Ok []
  | a :: l' =>
      match f a with
      | Raise e => Raise e
      | Ok b =>
          match mapR f l' with
          | Ok r => Ok (b :: r)
          | Raise e => Raise e
          end
      end
  end.

Definition bindR {A B} (r : result A) (k : A -> result B) : result B :=
  match r with
  | Ok a => k a
  | Raise e => Raise e
  end.

(** The rgba comprehension: each row of [rgb] is unpacked into the
    arguments of the template, followed by the matching element of
    [features[:, 3]]. *)
Definition colors_rgba (features : tensor) : result (list string) :=
  bindR (slice_dim1 3 features) (fun sl =>
  let rgb := to_rgb255 sl in
  bindR (select_dim1 3 features) (fun alpha =>
  bindR (iter rgb) (fun rgb_rows =>
  bindR (iter alpha) (fun alphas =>
  mapR (fun ra : tensor * tensor =>
          bindR (iter (fst ra)) (fun rgb_ =>
          py_format template_rgba (rgb_ ++ [snd ra])))
       (combine rgb_rows alphas))))).

(** The rgb comprehension: each row of [rgb] is unpacked into exactly
    three values [r, g, b]. *)
Definition colors_rgb (features : tensor) : result (list string) :=
  let rgb := to_rgb255 features in
  bindR (iter rgb) (fun rgb_rows =>
  mapR (fun row : tensor =>
          bindR (iter row) (fun rgb_ =>
          match rgb_ with
          | [r; g; b] => py_format template_rgb [r; g; b]
          | [] | [_] | [_; _] =>
              Raise (ValueError "not enough values to unpack" [])
          | _ => Raise (ValueError "too many values to unpack" [])
          end))
       rgb_rows).

(** The block computing [color] from [features] and [indices]. *)
Definition pointcloud_color (features : option tensor)
  (indices : option (list nat)) : result (option (list string)) :=
  match features with
  | None => Ok None
  | Some features0 =>
      bindR (tensor_index features0 indices) (fun features =>
      bindR (shape1 features) (fun channels =>
      bindR (if (channels =? 4)%nat
             then bindR (colors_rgba features) (fun c => Ok (Some c))
             else Ok None) (fun color =>
      if (channels =? 3)%nat
      then bindR (colors_rgb features) (fun c => Ok (Some c))
      else Ok color)))
  end.

(** ** [_add_pointcloud_trace] *)

(** [np.random.choice(n, k, replace=False)]: the next entry of the tape;
    an exhausted tape answers with the first [k] indices. *)
Definition random_choice (n : nat) (k : Z) : M (list nat) :=
  if k <? 0
  then raise (ValueError "negative dimensions are not allowed" [])
  else fun s =>
    match st_rng s with
    | [] => (s, Ok (seq 0 (Z.to_nat k)))
    | draw :: tape => (mkState (st_warnings s) tape (st_fig s), Ok draw)
    end.

(** The block [indices = None; if verts.shape[0] > total_points_count: ...]:
    the indices drawn, if any, and the points that are kept. *)
Definition subsample (verts : list vec3) (total_points_count : Z)
  : M (option (list nat) * list vec3) :=
  if total_points_count <? Z.of_nat (length verts)
  then
    indices <- random_choice (length verts) total_points_count ;;
    verts' <- lift (gather verts indices) ;;
    ret (Some indices, verts')
  else ret (None, verts).

Definition _add_pointcloud_trace (pointclouds : Pointclouds)
  (trace_name : string) (subplot_idx ncols : Z)
  (max_points_per_pointcloud : Z) (marker_size : Z) : M unit :=
  let verts := points_packed pointclouds in
  let features := features_packed pointclouds in
  let total_points_count :=
    max_points_per_pointcloud * Z.of_nat (len (SPointclouds pointclouds)) in
  iv <- subsample verts total_points_count ;;
  let '(indices, verts) := iv in
  color <- lift (pointcloud_color features indices) ;;
  q <- py_floordiv subplot_idx ncols ;;
  let row := q + 1 in
  r <- py_mod subplot_idx ncols ;;
  let col := r + 1 in
  add_trace
    (Scatter3d (map col0 verts) (map col1 verts) (map col2 verts)
       color marker_size "markers")
    trace_name row col ;;;
  let plot_scene := scene_key subplot_idx in
  current_layout <- get_layout plot_scene ;;
  let verts_center := mean0 verts in
  max_expand <- lift (max_spread_float (map Some verts)) ;;
  set_layout plot_scene
    (_update_axes_bounds_float verts_center max_expand current_layout).

(** ** [plot_scene] *)

(** The keyword arguments of [plot_scene] other than [ncols]. *)
Record options := mkOptions {
  pointcloud_max_points : Z;
  pointcloud_marker_size : Z;
  kw_lighting : option Lighting;
  kw_axis_args : option AxisArgs;
  kw_xaxis : option (Py.dict setting);
  kw_yaxis : option (Py.dict setting);
  kw_zaxis : option (Py.dict setting)
}.

Definition default_options : options :=
  mkOptions 20000 1 None None None None None.

(** [kwargs.get(key, default)]. *)
Definition kwargs_get {A} (o : option A) (default : A) : A :=
  match o with
  | Some a => a
  | None => default
  end.

Definition struct_error (struct : pyobj) : exn :=
  ValueError "struct {} is not a Meshes or Pointclouds object" [struct].

(** The [isinstance] dispatch on one item of a subplot. *)
Definition add_struct_trace (subplot_idx ncols : Z) (o : options)
  (lighting : Lighting) (item : string * pyobj) : M unit :=
  let '(trace_name, struct) := item in
  match struct with
  | PStruct (SMeshes m) =>
      _add_mesh_trace m trace_name subplot_idx ncols lighting
  | PStruct (SPointclouds p) =>
      _add_pointcloud_trace p trace_name subplot_idx ncols
        (pointcloud_max_points o) (pointcloud_marker_size o)
  | _ => raise (struct_error struct)
  end.

(** [axis.update] with the settings as keyword arguments: the axis
    records every setting, and a range among them replaces the range of
    the axis. *)
Definition axis_update (a : axis) (settings : Py.dict setting) : axis :=
  mkAxis (match Py.dict_get settings "range" with
          | Some (SRange lo hi) => Range (lo, hi)
          | _ => ax_range a
          end)
         (Py.dict_update (ax_props a) settings).

(** The block "Ensure update for every subplot". *)
Definition style_subplot (subplot_idx : Z)
  (x_settings y_settings z_settings : Py.dict setting) : M unit :=
  let plot_scene := scene_key subplot_idx in
  current_layout <- get_layout plot_scene ;;
  set_layout plot_scene
    (mkScene (axis_update (xaxis current_layout) x_settings)
             (axis_update (yaxis current_layout) y_settings)
             (axis_update (zaxis current_layout) z_settings)
             (Some "cube")
             (Some (0, 1, 0))).

(** The body of the loop over [range(len(subplots))]. *)
Definition plot_subplot (plots : Py.dict (Py.dict pyobj))
  (subplots : list string) (ncols : Z) (o : options) (lighting : Lighting)
  (x_settings y_settings z_settings : Py.dict setting)
  (subplot_idx : nat) : M unit :=
  match nth_error subplots subplot_idx with
  | None => raise (IndexError "list index out of range")
  | Some subplot_name =>
      match Py.dict_get plots subplot_name with
      | None => raise (KeyError subplot_name)
      | Some traces =>
          for_ traces
            (add_struct_trace (Z.of_nat subplot_idx) ncols o lighting) ;;;
          style_subplot (Z.of_nat subplot_idx) x_settings y_settings z_settings
      end
  end.

Definition plot_scene (plots : Py.dict (Py.dict pyobj)) (ncols : Z)
  (o : options) : M figure :=
  let subplots := Py.keys plots in
  _gen_fig_with_subplots (Z.of_nat (length subplots)) ncols subplots ;;;
  let lighting := kwargs_get (kw_lighting o) Lighting_default in
  let axis_args_dict :=
    AxisArgs_asdict (kwargs_get (kw_axis_args o) AxisArgs_default) in
  let x_settings := Py.dict_update axis_args_dict (kwargs_get (kw_xaxis o) []) in
  let y_settings := Py.dict_update axis_args_dict (kwargs_get (kw_yaxis o) []) in
  let z_settings := Py.dict_update axis_args_dict (kwargs_get (kw_zaxis o) []) in
  for_ (seq 0 (length subplots))
    (plot_subplot plots subplots ncols o lighting
       x_settings y_settings z_settings) ;;;
  get_fig.

(** ** [_add_struct_from_batch] and [plot_batch_individually] *)

Definition scene_dict : Type := Py.dict (Py.dict pyobj).

(** ["trace{}-{}".format(scene_num + 1, trace_idx)] *)
Definition trace_name_of (scene_num trace_idx : Z) : string :=
  "trace" ++ Py.str (scene_num + 1) ++ "-" ++ Py.str trace_idx.

Definition _add_struct_from_batch (batched_struct : structure)
  (scene_num : Z) (subplot_title : string) (scene_dictionary : scene_dict)
  (trace_idx : Z) : result scene_dict :=
  let struct_idx := Z.min scene_num (Z.of_nat (len batched_struct) - 1) in
  bindR (getitem batched_struct struct_idx) (fun struct =>
  let trace_name := trace_name_of scene_num trace_idx in
  match Py.dict_get scene_dictionary subplot_title with
  | None => Raise (KeyError subplot_title)
  | Some traces =>
      Ok (Py.dict_set scene_dictionary subplot_title
            (Py.dict_set traces trace_name (PStruct struct)))
  end).

(** The first argument of [plot_batch_individually]: one structure or a
    list of structures. *)
Inductive batched :=
| Single (s : structure)
| Batch (l : list structure).

Fixpoint foldR {A S} (f : S -> A -> result S) (l : list A) (s : S)
  : result S :=
  match l with
  | [] => Ok s
  | a :: l' => bindR (f s a) (foldR f l')
  end.

Definition enumerate {A} (l : list A) : list (nat * A) :=
  combine (seq 0 (length l)) l.

(** Truth value of an optional list: [None] and [[]] are false. *)
Definition truthy {A} (o : option (list A)) : bool :=
  match o with
  | Some (_ :: _) => true
  | _ => false
  end.

(** The title of subplot [scene_num]. *)
Definition subplot_title_of (subplot_titles : option (list string))
  (scene_num : nat) : result string :=
  if truthy subplot_titles
  then match nth_error (kwargs_get subplot_titles []) scene_num with
       | Some t => Ok t
       | None => Raise (IndexError "list index out of range")
       end
  else Ok ("subplot " ++ Py.str (Z.of_nat scene_num + 1)).

(** One iteration of the loop "construct the scene dictionary". *)
Definition add_scene (batched_structs : batched) (extend_struct : bool)
  (subplot_titles : option (list string))
  (scene_dictionary : scene_dict) (scene_num : nat) : result scene_dict :=
  bindR (subplot_title_of subplot_titles scene_num) (fun subplot_title =>
  let scene_dictionary := Py.dict_set scene_dictionary subplot_title [] in
  match batched_structs with
  | Batch l =>
      foldR (fun sd (ib : nat * structure) =>
               let '(i, batched_struct) := ib in
               if (len batched_struct <=? i)%nat && negb extend_struct
               then Ok sd
               else _add_struct_from_batch batched_struct
                      (Z.of_nat scene_num) subplot_title sd (Z.of_nat i + 1))
            (enumerate l) scene_dictionary
  | Single s =>
      _add_struct_from_batch s (Z.of_nat scene_num) subplot_title
        scene_dictionary 1
  end).

(** The loop "construct the scene dictionary". *)
Definition build_scene_dictionary (batched_structs : batched)
  (max_size : nat) (extend_struct : bool)
  (subplot_titles : option (list string)) : result scene_dict :=
  foldR (add_scene batched_structs extend_struct subplot_titles)
        (seq 0 max_size) [].

(** The check "every batch is the same size or is size 1". *)
Definition check_batch_sizes (batched_structs : batched) : M nat :=
  match batched_structs with
  | Batch l =>
      let max_size := list_max (map len l) in
      for_ l (fun struct =>
        if negb ((len struct =? 1)%nat || (len struct =? max_size)%nat)
        then raise (ValueError "invalid batch size {} provided: {}"
                      [PInt (Z.of_nat (len struct)); PStruct struct])
        else ret tt) ;;;
      ret max_size
  | Single s => ret (len s)
  end.

(** [len(batched_structs)]: the number of list entries, or the batch
    length of a single structure. *)
Definition batched_len (batched_structs : batched) : nat :=
  match batched_structs with
  | Batch l => length l
  | Single s => len s
  end.

Definition plot_batch_individually (batched_structs : batched) (ncols : Z)
  (extend_struct : bool) (subplot_titles : option (list string))
  (o : options) : M (option figure) :=
  if (batched_len batched_structs =? 0)%nat
  then warn "No structs to plot" ;;; ret None
  else
    max_size <- check_batch_sizes batched_structs ;;
    (if (max_size =? 0)%nat
     then raise (ValueError "No data is provided with at least one element" [])
     else ret tt) ;;;
    (if truthy subplot_titles
     then if negb (length (kwargs_get subplot_titles []) =? max_size)%nat
          then raise (ValueError "invalid number of subplot titles" [])
          else ret tt
     else ret tt) ;;;
    scene_dictionary <-
      lift (build_scene_dictionary batched_structs max_size
              extend_struct subplot_titles) ;;
    fig <- plot_scene scene_dictionary ncols o ;;
    ret (Some fig).

Definition init_state : state := mkState [] [] None.

(** ** Vocabulary of the statements *)

Inductive axis_name := AxX | AxY | AxZ.

Definition range_of (a : axis_name) (sc : scene) : option range :=
  match a with
  | AxX => finite_range (ax_range (xaxis sc))
  | AxY => finite_range (ax_range (yaxis sc))
  | AxZ => finite_range (ax_range (zaxis sc))
  end.

Definition coord (a : axis_name) (c : vec3) : Q :=
  match a with
  | AxX => col0 c
  | AxY => col1 c
  | AxZ => col2 c
  end.

(** The interval a trace induces on one axis. *)
Definition cube (a : axis_name) (center : vec3) (extent : Q) : range :=
  ((coord a center - extent)%Q, (coord a center + extent)%Q).

(** [outer] is a superset of [inner]. *)
Definition contains (outer inner : range) : Prop :=
  (fst outer <= fst inner)%Q /\ (snd inner <= snd outer)%Q.

(** The traces of one subplot, each given by the center and the extent
    it reports, added in list order. *)
Definition add_all (traces : list (vec3 * Q)) (layout : scene) : scene :=
  fold_left (fun sc t => _update_axes_bounds (fst t) (snd t) sc) traces layout.





(** The layout of a subplot in a figure. *)
Definition layout_of (f : figure) (subplot_idx : Z) : scene :=
  match Py.dict_get (fig_layout f) (scene_key subplot_idx) with
  | Some sc => sc
  | None => empty_scene
  end.

(** The exceptions raised by the [raise] statements of this module, as
    opposed to those that come out of Python, the tensor library or the
    array library. *)
Definition module_error (e : exn) : bool :=
  match e with
  | ValueError template _ =>
      (template =? "struct {} is not a Meshes or Pointclouds object")%string
      || (template =? "invalid batch size {} provided: {}")%string
      || (template =? "No data is provided with at least one element")%string
      || (template =? "invalid number of subplot titles")%string
  | _ => false
  end.

Definition library_error (e : exn) : Prop := module_error e = false.

(** The two figures have the same grid. *)
Definition same_grid (f f' : figure) : Prop :=
  fig_rows f' = fig_rows f /\ fig_cols f' = fig_cols f
  /\ fig_specs f' = fig_specs f /\ fig_titles f' = fig_titles f.

(** Name, row and column of a trace. *)
Definition trace_key (t : trace) : string * Z * Z :=
  (tr_name t, tr_row t, tr_col t).

(** Row and column (1-based) of the subplot [subplot_idx]. *)
Definition cell_of (subplot_idx ncols : Z) (name : string) : string * Z * Z :=
  (name, subplot_idx / ncols + 1, subplot_idx mod ncols + 1).

(** Started on a figure, [c] either appends traces with the keys [added]
    to it and keeps its grid, or stops with an exception that is not one
    of this module. *)
Definition adds_traces (added : list (string * Z * Z)) (c : M unit) : Prop :=
  forall s f, st_fig s = Some f ->
    match c s with
    | (s', Ok _) =>
        exists f', st_fig s' = Some f' /\ same_grid f f'
                   /\ map trace_key (fig_data f')
                      = (map trace_key (fig_data f) ++ added)%list
    | (_, Raise e) => library_error e
    end.

(** The exceptions [plot_scene] can raise. *)
Definition scene_error (e : exn) : Prop :=
  library_error e \/ exists v, e = struct_error v.

(** [c] raises only exceptions that satisfy [P]. *)
Definition raises_only {A} (P : exn -> Prop) (c : M A) : Prop :=
  forall s s' e, c s = (s', Raise e) -> P e.

Definition raises_onlyR {A} (P : exn -> Prop) (r : result A) : Prop :=
  forall e, r = Raise e -> P e.

Definition is_struct (v : pyobj) : bool :=
  match v with
  | PStruct _ => true
  | _ => false
  end.

Definition invalid (v : pyobj) : bool := negb (is_struct v).

(** The values of a scene dictionary in the order [plot_scene] visits
    them. *)
Definition scene_values (plots : scene_dict) : list pyobj :=
  flat_map (fun kv : string * Py.dict pyobj => map snd (snd kv)) plots.

(** The first value that is neither a [Meshes] nor a [Pointclouds], and
    the number of values before it. *)
Definition first_invalid (plots : scene_dict) : option pyobj :=
  find invalid (scene_values plots).

Fixpoint count_while {A} (p : A -> bool) (l : list A) : nat :=
  match l with
  | [] => 0
  | a :: l' => if p a then S (count_while p l') else 0
  end.

Definition valid_before (plots : scene_dict) : nat :=
  count_while is_struct (scene_values plots).

(** The loop body of [plot_scene] on the [subplot_idx]-th item of the
    dictionary. *)
Definition plot_subplot_item (ncols : Z) (o : options) (lighting : Lighting)
  (x_settings y_settings z_settings : Py.dict setting)
  (it : nat * (string * Py.dict pyobj)) : M unit :=
  for_ (snd (snd it))
    (add_struct_trace (Z.of_nat (fst it)) ncols o lighting) ;;;
  style_subplot (Z.of_nat (fst it)) x_settings y_settings z_settings.

(** The items of numbered subplots in the order [plot_scene] visits
    them, each with the index of its subplot. *)
Definition items_of (numbered : list (nat * (string * Py.dict pyobj)))
  : list (nat * (string * pyobj)) :=
  flat_map (fun it : nat * (string * Py.dict pyobj) =>
              map (pair (fst it)) (snd (snd it)))
           numbered.


(** Adding the trace of item [k] of [items], a structure, raised [e] and
    left the state [s']; the [k] traces before it had been added to the
    figure [f] by then. *)
Definition trace_raised (ncols : Z) (o : options) (lighting : Lighting)
  (items : list (nat * (string * pyobj))) (f : figure) (k : nat)
  (s' : state) (e : exn) : Prop :=
  exists idx name st s1 f1,
    nth_error items k = Some (idx, (name, PStruct st))
    /\ st_fig s1 = Some f1
    /\ same_grid f f1
    /\ length (fig_data f1) = (length (fig_data f) + k)%nat
    /\ add_struct_trace (Z.of_nat idx) ncols o lighting (name, PStruct st) s1
       = (s', Raise e).

(** The outcome of a loop of [plot_scene] over [items], started on the
    figure [f]; [n] is the number of structures before the first value
    that is none, [ahead], if there is one.  The loop returns only when
    no such value is ahead, having appended the traces [added].  When it
    raises, either it has reached [ahead] after adding the [n] traces
    before it and raises the invalid-input error for it, or adding one of
    these [n] traces raised. *)
Definition loop_outcome (ncols : Z) (o : options) (lighting : Lighting)
  (items : list (nat * (string * pyobj))) (ahead : option pyobj) (n : nat)
  (added : list (string * Z * Z)) (f : figure)
  (r : state * result unit) : Prop :=
  match snd r with
  | Ok _ =>
      ahead = None
      /\ exists f', st_fig (fst r) = Some f' /\ same_grid f f'
           /\ map trace_key (fig_data f')
              = (map trace_key (fig_data f) ++ added)%list
  | Raise e =>
      (exists v, ahead = Some v /\ e = struct_error v
         /\ exists f', st_fig (fst r) = Some f' /\ same_grid f f'
              /\ length (fig_data f') = (length (fig_data f) + n)%nat)
      \/ (exists k, (k < n)%nat
            /\ trace_raised ncols o lighting items f k (fst r) e)
  end.

(** The keys of the traces [plot_scene] adds for the items [items] of a
    scene dictionary. *)
Definition keys_of_traces (ncols : Z) (idx : nat) (traces : Py.dict pyobj)
  : list (string * Z * Z) :=
  map (fun nv : string * pyobj => cell_of (Z.of_nat idx) ncols (fst nv)) traces.

Definition keys_of_items (ncols : Z)
  (items : list (nat * (string * Py.dict pyobj))) : list (string * Z * Z) :=
  flat_map (fun it : nat * (string * Py.dict pyobj) =>
              keys_of_traces ncols (fst it) (snd (snd it))) items.

(** Position [i] of a list input is left out of the subplots. *)
Definition skipped (extend_struct : bool) (ib : nat * structure) : bool :=
  (len (snd ib) <=? fst ib)%nat && negb extend_struct.

(** The generated title of subplot [n]. *)
Definition default_title (n : nat) : string :=
  "subplot " ++ Py.str (Z.of_nat n + 1).

(** The entry of subplot [n] for the structure at list position [i]. *)
Definition expected_trace (n : nat) (ib : nat * structure)
  : string * pyobj :=
  (trace_name_of (Z.of_nat n) (Z.of_nat (fst ib) + 1),
   PStruct (select (snd ib) (Nat.min n (len (snd ib) - 1)))).

Definition expected_traces (extend_struct : bool) (n : nat)
  (l : list (nat * structure)) : Py.dict pyobj :=
  map (expected_trace n) (filter (fun ib => negb (skipped extend_struct ib)) l).

(** The scene dictionary for generated titles, in closed form. *)
Definition expected_scene (b : batched) (extend_struct : bool)
  (max_size : nat) : scene_dict :=
  map (fun n =>
         (default_title n,
          match b with
          | Batch l => expected_traces extend_struct n (enumerate l)
          | Single s => [expected_trace n (0%nat, s)]
          end))
      (seq 0 max_size).

(** What [plot_batch_individually] does once the batch sizes are known
    to be fine. *)
Definition plot_checked (b : batched) (max_size : nat) (ncols : Z)
  (extend_struct : bool) (subplot_titles : option (list string))
  (o : options) : M (option figure) :=
  (if truthy subplot_titles
   then if negb (length (kwargs_get subplot_titles []) =? max_size)%nat
        then raise (ValueError "invalid number of subplot titles" [])
        else ret tt
   else ret tt) ;;;
  scene_dictionary <-
    lift (build_scene_dictionary b max_size extend_struct subplot_titles) ;;
  fig <- plot_scene scene_dictionary ncols o ;;
  ret (Some fig).

Definition title_error (e : exn) : Prop :=
  scene_error e \/ e = ValueError "invalid number of subplot titles" [].

(** The largest batch length among the inputs. *)
Definition max_size_of (b : batched) : nat :=
  match b with
  | Batch l => list_max (map len l)
  | Single s => len s
  end.

(** The input passes the checks that precede the title check. *)
Definition valid_batch (b : batched) : Prop :=
  batched_len b <> 0%nat
  /\ max_size_of b <> 0%nat
  /\ match b with
     | Batch l =>
         Forall (fun s => len s = 1%nat \/ len s = max_size_of b) l
     | Single _ => True
     end.

(** Started on a figure that satisfies [P], a run of [c] that returns
    leaves a figure that satisfies [Q]. *)
Definition triple (P : figure -> Prop) (c : M unit) (Q : figure -> Prop)
  : Prop :=
  forall s s' f, st_fig s = Some f -> P f -> c s = (s', Ok tt) ->
    exists f', st_fig s' = Some f' /\ Q f'.

(** The settings [plot_scene] gives an axis: those of [axis_args],
    overridden by the keyword argument of that axis. *)
Definition axis_settings (o : options) (kw : option (Py.dict setting))
  : Py.dict setting :=
  Py.dict_update
    (AxisArgs_asdict (kwargs_get (kw_axis_args o) AxisArgs_default))
    (kwargs_get kw []).

(** A subplot after the block "Ensure update for every subplot". *)
Definition styled (o : options) (layout : scene) : Prop :=
  aspectmode layout = Some "cube"
  /\ camera_up layout = Some (0, 1, 0)
  /\ ax_props (xaxis layout) = axis_settings o (kw_xaxis o)
  /\ ax_props (yaxis layout) = axis_settings o (kw_yaxis o)
  /\ ax_props (zaxis layout) = axis_settings o (kw_zaxis o).

(** A subplot whose axes carry no setting yet. *)
Definition unstyled (layout : scene) : Prop :=
  ax_props (xaxis layout) = []
  /\ ax_props (yaxis layout) = []
  /\ ax_props (zaxis layout) = [].

(** The traces of subplot [n] of [plot_batch_individually]. *)
Definition scene_traces (b : batched) (extend_struct : bool) (n : nat)
  : Py.dict pyobj :=
  match b with
  | Batch l => expected_traces extend_struct n (enumerate l)
  | Single s => [expected_trace n (0%nat, s)]
  end.

(** The assignments [scene_dictionary[title] = traces of scene n], one per
    numbered title, in order. *)
Definition assign_scenes (b : batched) (extend_struct : bool)
  (titled : list (nat * string)) (sd : scene_dict) : scene_dict :=
  fold_left
    (fun sd (nt : nat * string) =>
       Py.dict_set sd (snd nt) (scene_traces b extend_struct (fst nt)))
    titled sd.

(** [c] emits no warning, whether it returns or raises. *)
Definition quiet {A} (c : M A) : Prop :=
  forall s, st_warnings (fst (c s)) = st_warnings s.

(** ** Example inputs *)

(** A triangle with a fourth vertex that no face references. *)
Definition mesh_with_unused : Meshes :=
  mkMeshes [[(0, 0, 0); (3, 0, 0); (0, 3, 0); (9, 9, 9)]%Q]
           [[(0, 1, 2)%nat]] NoTextures.

Definition triangle : list vec3 := [(0, 0, 0); (1, 0, 0); (0, 1, 0)]%Q.

(** Batches of one, two and three triangles. *)
Definition one_mesh : structure :=
  SMeshes (mkMeshes [triangle] [[(0, 1, 2)%nat]] NoTextures).

Definition two_meshes : structure :=
  SMeshes (mkMeshes [triangle; triangle]
                    [[(0, 1, 2)%nat]; [(0, 1, 2)%nat]] NoTextures).

Definition three_meshes : structure :=
  SMeshes (mkMeshes [triangle; triangle; triangle]
                    [[(0, 1, 2)%nat]; [(0, 1, 2)%nat]; [(0, 1, 2)%nat]]
                    NoTextures).

(** A batch of two point clouds without features. *)
Definition two_clouds : structure :=
  SPointclouds (mkPointclouds [triangle; triangle] None).

(** A batch of length zero. *)
Definition no_meshes : structure := SMeshes (mkMeshes [] [] NoTextures).

(** Three points with one feature channel, and five points with three. *)
Definition cloud_one_channel : Pointclouds :=
  mkPointclouds [triangle]
    (Some (1%nat, [[[2 # 10]; [5 # 10]; [15 # 10]]%Q])).

Definition cloud_three_channels : Pointclouds :=
  mkPointclouds [[(0, 0, 0); (1, 0, 0); (0, 1, 0); (1, 1, 1); (2, 2, 2)]%Q]
    (Some (3%nat, [[[0; 1; 5 # 10]; [2 # 10; 4 # 10; 2]; [1; 1; 1];
                    [0; 0; 0]; [-1; 25 # 100; 75 # 100]]%Q])).


(** An empty one-cell figure. *)
Definition one_cell_figure : figure :=
  mkFigure 1 1 [["scene"]] ["subplot"] [1%Q] [] [].

Definition one_cell_state : state := mkState [] [] (Some one_cell_figure).

(** Two traces of one subplot, by center and extent. *)
Definition two_traces : list (vec3 * Q) :=
  [((0, 0, 0)%Q, 1%Q); ((5, 5, 5)%Q, 2%Q)].

(** A scene of two subplots: a mesh and a point cloud, then a mesh. *)
Definition two_subplots : scene_dict :=
  [("left", [("mesh", PStruct (SMeshes mesh_with_unused));
             ("cloud", PStruct (SPointclouds cloud_three_channels))]);
   ("right", [("triangle", PStruct one_mesh)])].

(** ** The axis-bounds accumulator *)

Section AxisBounds.















(** The range of one axis after an update, in terms of [widen]. *)
Lemma range_of_update (a : axis_name) (c : vec3) (h : Q) (L : scene) :
  range_of a (_update_axes_bounds c h L)
  = Some (widen (cube a c h) (range_of a L)).
Proof.
  destruct c as [[x y] z]. destruct a; reflexivity.
Qed.




End AxisBounds.



(** ** Unused vertices of a mesh *)

Section MeshVertices.

Local Open Scope nat_scope.



Lemma insert_unique_In (n x : nat) (l : list nat) :
  In x (insert_unique n l) <-> x = n \/ In x l.
Proof.
  induction l as [|m l IH]; cbn [insert_unique].
  - cbn. intuition.
  - destruct (Nat.compare_spec n m); cbn [In] in *; subst; intuition.
Qed.

Lemma unique_In (x : nat) (l : list nat) : In x (unique l) <-> In x l.
Proof.
  unfold unique. induction l as [|n l IH]; cbn [fold_right]; [tauto|].
  rewrite insert_unique_In, IH. cbn. intuition.
Qed.


End MeshVertices.

Section MeshCentroid.





End MeshCentroid.

Section MeshTrace.

Lemma mean0_some (l : list vec3) : l <> [] -> exists m, mean0 l = Some m.
Proof. destruct l; [congruence | eexists; reflexivity]. Qed.




Lemma max_spread_some (l : list vec3) :
  l <> [] -> exists e, max_spread l = Some e.
Proof. destruct l; [congruence | eexists; reflexivity]. Qed.




Lemma all_finite_map_Some {A} (l : list A) : all_finite (map Some l) = Some l.
Proof.
  induction l as [|a l IH]; cbn; [reflexivity | now rewrite IH].
Qed.

Lemma max_spread_float_finite (l : list vec3) :
  l <> [] -> max_spread_float (map Some l) = Ok (max_spread l).
Proof.
  intros Hne. unfold max_spread_float. rewrite all_finite_map_Some.
  destruct l; [congruence | reflexivity].
Qed.


End MeshTrace.

Lemma dict_get_set_same {V} (d : Py.dict V) (k : string) (v : V) :
  Py.dict_get (Py.dict_set d k v) k = Some v.
Proof.
  induction d as [|[k' v'] d IH]; cbn.
  - now rewrite String.eqb_refl.
  - destruct (String.eqb k' k) eqn:E; cbn.
    + now rewrite String.eqb_refl.
    + now rewrite E.
Qed.



(** ** The grid of subplots *)

Lemma list_mul_singleton {A} (a : A) (n : Z) :
  list_mul [a] n = repeat a (Z.to_nat n).
Proof.
  unfold list_mul. induction (Z.to_nat n) as [|k IH]; cbn; [reflexivity|].
  now rewrite IH.
Qed.

(** C8, as the code has it. When the column count is positive and does
    not divide the scene count, [_gen_fig_with_subplots] emits one warning
    and goes on to ask the plotting library for a grid of
    [scene_count // ncols] rows (floor division) and [ncols] columns.
    With more scenes than columns the grid is built, every cell being a
    3D-scene subplot, and it has fewer cells than there are scenes.  With
    fewer scenes than columns the number of rows is not positive: the
    library refuses the grid, the call raises its [ValueError] after the
    warning, and no figure is made. *)
Theorem gen_fig_with_subplots_truncated_grid
  (scene_count ncols : Z) (titles : list string) (s : state) :
  0 < ncols ->
  scene_count mod ncols <> 0 ->
  (ncols < scene_count ->
   exists f,
     _gen_fig_with_subplots scene_count ncols titles s
     = (mkState (st_warnings s
                 ++ ["ncols is invalid for the given mesh batch size."])
                (st_rng s) (Some f), Ok tt)
     /\ fig_rows f = scene_count / ncols
     /\ 1 <= fig_rows f
     /\ fig_cols f = ncols
     /\ fig_rows f * fig_cols f < scene_count
     /\ fig_specs f
        = repeat (repeat "scene" (Z.to_nat ncols))
                 (Z.to_nat (scene_count / ncols))
     /\ fig_titles f = titles
     /\ fig_data f = [])
  /\ (scene_count < ncols ->
      _gen_fig_with_subplots scene_count ncols titles s
      = (mkState (st_warnings s
                  ++ ["ncols is invalid for the given mesh batch size."])
                 (st_rng s) (st_fig s),
         Raise (ValueError
                  "The 'rows' argument to make_subplots must be an int greater than 0."
                  [PInt (scene_count / ncols)]))).
Proof.
  intros Hpos Hmod.
  assert (Hrun :
    _gen_fig_with_subplots scene_count ncols titles s
    = (fig <- lift (make_subplots (scene_count / ncols) ncols
                      (list_mul [list_mul ["scene"] ncols]
                         (scene_count / ncols))
                      titles (list_mul [1%Q] ncols)) ;;
       set_fig fig)
        (mkState (st_warnings s
                  ++ ["ncols is invalid for the given mesh batch size."])
                 (st_rng s) (st_fig s))).
  { unfold _gen_fig_with_subplots, py_mod, py_floordiv.
    destruct (Z.eqb_spec ncols 0) as [E|_]; [lia|].
    unfold bind at 1. unfold ret at 1.
    destruct (Z.eqb_spec (scene_count mod ncols) 0) as [E|_];
      [contradiction|].
    reflexivity. }
  rewrite Hrun. unfold bind, lift, make_subplots, set_fig.
  cbn [st_warnings st_rng st_fig].
  pose proof (Z.div_mod scene_count ncols) as Hdm.
  pose proof (Z.mod_pos_bound scene_count ncols Hpos) as Hb.
  split; intros Hcmp.
  - assert (Hrows : 1 <= scene_count / ncols).
    { assert (0 < scene_count / ncols); [| lia].
      apply Z.div_str_pos. lia. }
    destruct (Z.leb_spec (scene_count / ncols) 0) as [?|_]; [lia|].
    destruct (Z.leb_spec ncols 0) as [?|_]; [lia|].
    eexists. split; [reflexivity|].
    cbn [fig_rows fig_cols fig_specs fig_titles fig_data].
    rewrite !list_mul_singleton. repeat split; lia.
  - assert (Hrows : scene_count / ncols <= 0).
    { assert (scene_count / ncols < 1); [| lia].
      apply Z.div_lt_upper_bound; lia. }
    destruct (Z.leb_spec (scene_count / ncols) 0) as [_|?]; [| lia].
    reflexivity.
Qed.

Lemma gen_fig_with_subplots_truncated_grid_witness :
  exists f,
    _gen_fig_with_subplots 5 2 ["a"; "b"; "c"; "d"; "e"] init_state
    = (mkState ([] ++ ["ncols is invalid for the given mesh batch size."])
               [] (Some f), Ok tt)
    /\ fig_rows f = 5 / 2
    /\ 1 <= fig_rows f
    /\ fig_cols f = 2
    /\ fig_rows f * fig_cols f < 5
    /\ fig_specs f = repeat (repeat "scene" (Z.to_nat 2)) (Z.to_nat (5 / 2))
    /\ fig_titles f = ["a"; "b"; "c"; "d"; "e"]
    /\ fig_data f = [].
Proof.
  apply (gen_fig_with_subplots_truncated_grid 5 2 ["a"; "b"; "c"; "d"; "e"]
           init_state).
  - lia.
  - vm_compute. discriminate.
  - lia.
Defined.

(** The claim C8 as stated (the call always proceeds to a built grid)
    does not hold: for one scene and two columns the warning is emitted,
    the grid would have no row, the plotting library refuses it and no
    figure is made. *)
Lemma gen_fig_with_subplots_no_row_raises :
  exists e,
    _gen_fig_with_subplots 1 2 ["a"] init_state
    = (mkState ["ncols is invalid for the given mesh batch size."] [] None,
       Raise e).
Proof. eexists. vm_compute. reflexivity. Qed.

(** ** The checks of [plot_batch_individually] *)

(** C6, as the code has it. For the empty list [plot_batch_individually]
    raises nothing: it emits the warning "No structs to plot" and returns
    [None], without building a figure. *)
Theorem plot_batch_individually_empty_list
  (ncols : Z) (extend_struct : bool) (subplot_titles : option (list string))
  (o : options) (s : state) :
  plot_batch_individually (Batch []) ncols extend_struct subplot_titles o s
  = (mkState (st_warnings s ++ ["No structs to plot"]) (st_rng s) (st_fig s),
     Ok None).
Proof. reflexivity. Qed.

(** The claim C6 as stated (the call fails with an exception) does not
    hold for the empty list. *)
Lemma plot_batch_individually_empty_list_no_error :
  ~ exists s' e,
      plot_batch_individually (Batch []) 1 true None default_options init_state
      = (s', Raise e).
Proof.
  intros (s' & e & H). cbv in H. discriminate.
Qed.

(** ** Where exceptions come from *)

Section Raises.

Variable P : exn -> Prop.

Lemma raises_onlyR_Ok {A} (a : A) : raises_onlyR P (Ok a).
Proof. intros e H. discriminate. Qed.

Lemma raises_onlyR_Raise {A} (e : exn) : P e -> raises_onlyR P (@Raise A e).
Proof. intros H e' [= <-]. exact H. Qed.

Lemma raises_onlyR_cast {A B} (e : exn) :
  raises_onlyR P (@Raise A e) -> raises_onlyR P (@Raise B e).
Proof. intros H e' [= <-]. now apply H. Qed.

Lemma raises_onlyR_bind {A B} (r : result A) (k : A -> result B) :
  raises_onlyR P r -> (forall a, raises_onlyR P (k a)) ->
  raises_onlyR P (bindR r k).
Proof.
  intros Hr Hk. destruct r as [a|e]; cbn [bindR];
    [apply Hk | exact (raises_onlyR_cast e Hr)].
Qed.

Lemma raises_onlyR_mapR {A B} (f : A -> result B) (l : list A) :
  (forall a, raises_onlyR P (f a)) -> raises_onlyR P (mapR f l).
Proof.
  intros Hf. induction l as [|a l IH]; cbn [mapR]; [apply raises_onlyR_Ok|].
  destruct (f a) as [b|e] eqn:E.
  - destruct (mapR f l) as [r|e]; [apply raises_onlyR_Ok | exact IH].
  - apply (raises_onlyR_cast (A:=B)). rewrite <- E. apply Hf.
Qed.

Lemma raises_onlyR_foldR {A S} (f : S -> A -> result S) (l : list A) (s : S) :
  (forall s a, raises_onlyR P (f s a)) -> raises_onlyR P (foldR f l s).
Proof.
  intros Hf. revert s. induction l as [|a l IH]; intros s; cbn [foldR];
    [apply raises_onlyR_Ok|].
  apply raises_onlyR_bind; [apply Hf | exact IH].
Qed.

Lemma raises_only_ret {A} (a : A) : raises_only P (ret a).
Proof. intros s s' e H. discriminate. Qed.

Lemma raises_only_raise {A} (e : exn) : P e -> raises_only P (@raise A e).
Proof. intros H s s' e' [= _ <-]. exact H. Qed.

Lemma raises_only_lift {A} (r : result A) :
  raises_onlyR P r -> raises_only P (lift r).
Proof. intros H s s' e [= _ E]. now apply H. Qed.

Lemma raises_only_bind {A B} (c : M A) (k : A -> M B) :
  raises_only P c -> (forall a, raises_only P (k a)) ->
  raises_only P (bind c k).
Proof.
  intros Hc Hk s s' e. unfold bind.
  destruct (c s) as [s1 [a|e1]] eqn:E.
  - apply Hk.
  - intros [= _ <-]. exact (Hc _ _ _ E).
Qed.

Lemma raises_only_for {A} (l : list A) (body : A -> M unit) :
  (forall a, raises_only P (body a)) -> raises_only P (for_ l body).
Proof.
  intros Hb. induction l as [|a l IH]; cbn [for_]; [apply raises_only_ret|].
  apply raises_only_bind; [apply Hb | intros _; exact IH].
Qed.

End Raises.

Lemma gather_raises {A} (l : list A) (idxs : list nat) :
  raises_onlyR library_error (gather l idxs).
Proof.
  induction idxs as [|i idxs IH]; cbn [gather]; [apply raises_onlyR_Ok|].
  destruct (nth_error l i); [| now apply raises_onlyR_Raise].
  destruct (gather l idxs); [apply raises_onlyR_Ok | exact IH].
Qed.

Lemma py_format_raises (template : list piece) (args : list tensor) :
  raises_onlyR library_error (py_format template args).
Proof.
  revert args. induction template as [|p template IH]; intros args.
  - destruct args; [apply raises_onlyR_Ok | now apply raises_onlyR_Raise].
  - assert (Hspec :
      raises_onlyR library_error
        match args with
        | [] => Raise (TypeError "not enough arguments for format string")
        | a :: args' =>
            match item a with
            | None =>
                Raise (ValueError
                  "only one element tensors can be converted to Python scalars" [])
            | Some x =>
                match py_format template args' with
                | Ok r =>
                    Ok ((match p with PctF => format_f x | _ => format_d x end)
                        ++ r)%string
                | Raise e => Raise e
                end
            end
        end).
    { destruct args as [|a args']; [now apply raises_onlyR_Raise|].
      destruct (item a); [| now apply raises_onlyR_Raise].
      specialize (IH args').
      destruct (py_format template args'); [apply raises_onlyR_Ok | exact IH]. }
    destruct p; cbn [py_format]; try exact Hspec.
    specialize (IH args).
    destruct (py_format template args); [apply raises_onlyR_Ok | exact IH].
Qed.

Ltac raises_step :=
  first
    [ apply raises_onlyR_Ok
    | apply raises_onlyR_Raise; reflexivity
    | apply py_format_raises
    | apply gather_raises
    | apply raises_onlyR_mapR; intros ?
    | apply raises_onlyR_bind; [| intros ?] ].

Lemma iter_raises (t : tensor) : raises_onlyR library_error (iter t).
Proof. destruct t; cbn [iter]; raises_step. Qed.

Lemma slice_dim1_raises (n : nat) (t : tensor) :
  raises_onlyR library_error (slice_dim1 n t).
Proof. destruct t as [|[|d rest] elems]; cbn [slice_dim1]; raises_step. Qed.

Lemma select_dim1_raises (n : nat) (t : tensor) :
  raises_onlyR library_error (select_dim1 n t).
Proof.
  destruct t as [|[|d rest] elems]; cbn [select_dim1]; try raises_step.
  destruct (n <? d)%nat; raises_step.
Qed.

Lemma shape1_raises (t : tensor) : raises_onlyR library_error (shape1 t).
Proof.
  unfold shape1. destruct (shape t) as [|? [|? ?]]; raises_step.
Qed.

Lemma tensor_index_raises (t : tensor) (indices : option (list nat)) :
  raises_onlyR library_error (tensor_index t indices).
Proof.
  destruct indices as [idxs|]; cbn [tensor_index]; [| raises_step].
  destruct t as [|inner elems]; [raises_step|].
  pose proof (gather_raises elems idxs) as H.
  destruct (gather elems idxs);
    [raises_step | exact (raises_onlyR_cast _ e H)].
Qed.

Lemma colors_rgba_raises (t : tensor) :
  raises_onlyR library_error (colors_rgba t).
Proof.
  unfold colors_rgba.
  apply raises_onlyR_bind; [apply slice_dim1_raises | intros sl].
  apply raises_onlyR_bind; [apply select_dim1_raises | intros alpha].
  apply raises_onlyR_bind; [apply iter_raises | intros rows].
  apply raises_onlyR_bind; [apply iter_raises | intros alphas].
  apply raises_onlyR_mapR. intros ra.
  apply raises_onlyR_bind; [apply iter_raises | intros rgb_].
  apply py_format_raises.
Qed.

Lemma colors_rgb_raises (t : tensor) :
  raises_onlyR library_error (colors_rgb t).
Proof.
  unfold colors_rgb.
  apply raises_onlyR_bind; [apply iter_raises | intros rows].
  apply raises_onlyR_mapR. intros row.
  apply raises_onlyR_bind; [apply iter_raises | intros rgb_].
  destruct rgb_ as [|r [|g [|b [|x rest]]]];
    try (apply raises_onlyR_Raise; reflexivity).
  apply py_format_raises.
Qed.

Lemma pointcloud_color_raises (features : option tensor)
  (indices : option (list nat)) :
  raises_onlyR library_error (pointcloud_color features indices).
Proof.
  unfold pointcloud_color. destruct features as [t|]; [| raises_step].
  apply raises_onlyR_bind; [apply tensor_index_raises | intros t'].
  apply raises_onlyR_bind; [apply shape1_raises | intros channels].
  apply raises_onlyR_bind.
  - destruct (channels =? 4)%nat; [| raises_step].
    apply raises_onlyR_bind; [apply colors_rgba_raises | intros; raises_step].
  - intros color. destruct (channels =? 3)%nat; [| raises_step].
    apply raises_onlyR_bind; [apply colors_rgb_raises | intros; raises_step].
Qed.

Lemma index_put_true_raises (mask : list bool) (idxs : list nat) :
  raises_onlyR library_error (index_put_true mask idxs).
Proof.
  revert mask. induction idxs as [|i idxs IH]; intros mask;
    cbn [index_put_true]; [raises_step|].
  destruct (set_true mask i); [apply IH | raises_step].
Qed.

Lemma reposition_unused_raises (verts : list vec3) (faces : list face) :
  raises_onlyR library_error (reposition_unused verts faces).
Proof.
  unfold reposition_unused.
  pose proof (index_put_true_raises (repeat false (length verts))
                (unique (flatten_faces faces))) as H.
  destruct (index_put_true _ _) as [mask|e];
    [| exact (raises_onlyR_cast _ e H)].
  raises_step.
Qed.

Lemma max_spread_float_raises (verts : list (option vec3)) :
  raises_onlyR library_error (max_spread_float verts).
Proof. destruct verts; cbn [max_spread_float]; raises_step. Qed.

(** ** The trace adapters as steps on the figure *)

Lemma same_grid_refl (f : figure) : same_grid f f.
Proof. repeat split. Qed.

Lemma add_mesh_trace_adds (meshes : Meshes) (trace_name : string)
  (subplot_idx ncols : Z) (lighting : Lighting) :
  adds_traces [cell_of subplot_idx ncols trace_name]
    (_add_mesh_trace meshes trace_name subplot_idx ncols lighting).
Proof.
  intros s f Hfig. unfold _add_mesh_trace.
  unfold bind at 1. unfold lift.
  pose proof (reposition_unused_raises
                (verts_packed (join_meshes_as_scene meshes))
                (faces_packed (join_meshes_as_scene meshes))) as HR.
  destruct (reposition_unused _ _) as [[plotted center]|e];
    [| now apply HR].
  unfold py_floordiv, py_mod.
  destruct (ncols =? 0); [reflexivity|].
  unfold bind at 1. unfold ret at 1.
  unfold bind at 1. unfold ret at 1.
  unfold bind at 1. unfold add_trace, modify_fig. rewrite Hfig.
  cbn [option_map st_warnings st_rng st_fig].
  unfold bind at 1. unfold get_layout, bind, get_fig, ret.
  cbn [st_warnings st_rng st_fig fig_layout]. unfold lift.
  pose proof (max_spread_float_raises plotted) as HS.
  destruct (max_spread_float plotted) as [max_expand|e]; [| now apply HS].
  unfold set_layout, modify_fig.
  cbn [option_map st_warnings st_rng st_fig fig_rows fig_cols fig_specs
       fig_titles fig_column_widths fig_data fig_layout].
  eexists. split; [reflexivity|]. split; [repeat split|].
  cbn [fig_data]. rewrite map_app. reflexivity.
Qed.

Lemma subsample_keeps (verts : list vec3) (total : Z) (s : state) :
  match subsample verts total s with
  | (s1, Ok _) => st_fig s1 = st_fig s
  | (_, Raise e) => library_error e
  end.
Proof.
  unfold subsample.
  destruct (total <? Z.of_nat (length verts)); [| reflexivity].
  unfold bind at 1. unfold random_choice.
  destruct (total <? 0); [reflexivity|].
  assert (Hg : forall idxs s1,
    match (verts' <- lift (gather verts idxs) ;; ret (Some idxs, verts')) s1 with
    | (s2, Ok _) => st_fig s2 = st_fig s1
    | (_, Raise e) => library_error e
    end).
  { intros idxs s1. unfold bind, lift, ret.
    pose proof (gather_raises verts idxs) as HG.
    destruct (gather verts idxs); [reflexivity | now apply HG]. }
  destruct (st_rng s) as [|draw tape].
  - apply Hg.
  - specialize (Hg draw (mkState (st_warnings s) tape (st_fig s))).
    destruct ((verts' <- lift (gather verts draw) ;; ret (Some draw, verts')) _)
      as [s2 [a|e]]; exact Hg.
Qed.

Lemma add_pointcloud_trace_adds (pointclouds : Pointclouds)
  (trace_name : string) (subplot_idx ncols max_points marker_size : Z) :
  adds_traces [cell_of subplot_idx ncols trace_name]
    (_add_pointcloud_trace pointclouds trace_name subplot_idx
       ncols max_points marker_size).
Proof.
  intros s f Hfig. unfold _add_pointcloud_trace. cbv zeta.
  unfold bind at 1.
  pose proof (subsample_keeps (points_packed pointclouds)
    (max_points * Z.of_nat (len (SPointclouds pointclouds))) s) as Hsample.
  destruct (subsample _ _ s) as [s1 [[indices verts]|e]]; [| exact Hsample].
  rewrite Hfig in Hsample.
  unfold bind at 1. unfold lift.
  pose proof (pointcloud_color_raises (features_packed pointclouds) indices)
    as HC.
  destruct (pointcloud_color _ _) as [color|e]; [| now apply HC].
  unfold py_floordiv, py_mod.
  destruct (ncols =? 0); [reflexivity|].
  unfold bind at 1. unfold ret at 1.
  unfold bind at 1. unfold ret at 1.
  unfold bind at 1. unfold add_trace, modify_fig. rewrite Hsample.
  cbn [option_map st_warnings st_rng st_fig].
  unfold bind at 1. unfold get_layout, bind, get_fig, ret.
  cbn [st_warnings st_rng st_fig fig_layout].
  unfold lift.
  pose proof (max_spread_float_raises (map Some verts)) as HS.
  destruct (max_spread_float (map Some verts)) as [max_expand|e];
    [| now apply HS].
  unfold set_layout, modify_fig.
  cbn [option_map st_warnings st_rng st_fig fig_rows fig_cols fig_specs
       fig_titles fig_column_widths fig_data fig_layout].
  eexists. split; [reflexivity|]. split; [repeat split|].
  cbn [fig_data]. rewrite map_app. reflexivity.
Qed.

Lemma style_subplot_keeps (subplot_idx : Z)
  (x_settings y_settings z_settings : Py.dict setting) (s : state) (f : figure) :
  st_fig s = Some f ->
  exists s' f',
    style_subplot subplot_idx x_settings y_settings z_settings s = (s', Ok tt)
    /\ st_fig s' = Some f' /\ same_grid f f' /\ fig_data f' = fig_data f.
Proof.
  intros Hfig. destruct s as [w r fg]. cbn [st_fig] in Hfig. subst fg.
  unfold style_subplot, bind, get_layout, bind, get_fig, ret,
    set_layout, modify_fig.
  cbn [option_map st_warnings st_rng st_fig].
  do 2 eexists. split; [reflexivity|]. cbn [st_fig].
  split; [reflexivity|]. split; [repeat split | reflexivity].
Qed.

(** ** The loops of [plot_scene] *)

Lemma same_grid_trans (f1 f2 f3 : figure) :
  same_grid f1 f2 -> same_grid f2 f3 -> same_grid f1 f3.
Proof.
  unfold same_grid. intros (A1 & A2 & A3 & A4) (B1 & B2 & B3 & B4).
  repeat split; congruence.
Qed.

Lemma add_struct_trace_adds (subplot_idx ncols : Z) (o : options)
  (lighting : Lighting) (name : string) (st : structure) :
  adds_traces [cell_of subplot_idx ncols name]
    (add_struct_trace subplot_idx ncols o lighting (name, PStruct st)).
Proof.
  destruct st; cbn [add_struct_trace];
    [apply add_mesh_trace_adds | apply add_pointcloud_trace_adds].
Qed.

Section SceneLoops.

Variables (ncols : Z) (o : options) (lighting : Lighting).
Variables (x_settings y_settings z_settings : Py.dict setting).

Lemma keys_length (f f' : figure) (added : list (string * Z * Z)) :
  map trace_key (fig_data f') = (map trace_key (fig_data f) ++ added)%list ->
  length (fig_data f') = (length (fig_data f) + length added)%nat.
Proof.
  intros H. apply (f_equal (@length _)) in H.
  now rewrite length_app, !length_map in H.
Qed.

(** A trace that raised in the rest of a loop raised in the whole loop. *)
Lemma trace_raised_shift (pre items : list (nat * (string * pyobj)))
  (f f1 : figure) (k : nat) (s' : state) (e : exn) :
  same_grid f f1 ->
  length (fig_data f1) = (length (fig_data f) + length pre)%nat ->
  trace_raised ncols o lighting items f1 k s' e ->
  trace_raised ncols o lighting (pre ++ items)%list f (length pre + k) s' e.
Proof.
  intros G L (idx & name & st & s1 & f2 & Hn & Hf & G2 & L2 & E).
  exists idx, name, st, s1, f2.
  split.
  { rewrite nth_error_app2 by lia.
    now replace (length pre + k - length pre)%nat with k by lia. }
  split; [exact Hf|]. split; [eapply same_grid_trans; eauto|].
  split; [lia | exact E].
Qed.

Lemma trace_raised_app (items post : list (nat * (string * pyobj)))
  (f : figure) (k : nat) (s' : state) (e : exn) :
  trace_raised ncols o lighting items f k s' e ->
  trace_raised ncols o lighting (items ++ post)%list f k s' e.
Proof.
  intros (idx & name & st & s1 & f1 & Hn & H).
  exists idx, name, st, s1, f1. split; [| exact H].
  rewrite nth_error_app1; [exact Hn|].
  apply nth_error_Some. congruence.
Qed.

(** Only a library error comes out of adding the trace of a structure. *)
Lemma trace_raised_library (items : list (nat * (string * pyobj)))
  (f : figure) (k : nat) (s' : state) (e : exn) :
  trace_raised ncols o lighting items f k s' e -> library_error e.
Proof.
  intros (idx & name & st & s1 & f1 & _ & Hf & _ & _ & E).
  pose proof (add_struct_trace_adds (Z.of_nat idx) ncols o lighting name st
                s1 f1 Hf) as H.
  now rewrite E in H.
Qed.

Lemma traces_loop (idx : nat) (traces : Py.dict pyobj) :
  forall s f, st_fig s = Some f ->
    loop_outcome ncols o lighting (map (pair idx) traces)
      (find invalid (map snd traces))
      (count_while is_struct (map snd traces))
      (keys_of_traces ncols idx traces) f
      (for_ traces (add_struct_trace (Z.of_nat idx) ncols o lighting) s).
Proof.
  induction traces as [|[name v] traces IH]; intros s f Hfig.
  - cbn. split; [reflexivity|]. exists f. rewrite app_nil_r.
    auto using same_grid_refl.
  - cbn [map snd fst find count_while length for_ keys_of_traces].
    fold (keys_of_traces ncols idx traces).
    destruct v as [st | z | r]; cbn [invalid is_struct negb] in *.
    + unfold bind at 1.
      pose proof (add_struct_trace_adds (Z.of_nat idx) ncols o lighting
                    name st s f Hfig) as Hstep.
      destruct (add_struct_trace _ _ _ _ _ s) as [s1 [[]|e]] eqn:E.
      * destruct Hstep as (f1 & Hf1 & G1 & K1).
        pose proof (keys_length _ _ _ K1) as L1. cbn [length] in L1.
        specialize (IH s1 f1 Hf1). unfold loop_outcome in *.
        destruct (for_ traces _ s1) as [s2 [[]|e]]; cbn [fst snd] in *.
        -- destruct IH as (Hnone & f' & Hf' & G & K).
           split; [exact Hnone|]. exists f'. split; [exact Hf'|].
           split; [eapply same_grid_trans; eauto |].
           rewrite K, K1, <- app_assoc. reflexivity.
        -- destruct IH as [(v & Hv & Ee & f' & Hf' & G & L)|(k & Hk & HR)].
           ++ left. exists v. split; [exact Hv|]. split; [exact Ee|].
              exists f'. split; [exact Hf'|].
              split; [eapply same_grid_trans; eauto | lia].
           ++ right. exists (S k). split; [lia|].
              apply (trace_raised_shift [(idx, (name, PStruct st))] _ f f1 k);
                [exact G1 | cbn [length]; lia | exact HR].
      * unfold loop_outcome. cbn [fst snd]. right. exists 0%nat.
        split; [lia|]. exists idx, name, st, s, f.
        split; [reflexivity|]. split; [exact Hfig|].
        split; [apply same_grid_refl|]. split; [lia | exact E].
    + unfold loop_outcome. cbn [bind raise fst snd]. left.
      eexists. split; [reflexivity|]. split; [reflexivity|].
      exists f. rewrite Nat.add_0_r. auto using same_grid_refl.
    + unfold loop_outcome. cbn [bind raise fst snd]. left.
      eexists. split; [reflexivity|]. split; [reflexivity|].
      exists f. rewrite Nat.add_0_r. auto using same_grid_refl.
Qed.

Lemma find_app {A} (p : A -> bool) (l1 l2 : list A) :
  find p (l1 ++ l2)
  = match find p l1 with Some a => Some a | None => find p l2 end.
Proof.
  induction l1 as [|a l1 IH]; cbn; [reflexivity|].
  destruct (p a); [reflexivity | exact IH].
Qed.

Lemma count_while_app_found (l1 l2 : list pyobj) (v : pyobj) :
  find invalid l1 = Some v ->
  count_while is_struct (l1 ++ l2) = count_while is_struct l1.
Proof.
  induction l1 as [|a l1 IH]; cbn; [discriminate|].
  unfold invalid at 1. destruct (is_struct a); cbn; [| reflexivity].
  intros H. now rewrite IH.
Qed.

Lemma count_while_app_none (l1 l2 : list pyobj) :
  find invalid l1 = None ->
  count_while is_struct (l1 ++ l2)
  = (length l1 + count_while is_struct l2)%nat.
Proof.
  induction l1 as [|a l1 IH]; cbn; [reflexivity|].
  unfold invalid at 1. destruct (is_struct a); cbn; [| discriminate].
  intros H. now rewrite IH.
Qed.

Lemma count_while_all (l : list pyobj) :
  find invalid l = None -> count_while is_struct l = length l.
Proof.
  intros H. pose proof (count_while_app_none l [] H) as E.
  rewrite app_nil_r in E. cbn in E. lia.
Qed.

(** The loop over the subplots, item by item. *)
Lemma subplots_loop (plots : scene_dict) :
  forall start s f, st_fig s = Some f ->
    loop_outcome ncols o lighting
      (items_of (combine (seq start (length plots)) plots))
      (first_invalid plots) (valid_before plots)
      (keys_of_items ncols (combine (seq start (length plots)) plots)) f
      (for_ (combine (seq start (length plots)) plots)
         (plot_subplot_item ncols o lighting
            x_settings y_settings z_settings) s).
Proof.
  unfold first_invalid, valid_before.
  induction plots as [|[title traces] plots IH]; intros start s f Hfig.
  - cbn. split; [reflexivity|]. exists f. rewrite app_nil_r.
    auto using same_grid_refl.
  - cbn [length seq combine for_ scene_values flat_map snd fst keys_of_items
         items_of].
    fold (scene_values plots).
    fold (keys_of_items ncols (combine (seq (S start) (length plots)) plots)).
    fold (items_of (combine (seq (S start) (length plots)) plots)).
    rewrite find_app.
    unfold bind at 1. unfold plot_subplot_item at 1. cbn [fst snd].
    unfold bind at 1.
    pose proof (traces_loop start traces s f Hfig) as HT.
    destruct (for_ traces _ s) as [s1 r1]. unfold loop_outcome in HT.
    cbn [fst snd] in HT.
    destruct r1 as [[]|e].
    + destruct HT as (Efind & f1 & Hf1 & G1 & K1). rewrite Efind.
      rewrite (count_while_app_none _ _ Efind), length_map.
      pose proof (keys_length _ _ _ K1) as L1.
      unfold keys_of_traces in L1. rewrite length_map in L1.
      destruct (style_subplot_keeps (Z.of_nat start) x_settings
                  y_settings z_settings s1 f1 Hf1)
        as (s2 & f2 & E2 & Hf2 & G2 & D2).
      rewrite E2.
      specialize (IH (S start) s2 f2 Hf2). unfold loop_outcome in *.
      destruct (for_ _ _ s2) as [s3 [[]|e]]; cbn [fst snd] in *.
      * destruct IH as (Hnone & f' & Hf' & G & K).
        split; [exact Hnone|]. exists f'. split; [exact Hf'|].
        split; [eauto using same_grid_trans |].
        rewrite K, D2, K1, <- app_assoc. reflexivity.
      * destruct IH as [(v & Hv & Ee & f' & Hf' & G & L)|(k & Hk & HR)].
        -- left. exists v. split; [exact Hv|]. split; [exact Ee|].
           exists f'. split; [exact Hf'|].
           split; [eauto using same_grid_trans |].
           rewrite L, D2, L1. lia.
        -- right. exists (length traces + k)%nat. split; [lia|].
           rewrite <- (length_map (pair start) traces).
           apply (trace_raised_shift _ _ f f2 k);
             [eauto using same_grid_trans
             | rewrite length_map, D2, L1; lia | exact HR].
    + unfold loop_outcome. cbn [fst snd].
      destruct HT as [(v & Hv & Ee & f' & Hf' & G & L)|(k & Hk & HR)].
      * left. exists v. rewrite Hv. split; [reflexivity|].
        split; [exact Ee|].
        rewrite (count_while_app_found _ _ v Hv). eauto.
      * right. exists k. split.
        -- destruct (find invalid (map snd traces)) as [v|] eqn:Efind.
           ++ now rewrite (count_while_app_found _ _ v Efind).
           ++ rewrite (count_while_app_none _ _ Efind).
              rewrite (count_while_all _ Efind) in Hk. lia.
        -- now apply trace_raised_app.
Qed.

Lemma dict_get_nth {V} (d : Py.dict V) (i : nat) (k : string) (v : V) :
  NoDup (Py.keys d) -> nth_error d i = Some (k, v) ->
  Py.dict_get d k = Some v.
Proof.
  revert i. induction d as [|[k0 v0] d IH]; intros [|i] ND H; cbn in H;
    try discriminate.
  - injection H as -> ->. cbn. now rewrite String.eqb_refl.
  - cbn. cbn in ND. inversion ND as [|? ? Hnotin ND']; subst.
    destruct (String.eqb_spec k0 k) as [->|_].
    + exfalso. apply Hnotin. apply nth_error_In in H.
      apply (in_map fst) in H. exact H.
    + apply (IH i ND' H).
Qed.

(** With distinct keys, looking a subplot up by its name gives the item
    at its position. *)
Lemma plot_subplot_at (plots : scene_dict) (i : nat)
  (it : string * Py.dict pyobj) :
  NoDup (Py.keys plots) -> nth_error plots i = Some it ->
  plot_subplot plots (Py.keys plots) ncols o lighting
    x_settings y_settings z_settings i
  = plot_subplot_item ncols o lighting x_settings y_settings z_settings
      (i, it).
Proof.
  intros ND H. destruct it as [k traces]. unfold plot_subplot, Py.keys.
  rewrite nth_error_map, H. cbn [option_map fst].
  now rewrite (dict_get_nth plots i k traces ND H).
Qed.

Lemma for_seq_combine {A} (f : nat -> M unit) (g : nat * A -> M unit)
  (l : list A) :
  forall start,
    (forall i x, nth_error l i = Some x ->
                 f (start + i)%nat = g ((start + i)%nat, x)) ->
    for_ (seq start (length l)) f = for_ (combine (seq start (length l)) l) g.
Proof.
  induction l as [|x l IH]; intros start H; cbn [length seq combine for_];
    [reflexivity|].
  pose proof (H 0%nat x eq_refl) as H0. rewrite Nat.add_0_r in H0.
  rewrite H0, (IH (S start)); [reflexivity|].
  intros i y Hy. rewrite Nat.add_succ_l, <- Nat.add_succ_r.
  apply (H (S i) y Hy).
Qed.

End SceneLoops.

(** What [plot_scene] does once the grid is there: the loop over the
    subplots, item by item, and the return of the figure. *)
Lemma plot_scene_steps (plots : scene_dict) (ncols : Z) (o : options)
  (s : state) :
  NoDup (Py.keys plots) ->
  plot_scene plots ncols o s
  = (_gen_fig_with_subplots (Z.of_nat (length plots)) ncols (Py.keys plots) ;;;
     for_ (enumerate plots)
       (plot_subplot_item ncols o
          (kwargs_get (kw_lighting o) Lighting_default)
          (axis_settings o (kw_xaxis o)) (axis_settings o (kw_yaxis o))
          (axis_settings o (kw_zaxis o))) ;;;
     get_fig) s.
Proof.
  intros ND. unfold plot_scene, enumerate. cbv zeta.
  fold (axis_settings o (kw_xaxis o)) (axis_settings o (kw_yaxis o))
       (axis_settings o (kw_zaxis o)).
  assert (HK : length (Py.keys plots) = length plots) by apply length_map.
  rewrite !HK.
  rewrite (for_seq_combine
             (plot_subplot plots (Py.keys plots) ncols o
                (kwargs_get (kw_lighting o) Lighting_default)
                (axis_settings o (kw_xaxis o)) (axis_settings o (kw_yaxis o))
                (axis_settings o (kw_zaxis o)))
             (plot_subplot_item ncols o
                (kwargs_get (kw_lighting o) Lighting_default)
                (axis_settings o (kw_xaxis o)) (axis_settings o (kw_yaxis o))
                (axis_settings o (kw_zaxis o)))
             plots 0);
    [reflexivity|].
  intros i it Hit. apply (plot_subplot_at _ _ _ _ _ _ plots i it ND Hit).
Qed.

(** The grid a returning [_gen_fig_with_subplots] leaves. *)
Lemma gen_fig_with_subplots_ok (n ncols : Z) (titles : list string)
  (s s1 : state) :
  _gen_fig_with_subplots n ncols titles s = (s1, Ok tt) ->
  ncols <> 0
  /\ 0 < n / ncols
  /\ 0 < ncols
  /\ exists specs widths,
       st_fig s1 = Some (mkFigure (n / ncols) ncols specs titles widths [] []).
Proof.
  unfold _gen_fig_with_subplots, py_mod, py_floordiv.
  destruct (Z.eqb_spec ncols 0) as [|Hn]; [discriminate|].
  unfold bind at 1. unfold ret at 1. unfold bind at 1.
  assert (H : forall s0,
    (fig_rows <- ret (n / ncols) ;;
     fig <- lift (make_subplots fig_rows ncols
                    (list_mul [list_mul ["scene"] ncols] fig_rows) titles
                    (list_mul [1%Q] ncols)) ;;
     set_fig fig) s0 = (s1, Ok tt) ->
    ncols <> 0 /\ 0 < n / ncols /\ 0 < ncols
    /\ exists specs widths,
         st_fig s1
         = Some (mkFigure (n / ncols) ncols specs titles widths [] [])).
  { intros s0. unfold bind, ret, lift, make_subplots, set_fig.
    destruct (Z.leb_spec (n / ncols) 0) as [|Hr]; [discriminate|].
    destruct (Z.leb_spec ncols 0) as [|Hc]; [discriminate|].
    intros [= <-]. cbn [st_fig]. repeat split; try assumption.
    do 2 eexists. reflexivity. }
  destruct (negb _); [unfold warn at 1 | unfold ret at 1]; apply H.
Qed.




Lemma make_subplots_raises (rows cols : Z) (specs : list (list string))
  (titles : list string) (widths : list Q) :
  raises_onlyR library_error (make_subplots rows cols specs titles widths).
Proof.
  unfold make_subplots. destruct (rows <=? 0);
    [apply raises_onlyR_Raise; reflexivity|].
  destruct (cols <=? 0);
    [apply raises_onlyR_Raise; reflexivity | apply raises_onlyR_Ok].
Qed.

Lemma gen_fig_with_subplots_raises (n ncols : Z) (titles : list string) :
  raises_only library_error (_gen_fig_with_subplots n ncols titles).
Proof.
  unfold _gen_fig_with_subplots, py_mod, py_floordiv.
  apply raises_only_bind.
  { destruct (ncols =? 0);
      [now apply raises_only_raise | apply raises_only_ret]. }
  intros r. apply raises_only_bind.
  { destruct (negb _); [| apply raises_only_ret].
    intros s s' e H. discriminate. }
  intros _. apply raises_only_bind.
  { destruct (ncols =? 0);
      [now apply raises_only_raise | apply raises_only_ret]. }
  intros q. apply raises_only_bind;
    [apply raises_only_lift, make_subplots_raises | intros fig].
  intros s s' e H. discriminate.
Qed.

(** A scene dictionary whose values are all structures: [plot_scene]
    returns the figure with one trace per value, in iteration order,
    unless a trace stops with a library error. *)
Lemma plot_scene_valid (plots : scene_dict) (ncols : Z) (o : options)
  (s : state) :
  NoDup (Py.keys plots) ->
  first_invalid plots = None ->
  match plot_scene plots ncols o s with
  | (s', Ok fig) =>
      st_fig s' = Some fig
      /\ fig_rows fig = Z.of_nat (length plots) / ncols
      /\ fig_cols fig = ncols
      /\ fig_titles fig = Py.keys plots
      /\ map trace_key (fig_data fig) = keys_of_items ncols (enumerate plots)
  | (_, Raise e) => library_error e
  end.
Proof.
  intros ND Hv. rewrite (plot_scene_steps plots ncols o s ND).
  unfold bind at 1.
  destruct (_gen_fig_with_subplots _ _ _ s) as [s0 [[]|e0]] eqn:EG.
  2:{ exact (gen_fig_with_subplots_raises _ _ _ _ _ _ EG). }
  destruct (gen_fig_with_subplots_ok _ _ _ _ _ EG)
    as (_ & _ & _ & specs & widths & Hf0).
  unfold bind at 1.
  pose proof (subplots_loop ncols o
                (kwargs_get (kw_lighting o) Lighting_default)
                (axis_settings o (kw_xaxis o)) (axis_settings o (kw_yaxis o))
                (axis_settings o (kw_zaxis o)) plots 0 s0 _ Hf0) as HL.
  fold (enumerate plots) in HL.
  unfold loop_outcome in HL. rewrite Hv in HL.
  destruct (for_ _ _ s0) as [s2 [[]|e]]; cbn [fst snd] in HL.
  - destruct HL as (_ & f' & Hf' & (G1 & G2 & G3 & G4) & K).
    unfold get_fig. rewrite Hf'.
    cbn [fig_rows fig_cols fig_titles fig_data map app] in *. auto.
  - destruct HL as [(v & Hsome & _)|(k & _ & HR)]; [discriminate|].
    exact (trace_raised_library _ _ _ _ _ _ _ _ HR).
Qed.

(** ** Exceptions of [plot_scene] *)

Lemma raises_only_weaken {A} (P Q : exn -> Prop) (c : M A) :
  (forall e, P e -> Q e) -> raises_only P c -> raises_only Q c.
Proof. intros HPQ Hc s s' e H. apply HPQ. exact (Hc _ _ _ H). Qed.

Lemma py_mod_raises (a b : Z) : raises_only library_error (py_mod a b).
Proof.
  unfold py_mod. destruct (b =? 0);
    [now apply raises_only_raise | apply raises_only_ret].
Qed.

Lemma py_floordiv_raises (a b : Z) :
  raises_only library_error (py_floordiv a b).
Proof.
  unfold py_floordiv. destruct (b =? 0);
    [now apply raises_only_raise | apply raises_only_ret].
Qed.

Lemma modify_fig_raises (P : exn -> Prop) (g : figure -> figure) :
  raises_only P (modify_fig g).
Proof. intros s s' e H. discriminate. Qed.

Lemma get_fig_raises : raises_only library_error get_fig.
Proof.
  intros s s' e. unfold get_fig. destruct (st_fig s); [discriminate|].
  intros [= _ <-]. reflexivity.
Qed.

Lemma get_layout_raises (key : string) :
  raises_only library_error (get_layout key).
Proof.
  unfold get_layout. apply raises_only_bind; [apply get_fig_raises|].
  intros f. apply raises_only_ret.
Qed.

Lemma add_mesh_trace_raises (meshes : Meshes) (trace_name : string)
  (subplot_idx ncols : Z) (lighting : Lighting) :
  raises_only library_error
    (_add_mesh_trace meshes trace_name subplot_idx ncols lighting).
Proof.
  unfold _add_mesh_trace. cbv zeta.
  apply raises_only_bind;
    [apply raises_only_lift, reposition_unused_raises | intros [verts c]].
  apply raises_only_bind; [apply py_floordiv_raises | intros q].
  apply raises_only_bind; [apply py_mod_raises | intros r].
  apply raises_only_bind; [apply modify_fig_raises | intros _].
  apply raises_only_bind; [apply get_layout_raises | intros layout].
  apply raises_only_bind;
    [apply raises_only_lift, max_spread_float_raises | intros max_expand].
  apply modify_fig_raises.
Qed.

Lemma subsample_raises (verts : list vec3) (total : Z) :
  raises_only library_error (subsample verts total).
Proof.
  intros s s' e H. pose proof (subsample_keeps verts total s) as K.
  rewrite H in K. exact K.
Qed.

Lemma add_pointcloud_trace_raises (pointclouds : Pointclouds)
  (trace_name : string) (subplot_idx ncols max_points marker_size : Z) :
  raises_only library_error
    (_add_pointcloud_trace pointclouds trace_name subplot_idx ncols
       max_points marker_size).
Proof.
  unfold _add_pointcloud_trace. cbv zeta.
  apply raises_only_bind; [apply subsample_raises | intros [indices verts]].
  apply raises_only_bind;
    [apply raises_only_lift, pointcloud_color_raises | intros color].
  apply raises_only_bind; [apply py_floordiv_raises | intros q].
  apply raises_only_bind; [apply py_mod_raises | intros r].
  apply raises_only_bind; [apply modify_fig_raises | intros _].
  apply raises_only_bind; [apply get_layout_raises | intros layout].
  apply raises_only_bind;
    [apply raises_only_lift, max_spread_float_raises | intros max_expand].
  apply modify_fig_raises.
Qed.

Lemma lib_scene_error (e : exn) : library_error e -> scene_error e.
Proof. now left. Qed.

Lemma add_struct_trace_raises (subplot_idx ncols : Z) (o : options)
  (lighting : Lighting) (it : string * pyobj) :
  raises_only scene_error (add_struct_trace subplot_idx ncols o lighting it).
Proof.
  destruct it as [name [[m|p]|z|r]]; cbn [add_struct_trace].
  - eapply raises_only_weaken;
      [apply lib_scene_error | apply add_mesh_trace_raises].
  - eapply raises_only_weaken;
      [apply lib_scene_error | apply add_pointcloud_trace_raises].
  - apply raises_only_raise. right. eexists. reflexivity.
  - apply raises_only_raise. right. eexists. reflexivity.
Qed.

Lemma plot_scene_raises (plots : scene_dict) (ncols : Z) (o : options) :
  raises_only scene_error (plot_scene plots ncols o).
Proof.
  unfold plot_scene. cbv zeta.
  apply raises_only_bind.
  { eapply raises_only_weaken;
      [apply lib_scene_error | apply gen_fig_with_subplots_raises]. }
  intros _. apply raises_only_bind.
  - apply raises_only_for. intros idx. unfold plot_subplot.
    destruct (nth_error _ idx) as [name|];
      [| apply raises_only_raise; now left].
    destruct (Py.dict_get plots name) as [traces|];
      [| apply raises_only_raise; now left].
    apply raises_only_bind.
    + apply raises_only_for. intros it. apply add_struct_trace_raises.
    + intros _. eapply raises_only_weaken; [apply lib_scene_error|].
      unfold style_subplot.
      apply raises_only_bind; [apply get_layout_raises | intros layout].
      apply modify_fig_raises.
  - intros _. eapply raises_only_weaken;
      [apply lib_scene_error | apply get_fig_raises].
Qed.

(** ** [plot_batch_individually] *)

Lemma getitem_raises (s : structure) (idx : Z) :
  raises_onlyR library_error (getitem s idx).
Proof.
  unfold getitem. cbv zeta.
  destruct (_ || _); [now apply raises_onlyR_Raise | apply raises_onlyR_Ok].
Qed.

Lemma add_struct_from_batch_raises (bs : structure) (n : Z) (title : string)
  (sd : scene_dict) (idx : Z) :
  raises_onlyR library_error (_add_struct_from_batch bs n title sd idx).
Proof.
  unfold _add_struct_from_batch. cbv zeta.
  apply raises_onlyR_bind; [apply getitem_raises | intros st].
  destruct (Py.dict_get sd title);
    [apply raises_onlyR_Ok | now apply raises_onlyR_Raise].
Qed.

Lemma build_scene_dictionary_raises (b : batched) (max_size : nat)
  (extend_struct : bool) (subplot_titles : option (list string)) :
  raises_onlyR library_error
    (build_scene_dictionary b max_size extend_struct subplot_titles).
Proof.
  unfold build_scene_dictionary. apply raises_onlyR_foldR.
  intros sd n. unfold add_scene. apply raises_onlyR_bind.
  - unfold subplot_title_of. destruct (truthy subplot_titles);
      [| apply raises_onlyR_Ok].
    destruct (nth_error _ n);
      [apply raises_onlyR_Ok | now apply raises_onlyR_Raise].
  - intros title. cbv zeta. destruct b as [s|l].
    + apply add_struct_from_batch_raises.
    + apply raises_onlyR_foldR. intros sd' [i bs].
      destruct (_ && _);
        [apply raises_onlyR_Ok | apply add_struct_from_batch_raises].
Qed.

Lemma plot_checked_raises (b : batched) (max_size : nat) (ncols : Z)
  (extend_struct : bool) (subplot_titles : option (list string))
  (o : options) :
  raises_only title_error
    (plot_checked b max_size ncols extend_struct subplot_titles o).
Proof.
  unfold plot_checked. apply raises_only_bind.
  - destruct (truthy subplot_titles); [| apply raises_only_ret].
    destruct (negb _); [| apply raises_only_ret].
    apply raises_only_raise. now right.
  - intros _. apply raises_only_bind.
    + apply raises_only_lift.
      intros e H. left. left.
      exact (build_scene_dictionary_raises _ _ _ _ e H).
    + intros sd. apply raises_only_bind.
      * eapply raises_only_weaken; [| apply plot_scene_raises].
        intros e H. now left.
      * intros fig. apply raises_only_ret.
Qed.

Lemma check_batch_sizes_valid (b : batched) (s : state) :
  valid_batch b -> check_batch_sizes b s = (s, Ok (max_size_of b)).
Proof.
  intros (_ & _ & H). destruct b as [st|l]; [reflexivity|].
  unfold check_batch_sizes. cbn [max_size_of] in H.
  set (m := list_max (map len l)) in *.
  assert (Hloop : forall s,
    for_ l (fun struct =>
      if negb ((len struct =? 1)%nat || (len struct =? m)%nat)
      then raise (ValueError "invalid batch size {} provided: {}"
                    [PInt (Z.of_nat (len struct)); PStruct struct])
      else ret tt) s = (s, Ok tt)).
  { clearbody m. induction H as [|x l Hx HF IH]; intros s0; [reflexivity|].
    cbn [for_]. unfold bind at 1.
    replace ((len x =? 1)%nat || (len x =? m)%nat) with true.
    - cbn [negb]. unfold ret at 1. apply IH.
    - symmetry. apply orb_true_iff.
      destruct Hx as [Hx|Hx]; [left | right]; now apply Nat.eqb_eq. }
  unfold bind. rewrite Hloop. reflexivity.
Qed.

Lemma plot_batch_individually_checked (b : batched) (ncols : Z)
  (extend_struct : bool) (subplot_titles : option (list string))
  (o : options) (s : state) :
  valid_batch b ->
  plot_batch_individually b ncols extend_struct subplot_titles o s
  = plot_checked b (max_size_of b) ncols extend_struct subplot_titles o s.
Proof.
  intros Hv. pose proof Hv as (Hlen & Hmax & _).
  unfold plot_batch_individually.
  destruct (Nat.eqb_spec (batched_len b) 0) as [E|_]; [contradiction|].
  unfold bind at 1. rewrite (check_batch_sizes_valid b s Hv).
  destruct (Nat.eqb_spec (max_size_of b) 0) as [E|_]; [contradiction|].
  reflexivity.
Qed.

(** C10. A single structure of batch length 0 makes
    [plot_batch_individually] emit the warning "No structs to plot" and
    return [None]; for a single structure, whatever its length, the
    zero-size error "No data is provided with at least one element" is
    never raised. *)
Theorem plot_batch_individually_single_empty :
  (forall s ncols extend_struct subplot_titles o st,
      len s = 0%nat ->
      plot_batch_individually (Single s) ncols extend_struct subplot_titles o st
      = (mkState (st_warnings st ++ ["No structs to plot"])
                 (st_rng st) (st_fig st), Ok None))
  /\ (forall s ncols extend_struct subplot_titles o st args,
         snd (plot_batch_individually (Single s) ncols extend_struct
                subplot_titles o st)
         <> Raise (ValueError "No data is provided with at least one element"
                     args)).
Proof.
  split.
  - intros s ncols ext titles o st H. unfold plot_batch_individually.
    cbn [batched_len]. rewrite H. reflexivity.
  - intros s ncols ext titles o st args.
    destruct (Nat.eqb_spec (len s) 0) as [E|E].
    + unfold plot_batch_individually. cbn [batched_len]. rewrite E.
      cbn. discriminate.
    + rewrite plot_batch_individually_checked by (repeat split; assumption).
      destruct (plot_checked _ _ _ _ _ _ st) as [s' [r|e]] eqn:Erun;
        cbn [snd]; [discriminate|].
      intros [= ->].
      destruct (plot_checked_raises _ _ _ _ _ _ _ _ _ Erun)
        as [[Hlib|(v & Hv)]|Ht]; discriminate.
Qed.

Lemma plot_batch_individually_single_empty_witness :
  plot_batch_individually (Single no_meshes) 1 true None default_options
    init_state
  = (mkState ([] ++ ["No structs to plot"]) [] None, Ok None).
Proof.
  apply (proj1 plot_batch_individually_single_empty no_meshes 1 true None
           default_options init_state).
  reflexivity.
Defined.

(** C7, as the code has it. Once the batch sizes have passed their
    checks, a non-empty [subplot_titles] whose length differs from
    [max_size] makes [plot_batch_individually] raise "invalid number of
    subplot titles" before anything is built; an empty [subplot_titles]
    is treated exactly as an absent one. *)
Theorem plot_batch_individually_title_count :
  (forall b ncols extend_struct titles o st,
      valid_batch b ->
      titles <> [] ->
      length titles <> max_size_of b ->
      plot_batch_individually b ncols extend_struct (Some titles) o st
      = (st, Raise (ValueError "invalid number of subplot titles" [])))
  /\ (forall b ncols extend_struct o st,
         plot_batch_individually b ncols extend_struct (Some []) o st
         = plot_batch_individually b ncols extend_struct None o st).
Proof.
  split.
  - intros b ncols ext titles o st Hv Hne Hlen.
    rewrite plot_batch_individually_checked by exact Hv.
    unfold plot_checked. destruct titles as [|t titles]; [contradiction|].
    cbn [truthy kwargs_get]. unfold bind at 1.
    destruct (Nat.eqb_spec (length (t :: titles)) (max_size_of b)) as [E|_];
      [contradiction|].
    reflexivity.
  - reflexivity.
Qed.

Lemma plot_batch_individually_title_count_witness :
  plot_batch_individually (Single two_meshes) 1 true (Some ["only"])
    default_options init_state
  = (init_state, Raise (ValueError "invalid number of subplot titles" [])).
Proof.
  apply (proj1 plot_batch_individually_title_count (Single two_meshes) 1 true
           ["only"] default_options init_state).
  - repeat split; discriminate.
  - discriminate.
  - simpl. lia.
Defined.

(** The claim C7 as stated does not hold for an empty list of titles:
    with [max_size = 2] the call returns a figure with the default
    titles. *)
Lemma plot_batch_individually_empty_titles_accepted :
  exists s' fig,
    plot_batch_individually (Single two_meshes) 1 true (Some [])
      default_options init_state
    = (s', Ok (Some fig))
    /\ fig_titles fig = ["subplot 1"; "subplot 2"].
Proof.
  do 2 eexists. split; [vm_compute; reflexivity | reflexivity].
Qed.

(** ** The scene dictionary of [plot_batch_individually] *)

Section Names.

Lemma str_inj (a b : Z) : Py.str a = Py.str b -> a = b.
Proof.
  unfold Py.str. intros H. apply DecimalZ.to_int_inj.
  assert (Hparse : forall z,
    NilZero.int_of_string (NilZero.string_of_int (Z.to_int z))
    = Some (Z.to_int z)).
  { intros z. apply NilZero.isi; destruct z; cbn; try discriminate;
      intros [= E]; exact (DecimalPos.Unsigned.to_uint_nonnil _ E). }
  pose proof (Hparse a) as Ha. rewrite H, Hparse in Ha. now injection Ha.
Qed.

Lemma append_inj (p x y : string) : (p ++ x = p ++ y)%string -> x = y.
Proof.
  induction p as [|c p IH]; cbn; [easy|]. intros [= H]. now apply IH.
Qed.

Lemma default_title_inj (n m : nat) :
  default_title n = default_title m -> n = m.
Proof.
  unfold default_title. intros H. apply append_inj, str_inj in H. lia.
Qed.

Lemma trace_name_inj (n a b : Z) :
  trace_name_of n a = trace_name_of n b -> a = b.
Proof.
  unfold trace_name_of. intros H.
  apply append_inj in H.
  apply (append_inj (Py.str (n + 1))) in H.
  apply (append_inj "-") in H. now apply str_inj.
Qed.

End Names.

Section Dicts.

Context {V : Type}.

Lemma dict_set_fresh (d : Py.dict V) (k : string) (v : V) :
  ~ In k (Py.keys d) -> Py.dict_set d k v = (d ++ [(k, v)])%list.
Proof.
  induction d as [|[k' v'] d IH]; cbn; [reflexivity|]. intros H.
  destruct (String.eqb_spec k' k) as [->|_]; [tauto|].
  rewrite IH; tauto.
Qed.

Lemma dict_get_last (d : Py.dict V) (k : string) (v : V) :
  ~ In k (Py.keys d) -> Py.dict_get (d ++ [(k, v)])%list k = Some v.
Proof.
  induction d as [|[k' v'] d IH]; cbn.
  - now rewrite String.eqb_refl.
  - intros H. destruct (String.eqb_spec k' k) as [->|_]; [tauto|].
    apply IH. tauto.
Qed.

Lemma dict_set_last (d : Py.dict V) (k : string) (v v' : V) :
  ~ In k (Py.keys d) ->
  Py.dict_set (d ++ [(k, v)])%list k v' = (d ++ [(k, v')])%list.
Proof.
  induction d as [|[k0 v0] d IH]; cbn.
  - now rewrite String.eqb_refl.
  - intros H. destruct (String.eqb_spec k0 k) as [->|_]; [tauto|].
    rewrite IH; tauto.
Qed.

End Dicts.

Section SceneDictionary.

Variable extend_struct : bool.

Lemma getitem_clamped (s : structure) (n : nat) :
  (1 <= len s)%nat ->
  getitem s (Z.min (Z.of_nat n) (Z.of_nat (len s) - 1))
  = Ok (select s (Nat.min n (len s - 1))).
Proof.
  intros H. unfold getitem. cbv zeta.
  replace (Z.min (Z.of_nat n) (Z.of_nat (len s) - 1))
    with (Z.of_nat (Nat.min n (len s - 1))) by lia.
  destruct (Z.ltb_spec (Z.of_nat (Nat.min n (len s - 1))) 0) as [?|_]; [lia|].
  destruct (Z.leb_spec (Z.of_nat (len s))
              (Z.of_nat (Nat.min n (len s - 1)))) as [?|_]; [lia|].
  destruct (Z.ltb_spec (Z.of_nat (Nat.min n (len s - 1))) 0) as [?|_]; [lia|].
  cbn [orb]. now rewrite Nat2Z.id.
Qed.

(** Adding one structure to the subplot that was created last. *)
Lemma add_struct_from_batch_last (d : scene_dict) (title : string)
  (acc : Py.dict pyobj) (n : nat) (ib : nat * structure) :
  (1 <= len (snd ib))%nat ->
  ~ In title (Py.keys d) ->
  ~ In (fst (expected_trace n ib)) (Py.keys acc) ->
  _add_struct_from_batch (snd ib) (Z.of_nat n) title
    (d ++ [(title, acc)])%list (Z.of_nat (fst ib) + 1)
  = Ok (d ++ [(title, (acc ++ [expected_trace n ib])%list)])%list.
Proof.
  intros Hlen Ht Hn. unfold _add_struct_from_batch. cbv zeta.
  rewrite (getitem_clamped _ _ Hlen). cbn [bindR].
  rewrite (dict_get_last d title acc Ht).
  rewrite (dict_set_last d title acc _ Ht).
  unfold expected_trace in *. cbn [fst] in Hn.
  now rewrite (dict_set_fresh acc _ _ Hn).
Qed.

(** The inner loop over the list positions. *)
Lemma positions_loop (d : scene_dict) (title : string) (n : nat)
  (l : list structure) :
  Forall (fun s => (1 <= len s)%nat) l ->
  ~ In title (Py.keys d) ->
  forall start acc,
    (forall name, In name (Py.keys acc) ->
       exists j, (j < start)%nat
                 /\ name = trace_name_of (Z.of_nat n) (Z.of_nat j + 1)) ->
    foldR (fun sd (ib : nat * structure) =>
             let '(i, batched_struct) := ib in
             if (len batched_struct <=? i)%nat && negb extend_struct
             then Ok sd
             else _add_struct_from_batch batched_struct (Z.of_nat n)
                    title sd (Z.of_nat i + 1))
          (combine (seq start (length l)) l) (d ++ [(title, acc)])%list
    = Ok (d ++ [(title,
                 (acc ++ expected_traces extend_struct n
                           (combine (seq start (length l)) l))%list)])%list.
Proof.
  intros Hl Ht. induction Hl as [|s l Hs Hl IH]; intros start acc Hacc.
  - cbn. now rewrite app_nil_r.
  - cbn [length seq combine foldR]. unfold expected_traces.
    cbn [filter]. unfold skipped at 1. cbn [fst snd].
    destruct ((len s <=? start)%nat && negb extend_struct) eqn:Eskip;
      cbn [negb bindR map].
    + apply IH. intros name Hin. destruct (Hacc name Hin) as (j & Hj & E).
      exists j. split; [lia | exact E].
    + assert (Hfresh : ~ In (fst (expected_trace n (start, s))) (Py.keys acc)).
      { intros Hin. destruct (Hacc _ Hin) as (j & Hj & E).
        cbn [expected_trace fst] in E. apply trace_name_inj in E. lia. }
      pose proof (add_struct_from_batch_last d title acc n (start, s)
                    Hs Ht Hfresh) as HA.
      cbn [fst snd] in HA. rewrite HA. cbn [bindR].
      rewrite (IH (S start)).
      * unfold expected_traces. now rewrite <- app_assoc.
      * intros name Hin. unfold Py.keys in Hin.
        rewrite map_app in Hin. apply in_app_or in Hin.
        destruct Hin as [Hin|[<-|[]]].
        -- destruct (Hacc name Hin) as (j & Hj & E).
           exists j. split; [lia | exact E].
        -- exists start. split; [lia | reflexivity].
Qed.

Lemma titles_before (b : batched) (start : nat) :
  ~ In (default_title start)
       (Py.keys (expected_scene b extend_struct start)).
Proof.
  unfold expected_scene, Py.keys. rewrite map_map. cbn [fst].
  intros Hin. apply in_map_iff in Hin. destruct Hin as (m & E & Hm).
  apply default_title_inj in E. apply in_seq in Hm. lia.
Qed.

Lemma expected_scene_succ (b : batched) (n : nat) :
  expected_scene b extend_struct (S n)
  = (expected_scene b extend_struct n
     ++ [(default_title n,
          match b with
          | Batch l => expected_traces extend_struct n (enumerate l)
          | Single s => [expected_trace n (0%nat, s)]
          end)])%list.
Proof.
  unfold expected_scene. now rewrite seq_S, map_app.
Qed.

(** One iteration of the outer loop extends the closed form. *)
Lemma add_scene_next (b : batched) (n : nat) :
  match b with
  | Batch l => Forall (fun s => (1 <= len s)%nat) l
  | Single s => (1 <= len s)%nat
  end ->
  add_scene b extend_struct None (expected_scene b extend_struct n) n
  = Ok (expected_scene b extend_struct (S n)).
Proof.
  intros Hb. unfold add_scene. cbn [subplot_title_of truthy bindR].
  fold (default_title n). cbv zeta.
  pose proof (titles_before b n) as Ht.
  rewrite (dict_set_fresh _ _ _ Ht), expected_scene_succ.
  destruct b as [s|l].
  - apply (add_struct_from_batch_last _ _ [] n (0%nat, s) Hb Ht).
    intros [].
  - unfold enumerate.
    rewrite (positions_loop _ _ n l Hb Ht 0 []); [reflexivity|].
    intros name [].
Qed.

(** The scene dictionary built for generated titles, in closed form. *)
Lemma build_scene_dictionary_closed (b : batched) (max_size : nat) :
  match b with
  | Batch l => Forall (fun s => (1 <= len s)%nat) l
  | Single s => (1 <= len s)%nat
  end ->
  build_scene_dictionary b max_size extend_struct None
  = Ok (expected_scene b extend_struct max_size).
Proof.
  intros Hb. unfold build_scene_dictionary.
  change (@nil (string * Py.dict pyobj))
    with (expected_scene b extend_struct 0).
  assert (H : forall k start,
    foldR (add_scene b extend_struct None) (seq start k)
          (expected_scene b extend_struct start)
    = Ok (expected_scene b extend_struct (start + k))).
  { induction k as [|k IH]; intros start; cbn [seq foldR].
    - now rewrite Nat.add_0_r.
    - rewrite (add_scene_next b start Hb). cbn [bindR].
      rewrite IH. f_equal. f_equal. lia. }
  apply (H max_size 0%nat).
Qed.

End SceneDictionary.

Lemma valid_batch_of_sizes (l : list structure) (m : nat) :
  l <> [] -> (0 < m)%nat -> Forall (fun s => len s = m) l ->
  valid_batch (Batch l) /\ max_size_of (Batch l) = m.
Proof.
  intros Hne Hm HF.
  assert (Hmax : list_max (map len l) = m).
  { induction l as [|x l' IH]; [congruence|].
    inversion HF as [|? ? Hx HF']; subst.
    destruct l' as [|y l''].
    - cbn. lia.
    - change (list_max (map len (x :: y :: l'')))
        with (Nat.max (len x) (list_max (map len (y :: l'')))).
      rewrite IH by (discriminate || assumption). lia. }
  split; [| exact Hmax]. repeat split.
  - destruct l; [congruence | discriminate].
  - cbn [max_size_of]. lia.
  - cbn [max_size_of]. rewrite Hmax.
    eapply Forall_impl; [| exact HF]. intros s Hs. now right.
Qed.

(** C9. Without [subplot_titles], subplot [n] of the scene dictionary is
    titled "subplot {n+1}"; with a list input (and [extend_struct] true)
    the structure at list position [i] sits there under the name
    "trace{n+1}-{i+1}", and a single structure under "trace{n+1}-1".  For
    a list of two structures of batch size 2 the dictionary has the two
    subplots "subplot 1" and "subplot 2" with the traces "trace{n}-1" and
    "trace{n}-2", and the figure built from it (one column) has exactly
    these two titles and these four traces, unless the tensor library
    rejects a structure. *)
Theorem plot_batch_individually_trace_names :
  (forall l max_size,
      Forall (fun s => (1 <= len s)%nat) l ->
      build_scene_dictionary (Batch l) max_size true None
      = Ok (map (fun n =>
                   ("subplot " ++ Py.str (Z.of_nat n + 1),
                    map (fun ib : nat * structure =>
                           ("trace" ++ Py.str (Z.of_nat n + 1) ++ "-"
                              ++ Py.str (Z.of_nat (fst ib) + 1),
                            PStruct (select (snd ib)
                                       (Nat.min n (len (snd ib) - 1)))))
                        (enumerate l)))
                (seq 0 max_size)))
  /\ (forall s max_size extend_struct,
         (1 <= len s)%nat ->
         build_scene_dictionary (Single s) max_size extend_struct None
         = Ok (map (fun n =>
                      ("subplot " ++ Py.str (Z.of_nat n + 1),
                       [("trace" ++ Py.str (Z.of_nat n + 1) ++ "-1",
                         PStruct (select s (Nat.min n (len s - 1))))]))
                   (seq 0 max_size)))
  /\ (forall s1 s2 extend_struct o st,
         len s1 = 2%nat -> len s2 = 2%nat ->
         let scene_dictionary :=
           [("subplot 1", [("trace1-1", PStruct (select s1 0));
                           ("trace1-2", PStruct (select s2 0))]);
            ("subplot 2", [("trace2-1", PStruct (select s1 1));
                           ("trace2-2", PStruct (select s2 1))])] in
         plot_batch_individually (Batch [s1; s2]) 1 extend_struct None o st
         = (fig <- plot_scene scene_dictionary 1 o ;; ret (Some fig)) st
         /\ match plot_batch_individually (Batch [s1; s2]) 1 extend_struct
                  None o st with
            | (_, Ok r) =>
                exists fig, r = Some fig
                  /\ fig_titles fig = ["subplot 1"; "subplot 2"]
                  /\ fig_rows fig = 2 /\ fig_cols fig = 1
                  /\ map trace_key (fig_data fig)
                     = [("trace1-1", 1, 1); ("trace1-2", 1, 1);
                        ("trace2-1", 2, 1); ("trace2-2", 2, 1)]
            | (_, Raise e) => library_error e
            end).
Proof.
  split; [| split].
  - intros l max_size Hl.
    rewrite (build_scene_dictionary_closed true (Batch l) max_size Hl).
    unfold expected_scene, expected_traces. f_equal.
    apply map_ext. intros n. unfold default_title. f_equal.
    change (fun ib : nat * structure =>
              ("trace" ++ Py.str (Z.of_nat n + 1) ++ "-"
                 ++ Py.str (Z.of_nat (fst ib) + 1),
               PStruct (select (snd ib) (Nat.min n (len (snd ib) - 1)))))
      with (expected_trace n).
    f_equal. apply forallb_filter_id. apply forallb_forall. intros ib _.
    unfold skipped. cbn [negb]. now rewrite andb_false_r.
  - intros s max_size ext Hs.
    exact (build_scene_dictionary_closed ext (Single s) max_size Hs).
  - intros s1 s2 ext o st H1 H2 D.
    destruct (valid_batch_of_sizes [s1; s2] 2) as [Hv Hmax];
      [discriminate | lia | repeat constructor; assumption |].
    assert (Hrun :
      plot_batch_individually (Batch [s1; s2]) 1 ext None o st
      = (fig <- plot_scene D 1 o ;; ret (Some fig)) st).
    { rewrite (plot_batch_individually_checked _ _ _ _ _ _ Hv), Hmax.
      unfold plot_checked. cbn [truthy]. unfold bind at 1. unfold ret at 1.
      unfold bind at 1. unfold lift.
      rewrite (build_scene_dictionary_closed ext (Batch [s1; s2]) 2)
        by (repeat constructor; lia).
      unfold expected_scene, expected_traces, enumerate, skipped.
      cbn [length seq combine map filter fst snd]. rewrite H1, H2.
      cbn [Nat.leb andb negb map]. unfold expected_trace. cbn [fst snd].
      rewrite H1, H2. reflexivity. }
    split; [exact Hrun|]. rewrite Hrun. unfold bind at 1.
    pose proof (plot_scene_valid D 1 o st) as HV.
    destruct (plot_scene D 1 o st) as [st' [fig|e]].
    + destruct HV as (_ & Hr & Hc & Ht & Hk).
      * repeat constructor; cbn; intuition discriminate.
      * reflexivity.
      * exists fig. split; [reflexivity|]. split; [exact Ht|].
        split; [exact Hr|]. split; [exact Hc | exact Hk].
    + apply HV; [| reflexivity].
      repeat constructor; cbn; intuition discriminate.
Qed.

Lemma plot_batch_individually_trace_names_witness :
  exists st' fig,
    plot_batch_individually (Batch [two_meshes; two_clouds]) 1 true None
      default_options init_state
    = (st', Ok (Some fig))
    /\ fig_titles fig = ["subplot 1"; "subplot 2"]
    /\ map trace_key (fig_data fig)
       = [("trace1-1", 1, 1); ("trace1-2", 1, 1);
          ("trace2-1", 2, 1); ("trace2-2", 2, 1)].
Proof.
  pose proof (proj2 (proj2 plot_batch_individually_trace_names)
                two_meshes two_clouds true default_options init_state
                eq_refl eq_refl) as [_ H].
  destruct (plot_batch_individually _ _ _ _ _ _) as [st' [r|e]] eqn:E.
  - destruct H as (fig & -> & Ht & _ & _ & Hk). exists st', fig.
    split; [reflexivity|]. split; [exact Ht | exact Hk].
  - vm_compute in E. discriminate.
Defined.

(** C1, what the code does. In the scene dictionary built from a list,
    the structure at list position [i] is left out exactly when
    [i >= len(structure)] and [extend_struct] is false: the test looks at
    the list position, not at the subplot index, so a structure is in
    every subplot or in none.  For batch sizes 1 and 3 (in this order)
    and [extend_struct = False] both structures are in all three
    subplots; in the order 3 and 1 the structure of size 1 is in no
    subplot at all. *)
Theorem skip_rule_uses_list_position :
  (forall l extend_struct max_size,
      Forall (fun s => (1 <= len s)%nat) l ->
      build_scene_dictionary (Batch l) max_size extend_struct None
      = Ok (map (fun n =>
                   ("subplot " ++ Py.str (Z.of_nat n + 1),
                    map (fun ib : nat * structure =>
                           ("trace" ++ Py.str (Z.of_nat n + 1) ++ "-"
                              ++ Py.str (Z.of_nat (fst ib) + 1),
                            PStruct (select (snd ib)
                                       (Nat.min n (len (snd ib) - 1)))))
                        (filter (fun ib : nat * structure =>
                                   negb ((len (snd ib) <=? fst ib)%nat
                                         && negb extend_struct))
                                (enumerate l))))
                (seq 0 max_size)))
  /\ build_scene_dictionary (Batch [one_mesh; three_meshes]) 3 false None
     = Ok [("subplot 1", [("trace1-1", PStruct (select one_mesh 0));
                          ("trace1-2", PStruct (select three_meshes 0))]);
           ("subplot 2", [("trace2-1", PStruct (select one_mesh 0));
                          ("trace2-2", PStruct (select three_meshes 1))]);
           ("subplot 3", [("trace3-1", PStruct (select one_mesh 0));
                          ("trace3-2", PStruct (select three_meshes 2))])]
  /\ build_scene_dictionary (Batch [three_meshes; one_mesh]) 3 false None
     = Ok [("subplot 1", [("trace1-1", PStruct (select three_meshes 0))]);
           ("subplot 2", [("trace2-1", PStruct (select three_meshes 1))]);
           ("subplot 3", [("trace3-1", PStruct (select three_meshes 2))])].
Proof.
  split; [| split].
  - intros l ext max_size Hl.
    exact (build_scene_dictionary_closed ext (Batch l) max_size Hl).
  - vm_compute. reflexivity.
  - vm_compute. reflexivity.
Qed.

Lemma skip_rule_uses_list_position_witness :
  build_scene_dictionary (Batch [one_mesh; three_meshes]) 2 false None
  = Ok (map (fun n =>
               ("subplot " ++ Py.str (Z.of_nat n + 1),
                map (fun ib : nat * structure =>
                       ("trace" ++ Py.str (Z.of_nat n + 1) ++ "-"
                          ++ Py.str (Z.of_nat (fst ib) + 1),
                        PStruct (select (snd ib)
                                   (Nat.min n (len (snd ib) - 1)))))
                    (filter (fun ib : nat * structure =>
                               negb ((len (snd ib) <=? fst ib)%nat
                                     && negb false))
                            (enumerate [one_mesh; three_meshes]))))
            (seq 0 2)).
Proof.
  apply (proj1 skip_rule_uses_list_position [one_mesh; three_meshes] false
           2%nat).
  repeat constructor; simpl; lia.
Defined.

(** ** Colors of a point cloud *)

Lemma tensor_index_none_shape (t : tensor) :
  tensor_index t None = Ok (Stack (shape t) [t]).
Proof. reflexivity. Qed.

(** C2, what the code does. When no subsampling takes place the
    features are indexed with [None]: the tensor gets a leading dimension
    and [features.shape[1]] is the number of points, not of channels.  So
    the color of a cloud with [n] points is [None] as soon as [n] is
    neither 3 nor 4, whatever its channels: a cloud of five points with
    three channels gets no color, while a cloud of three points with one
    channel gets the single string "rgb(51, 127, 255)" made of the
    features of its three points.  With subsampling the same five points
    get one "rgb(r, g, b)" string per drawn index. *)
Theorem pointcloud_color_without_subsampling :
  (forall p c rows,
      features_list p = Some (c, rows) ->
      length (concat rows) <> 3%nat -> length (concat rows) <> 4%nat ->
      pointcloud_color (features_packed p) None = Ok None)
  /\ pointcloud_color (features_packed cloud_three_channels) None = Ok None
  /\ pointcloud_color (features_packed cloud_one_channel) None
     = Ok (Some ["rgb(51, 127, 255)"])
  /\ (exists s' f,
         _add_pointcloud_trace cloud_one_channel "cloud" 0 1 20000 1
           one_cell_state
         = (s', Ok tt)
         /\ st_fig s' = Some f
         /\ map tr_data (fig_data f)
            = [Scatter3d [0; 1; 0]%Q [0; 0; 1]%Q [0; 0; 0]%Q
                 (Some ["rgb(51, 127, 255)"]) 1 "markers"])
  /\ pointcloud_color (features_packed cloud_three_channels)
       (Some [4; 0; 2]%nat)
     = Ok (Some ["rgb(0, 63, 191)"; "rgb(0, 255, 127)"; "rgb(255, 255, 255)"]).
Proof.
  split.
  { intros p c rows Hp H3 H4. unfold pointcloud_color, features_packed.
    rewrite Hp.
    cbn [option_map fst snd tensor_index bindR shape shape1].
    rewrite length_map.
    destruct (Nat.eqb_spec (length (concat rows)) 4) as [E|_]; [contradiction|].
    cbn [bindR].
    destruct (Nat.eqb_spec (length (concat rows)) 3) as [E|_]; [contradiction|].
    reflexivity. }
  split; [vm_compute; reflexivity|].
  split; [vm_compute; reflexivity|].
  split; [| vm_compute; reflexivity].
  do 2 eexists. split; [vm_compute; reflexivity|].
  split; reflexivity.
Qed.

Lemma pointcloud_color_without_subsampling_witness :
  pointcloud_color (features_packed cloud_three_channels) None = Ok None.
Proof.
  apply (proj1 pointcloud_color_without_subsampling cloud_three_channels
           3%nat
           [[[0; 1; 5 # 10]; [2 # 10; 4 # 10; 2]; [1; 1; 1];
             [0; 0; 0]; [-1; 25 # 100; 75 # 100]]%Q]).
  - reflexivity.
  - simpl. lia.
  - simpl. lia.
Defined.

(** ** What a trace that has been added leaves behind *)

Lemma dict_get_set_other {V} (d : Py.dict V) (k k' : string) (v : V) :
  k' <> k -> Py.dict_get (Py.dict_set d k v) k' = Py.dict_get d k'.
Proof.
  intros Hk. induction d as [|[k0 v0] d IH]; cbn.
  - destruct (String.eqb_spec k k'); [congruence | reflexivity].
  - destruct (String.eqb_spec k0 k) as [->|Hk0]; cbn.
    + destruct (String.eqb_spec k k'); [congruence|].
      destruct (String.eqb_spec k k'); [congruence | reflexivity].
    + destruct (String.eqb_spec k0 k'); [reflexivity | exact IH].
Qed.

(** What a run of [_add_mesh_trace] that returns has done. *)
Lemma add_mesh_trace_ok (meshes : Meshes) (trace_name : string)
  (subplot_idx ncols : Z) (lighting : Lighting) (s s' : state) (f : figure) :
  st_fig s = Some f ->
  _add_mesh_trace meshes trace_name subplot_idx ncols lighting s
  = (s', Ok tt) ->
  exists plotted center max_expand vertexcolor f',
    reposition_unused (verts_packed (join_meshes_as_scene meshes))
      (faces_packed (join_meshes_as_scene meshes))
    = Ok (plotted, center)
    /\ max_spread_float plotted = Ok max_expand
    /\ ncols <> 0
    /\ s' = mkState (st_warnings s) (st_rng s) (Some f')
    /\ fig_data f'
       = (fig_data f
          ++ [mkTrace (Mesh3d (map (option_map col0) plotted)
                         (map (option_map col1) plotted)
                         (map (option_map col2) plotted) vertexcolor
                         (map (fun f : face => fst (fst f))
                            (faces_packed (join_meshes_as_scene meshes)))
                         (map (fun f : face => snd (fst f))
                            (faces_packed (join_meshes_as_scene meshes)))
                         (map (fun f : face => snd f)
                            (faces_packed (join_meshes_as_scene meshes)))
                         lighting)
                trace_name (subplot_idx / ncols + 1)
                (subplot_idx mod ncols + 1)])%list
    /\ same_grid f f'
    /\ layout_of f' subplot_idx
       = _update_axes_bounds_float center max_expand (layout_of f subplot_idx)
    /\ (forall other, scene_key other <> scene_key subplot_idx ->
          layout_of f' other = layout_of f other).
Proof.
  intros Hfig. unfold _add_mesh_trace. cbv zeta.
  unfold bind at 1. unfold lift at 1.
  destruct (reposition_unused _ _) as [[plotted center]|e] eqn:ER;
    [| discriminate].
  unfold py_floordiv, py_mod.
  destruct (Z.eqb_spec ncols 0) as [|Hn]; [discriminate|].
  unfold bind at 1. unfold ret at 1.
  unfold bind at 1. unfold ret at 1.
  unfold bind at 1. unfold add_trace, modify_fig. rewrite Hfig.
  cbn [option_map st_warnings st_rng st_fig].
  unfold bind at 1. unfold get_layout, bind, get_fig, ret, lift.
  cbn [st_warnings st_rng st_fig fig_layout].
  destruct (max_spread_float plotted) as [max_expand|e] eqn:ES;
    [| discriminate].
  unfold set_layout, modify_fig.
  cbn [option_map st_warnings st_rng st_fig fig_rows fig_cols fig_specs
       fig_titles fig_column_widths fig_data fig_layout].
  intros [= <-]. exists plotted, center, max_expand.
  do 2 eexists. split; [reflexivity|]. split; [exact ES|].
  split; [exact Hn|]. split; [reflexivity|]. split; [reflexivity|].
  split; [repeat split|]. split.
  - unfold layout_of. cbn [fig_layout]. now rewrite dict_get_set_same.
  - intros other Hother. unfold layout_of. cbn [fig_layout].
    now rewrite dict_get_set_other.
Qed.

Lemma add_pointcloud_trace_ok (pointclouds : Pointclouds)
  (trace_name : string) (subplot_idx ncols max_points marker_size : Z)
  (s s' : state) (f : figure) :
  st_fig s = Some f ->
  _add_pointcloud_trace pointclouds trace_name subplot_idx ncols max_points
    marker_size s
  = (s', Ok tt) ->
  exists indices verts color center max_expand s1 f',
    subsample (points_packed pointclouds)
      (max_points * Z.of_nat (len (SPointclouds pointclouds))) s
    = (s1, Ok (indices, verts))
    /\ pointcloud_color (features_packed pointclouds) indices = Ok color
    /\ mean0 verts = Some center
    /\ max_spread verts = Some max_expand
    /\ ncols <> 0
    /\ s' = mkState (st_warnings s1) (st_rng s1) (Some f')
    /\ fig_data f'
       = (fig_data f
          ++ [mkTrace (Scatter3d (map col0 verts) (map col1 verts)
                         (map col2 verts) color marker_size "markers")
                trace_name (subplot_idx / ncols + 1)
                (subplot_idx mod ncols + 1)])%list
    /\ same_grid f f'
    /\ layout_of f' subplot_idx
       = _update_axes_bounds center max_expand (layout_of f subplot_idx)
    /\ (forall other, scene_key other <> scene_key subplot_idx ->
          layout_of f' other = layout_of f other).
Proof.
  intros Hfig. unfold _add_pointcloud_trace. cbv zeta.
  unfold bind at 1.
  pose proof (subsample_keeps (points_packed pointclouds)
    (max_points * Z.of_nat (len (SPointclouds pointclouds))) s) as Hsample.
  destruct (subsample _ _ s) as [s1 [[indices verts]|e]] eqn:ESub;
    [| discriminate].
  rewrite Hfig in Hsample.
  unfold bind at 1. unfold lift.
  destruct (pointcloud_color _ _) as [color|e] eqn:EC; [| discriminate].
  unfold py_floordiv, py_mod.
  destruct (Z.eqb_spec ncols 0) as [|Hn]; [discriminate|].
  unfold bind at 1. unfold ret at 1.
  unfold bind at 1. unfold ret at 1.
  unfold bind at 1. unfold add_trace, modify_fig. rewrite Hsample.
  cbn [option_map st_warnings st_rng st_fig].
  unfold bind at 1. unfold get_layout, bind, get_fig, ret, lift.
  cbn [st_warnings st_rng st_fig fig_layout].
  destruct (max_spread_float (map Some verts)) as [spread|err] eqn:EF;
    [| discriminate].
  assert (Hne : verts <> []) by (intros ->; discriminate).
  rewrite (max_spread_float_finite verts Hne) in EF. injection EF as <-.
  destruct (mean0_some verts Hne) as [center EM].
  destruct (max_spread_some verts Hne) as [max_expand ES].
  rewrite EM, ES. cbn [_update_axes_bounds_float].
  unfold set_layout, modify_fig.
  cbn [option_map st_warnings st_rng st_fig fig_rows fig_cols fig_specs
       fig_titles fig_column_widths fig_data fig_layout].
  intros [= <-]. exists indices, verts, color, center, max_expand, s1.
  eexists. split; [reflexivity|]. split; [exact EC|].
  split; [exact EM|]. split; [exact ES|].
  split; [exact Hn|]. split; [reflexivity|]. split; [reflexivity|].
  split; [repeat split|]. split.
  - unfold layout_of. cbn [fig_layout]. now rewrite dict_get_set_same.
  - intros other Hother. unfold layout_of. cbn [fig_layout].
    now rewrite dict_get_set_other.
Qed.

Lemma scene_key_inj (a b : Z) : scene_key a = scene_key b -> a = b.
Proof.
  unfold scene_key. intros H. apply append_inj, str_inj in H. lia.
Qed.

(** ** The accumulated range is the hull of the traces *)

Lemma widen_least (R new : range) (old : option range) :
  contains R new ->
  (forall o, old = Some o -> contains R o) ->
  contains R (widen new old).
Proof.
  intros Hnew Hold. destruct old as [o|]; [| exact Hnew].
  specialize (Hold o eq_refl). destruct Hnew as [N1 N2], Hold as [O1 O2].
  unfold widen, Py.min, Py.max. cbn [fst snd].
  split.
  - destruct (Py.Qltb (fst o) (fst new)); assumption.
  - destruct (Py.Qltb (snd new) (snd o)); assumption.
Qed.

(** X3. The range an axis ends with is the smallest one possible: every
    interval that contains the range the axis had before (if any) and the
    cube of each trace also contains the final range. *)
Theorem add_all_least_range
  (traces : list (vec3 * Q)) (L : scene) (a : axis_name) (R r : range) :
  (forall t, In t traces -> contains R (cube a (fst t) (snd t))) ->
  (forall prior, range_of a L = Some prior -> contains R prior) ->
  range_of a (add_all traces L) = Some r ->
  contains R r.
Proof.
  revert L r. induction traces as [|t traces IH]; intros L r Hcubes Hprior Hr.
  - cbn in Hr. now apply Hprior.
  - cbn [add_all fold_left] in Hr.
    apply (IH (_update_axes_bounds (fst t) (snd t) L) r).
    + intros t' Ht'. apply Hcubes. now right.
    + intros prior. rewrite range_of_update. intros [= <-].
      apply widen_least; [apply Hcubes; now left | exact Hprior].
    + exact Hr.
Qed.

Lemma add_all_least_range_witness :
  contains (-1, 7)%Q (-1, 7)%Q.
Proof.
  apply (add_all_least_range two_traces empty_scene AxX (-1, 7)%Q (-1, 7)%Q).
  - intros t [<-|[<-|[]]]; split; cbn; discriminate.
  - intros prior H. discriminate.
  - reflexivity.
Defined.



(** ** One subplot at a time *)

(** X5. Adding the trace of a structure to a subplot keeps the grid and
    the traces the figure already has, appends exactly one trace, named
    as asked and placed at row [idx // ncols + 1] and column
    [idx % ncols + 1], and leaves the layout of every other subplot as it
    was. *)
Theorem add_struct_trace_touches_one_subplot
  (subplot_idx ncols : Z) (o : options) (lighting : Lighting)
  (name : string) (st : structure) (s s' : state) (f : figure) :
  st_fig s = Some f ->
  add_struct_trace subplot_idx ncols o lighting (name, PStruct st) s
  = (s', Ok tt) ->
  exists f' t,
    st_fig s' = Some f'
    /\ same_grid f f'
    /\ fig_data f' = (fig_data f ++ [t])%list
    /\ tr_name t = name
    /\ tr_row t = subplot_idx / ncols + 1
    /\ tr_col t = subplot_idx mod ncols + 1
    /\ forall other, other <> subplot_idx ->
         layout_of f' other = layout_of f other.
Proof.
  intros Hfig Hrun. destruct st as [m|p]; cbn [add_struct_trace] in Hrun.
  - destruct (add_mesh_trace_ok _ _ _ _ _ _ _ _ Hfig Hrun)
      as (plotted & center & e & vc & f' & _ & _ & _ & -> & HD & HG & _ & HF).
    do 2 eexists. split; [reflexivity|]. split; [exact HG|].
    split; [exact HD|]. repeat split.
    intros other Hother. apply HF. intros E. now apply scene_key_inj in E.
  - destruct (add_pointcloud_trace_ok _ _ _ _ _ _ _ _ _ Hfig Hrun)
      as (indices & verts & color & center & e & s1 & f' & _ & _ & _ & _
          & _ & -> & HD & HG & _ & HF).
    do 2 eexists. split; [reflexivity|]. split; [exact HG|].
    split; [exact HD|]. repeat split.
    intros other Hother. apply HF. intros E. now apply scene_key_inj in E.
Qed.

Lemma add_struct_trace_touches_one_subplot_witness :
  exists s' f' t,
    st_fig s' = Some f'
    /\ same_grid one_cell_figure f'
    /\ fig_data f' = (fig_data one_cell_figure ++ [t])%list
    /\ tr_name t = "mesh"
    /\ tr_row t = 0 / 1 + 1
    /\ tr_col t = 0 mod 1 + 1
    /\ forall other, other <> 0 ->
         layout_of f' other = layout_of one_cell_figure other.
Proof.
  assert (E : exists s',
    add_struct_trace 0 1 default_options Lighting_default
      ("mesh", PStruct one_mesh) one_cell_state
    = (s', Ok tt)) by (eexists; vm_compute; reflexivity).
  destruct E as (s' & E). exists s'.
  apply (add_struct_trace_touches_one_subplot 0 1 default_options
           Lighting_default "mesh" one_mesh one_cell_state s' one_cell_figure
           eq_refl E).
Defined.

(** ** The input checks of [plot_batch_individually] *)

Lemma for_stops_at {A} (pre post : list A) (x : A) (body : A -> M unit)
  (s : state) (e : exn) :
  (forall y, In y pre -> forall s0, body y s0 = (s0, Ok tt)) ->
  body x s = (s, Raise e) ->
  for_ (pre ++ x :: post) body s = (s, Raise e).
Proof.
  intros Hpre Hx. induction pre as [|y pre IH]; cbn [app for_].
  - unfold bind. now rewrite Hx.
  - unfold bind at 1. rewrite (Hpre y (or_introl eq_refl)).
    apply IH. intros z Hz. apply Hpre. now right.
Qed.

Lemma for_passes {A} (l : list A) (body : A -> M unit) (s : state) :
  (forall y, In y l -> forall s0, body y s0 = (s0, Ok tt)) ->
  for_ l body s = (s, Ok tt).
Proof.
  intros H. induction l as [|y l IH]; cbn [for_]; [reflexivity|].
  unfold bind. rewrite (H y (or_introl eq_refl)).
  apply IH. intros z Hz. apply H. now right.
Qed.

(** X6. A list input in which some structure has a batch length that is
    neither 1 nor the largest batch length of the list is refused: the
    call raises the invalid-batch-size error for the first such structure
    in list order, carrying its length and the structure itself, and
    nothing has happened by then (no warning, no figure). *)
Theorem plot_batch_individually_invalid_batch_size
  (pre post : list structure) (bad : structure) (ncols : Z)
  (extend_struct : bool) (subplot_titles : option (list string))
  (o : options) (s : state) :
  Forall (fun x => len x = 1%nat
                   \/ len x = list_max (map len (pre ++ bad :: post))) pre ->
  len bad <> 1%nat ->
  len bad <> list_max (map len (pre ++ bad :: post)) ->
  plot_batch_individually (Batch (pre ++ bad :: post)) ncols extend_struct
    subplot_titles o s
  = (s, Raise (ValueError "invalid batch size {} provided: {}"
                 [PInt (Z.of_nat (len bad)); PStruct bad])).
Proof.
  intros Hpre H1 Hmax. unfold plot_batch_individually. cbn [batched_len].
  assert (Hlen : (length (pre ++ bad :: post) =? 0)%nat = false).
  { apply Nat.eqb_neq. rewrite length_app. cbn [length]. lia. }
  rewrite Hlen. unfold bind at 1. unfold check_batch_sizes.
  unfold bind at 1.
  rewrite (for_stops_at pre post bad _ s
             (ValueError "invalid batch size {} provided: {}"
                [PInt (Z.of_nat (len bad)); PStruct bad])).
  - reflexivity.
  - intros y Hy s0. rewrite Forall_forall in Hpre.
    destruct (Hpre y Hy) as [E|E]; rewrite E.
    + reflexivity.
    + rewrite Nat.eqb_refl, orb_true_r. reflexivity.
  - apply Nat.eqb_neq in H1, Hmax. rewrite H1, Hmax. reflexivity.
Qed.

Lemma plot_batch_individually_invalid_batch_size_witness :
  plot_batch_individually (Batch ([one_mesh] ++ two_meshes :: [three_meshes]))
    1 true None default_options init_state
  = (init_state,
     Raise (ValueError "invalid batch size {} provided: {}"
              [PInt (Z.of_nat (len two_meshes)); PStruct two_meshes])).
Proof.
  apply (plot_batch_individually_invalid_batch_size [one_mesh] [three_meshes]
           two_meshes 1 true None default_options init_state).
  - repeat constructor.
  - cbn. lia.
  - cbn. lia.
Defined.

Lemma list_max_zero (l : list nat) :
  Forall (fun n => n = 0%nat) l -> list_max l = 0%nat.
Proof.
  induction 1 as [|n l Hn _ IH]; [reflexivity|].
  cbn [list_max fold_right]. fold (list_max l). rewrite IH, Hn. reflexivity.
Qed.

(** X7. A non-empty list whose structures all have batch length 0 passes
    the empty-input test and the batch-size check, and is then refused
    with the error "No data is provided with at least one element";
    nothing has happened by then (no warning, no figure). *)
Theorem plot_batch_individually_only_empty_structures
  (l : list structure) (ncols : Z) (extend_struct : bool)
  (subplot_titles : option (list string)) (o : options) (s : state) :
  l <> [] ->
  Forall (fun x => len x = 0%nat) l ->
  plot_batch_individually (Batch l) ncols extend_struct subplot_titles o s
  = (s, Raise (ValueError "No data is provided with at least one element" [])).
Proof.
  intros Hne Hall. unfold plot_batch_individually. cbn [batched_len].
  assert (Hlen : (length l =? 0)%nat = false).
  { apply Nat.eqb_neq. destruct l; [congruence | cbn; lia]. }
  assert (Hmax : list_max (map len l) = 0%nat).
  { apply list_max_zero. rewrite Forall_map. exact Hall. }
  rewrite Hlen. unfold bind at 1. unfold check_batch_sizes.
  unfold bind at 1. rewrite Hmax.
  rewrite for_passes.
  - reflexivity.
  - intros y Hy s0. rewrite Forall_forall in Hall. rewrite (Hall y Hy).
    reflexivity.
Qed.

Lemma plot_batch_individually_only_empty_structures_witness :
  plot_batch_individually (Batch [no_meshes; no_meshes]) 1 true None
    default_options init_state
  = (init_state,
     Raise (ValueError "No data is provided with at least one element" [])).
Proof.
  apply (plot_batch_individually_only_empty_structures [no_meshes; no_meshes]
           1 true None default_options init_state).
  - discriminate.
  - repeat constructor.
Defined.

(** ** A grid without columns *)

Lemma valid_batch_nonempty (b : batched) :
  valid_batch b ->
  match b with
  | Batch l => Forall (fun s => (1 <= len s)%nat) l
  | Single s => (1 <= len s)%nat
  end.
Proof.
  intros (_ & Hmax & Hall). destruct b as [s|l]; cbn in *.
  - lia.
  - rewrite Forall_forall in *. intros x Hx.
    destruct (Hall x Hx) as [E|E]; rewrite E; lia.
Qed.

Lemma plot_scene_no_columns (plots : scene_dict) (o : options) (s : state) :
  plot_scene plots 0 o s = (s, Raise ZeroDivisionError).
Proof. reflexivity. Qed.

(** X8. With [ncols = 0] no figure is made: [plot_scene] raises
    [ZeroDivisionError] at the first division of the grid construction,
    whatever the scene dictionary holds, and [plot_batch_individually]
    does so for every input that passes its checks; the state is left as
    it was. *)
Theorem zero_columns_raise_zero_division :
  (forall plots o s,
      plot_scene plots 0 o s = (s, Raise ZeroDivisionError))
  /\ (forall b extend_struct o s,
         valid_batch b ->
         plot_batch_individually b 0 extend_struct None o s
         = (s, Raise ZeroDivisionError)).
Proof.
  split; [exact plot_scene_no_columns|].
  intros b extend_struct o s Hv.
  rewrite (plot_batch_individually_checked b 0 extend_struct None o s Hv).
  unfold plot_checked. cbn [truthy]. unfold bind at 1. unfold ret at 1.
  unfold bind at 1. unfold lift.
  rewrite (build_scene_dictionary_closed extend_struct b (max_size_of b)
             (valid_batch_nonempty b Hv)).
  unfold bind at 1. now rewrite plot_scene_no_columns.
Qed.

Lemma zero_columns_raise_zero_division_witness :
  plot_batch_individually (Single two_meshes) 0 true None default_options
    init_state
  = (init_state, Raise ZeroDivisionError).
Proof.
  apply (proj2 zero_columns_raise_zero_division (Single two_meshes) true
           default_options init_state).
  repeat split; discriminate.
Defined.

(** ** Invariants of the figure along a run of [plot_scene] *)

Section Triples.

Lemma triple_ret (I : figure -> Prop) : triple I (ret tt) I.
Proof. intros s s' f Hf HI [= <-]. eauto. Qed.

Lemma triple_bind (P R Q : figure -> Prop) (c1 c2 : M unit) :
  triple P c1 R -> triple R c2 Q -> triple P (c1 ;;; c2) Q.
Proof.
  intros H1 H2 s s' f Hf HP Hrun. unfold bind in Hrun.
  destruct (c1 s) as [s1 [[]|e]] eqn:E1; [| discriminate].
  destruct (H1 _ _ _ Hf HP E1) as (f1 & Hf1 & HR).
  exact (H2 _ _ _ Hf1 HR Hrun).
Qed.

Lemma triple_for {A} (I : figure -> Prop) (l : list A) (body : A -> M unit) :
  (forall x, In x l -> triple I (body x) I) -> triple I (for_ l body) I.
Proof.
  induction l as [|x l IH]; intros H; cbn [for_]; [apply triple_ret|].
  apply triple_bind with I; [apply H; now left|].
  apply IH. intros y Hy. apply H. now right.
Qed.

Lemma triple_for_seq (I : nat -> figure -> Prop) (body : nat -> M unit)
  (n : nat) :
  forall start,
    (forall k, (start <= k < start + n)%nat ->
               triple (I k) (body k) (I (S k))) ->
    triple (I start) (for_ (seq start n) body) (I (start + n)%nat).
Proof.
  induction n as [|n IH]; intros start H; cbn [seq for_].
  - rewrite Nat.add_0_r. apply triple_ret.
  - apply triple_bind with (I (S start)); [apply H; lia|].
    replace (start + S n)%nat with (S start + n)%nat by lia.
    apply IH. intros k Hk. apply H. lia.
Qed.

End Triples.

Lemma plot_subplot_triple (I : nat -> figure -> Prop) (plots : scene_dict)
  (subplots : list string) (ncols : Z) (o : options) (lighting : Lighting)
  (xs ys zs : Py.dict setting) (k : nat) :
  (forall item,
      triple (I k) (add_struct_trace (Z.of_nat k) ncols o lighting item)
        (I k)) ->
  triple (I k) (style_subplot (Z.of_nat k) xs ys zs) (I (S k)) ->
  triple (I k) (plot_subplot plots subplots ncols o lighting xs ys zs k)
    (I (S k)).
Proof.
  intros Ha Hs. unfold plot_subplot.
  destruct (nth_error subplots k) as [name|];
    [| intros s s' f _ _ H; discriminate].
  destruct (Py.dict_get plots name) as [traces|];
    [| intros s s' f _ _ H; discriminate].
  apply triple_bind with (I k); [| exact Hs].
  apply triple_for. intros item _. apply Ha.
Qed.

(** A property of the figure that holds for the empty grid, is kept by
    every trace that is added and is established subplot by subplot by the
    styling, holds for the figure [plot_scene] returns. *)
Lemma plot_scene_triple (I : nat -> figure -> Prop) (plots : scene_dict)
  (ncols : Z) (o : options) (s s' : state) (fig : figure) :
  (forall k item, (k < length plots)%nat ->
      triple (I k)
        (add_struct_trace (Z.of_nat k) ncols o
           (kwargs_get (kw_lighting o) Lighting_default) item)
        (I k)) ->
  (forall k, (k < length plots)%nat ->
      triple (I k)
        (style_subplot (Z.of_nat k) (axis_settings o (kw_xaxis o))
           (axis_settings o (kw_yaxis o)) (axis_settings o (kw_zaxis o)))
        (I (S k))) ->
  (forall specs widths,
      I 0%nat (mkFigure (Z.of_nat (length plots) / ncols) ncols specs
                 (Py.keys plots) widths [] [])) ->
  plot_scene plots ncols o s = (s', Ok fig) ->
  st_fig s' = Some fig /\ I (length plots) fig.
Proof.
  intros Hadd Hstyle Hinit. unfold plot_scene. cbv zeta. unfold bind at 1.
  destruct (_gen_fig_with_subplots _ _ _ s) as [s1 [[]|e]] eqn:EG;
    [| discriminate].
  apply gen_fig_with_subplots_ok in EG.
  destruct EG as (Hn & _ & _ & specs & widths & Hf1).
  assert (HK : length (Py.keys plots) = length plots) by apply length_map.
  rewrite HK in *.
  unfold bind at 1.
  destruct (for_ _ _ s1) as [s2 [[]|e]] eqn:EF; [| discriminate].
  assert (HT : triple (I 0%nat)
                 (for_ (seq 0 (length plots))
                    (plot_subplot plots (Py.keys plots) ncols o
                       (kwargs_get (kw_lighting o) Lighting_default)
                       (axis_settings o (kw_xaxis o))
                       (axis_settings o (kw_yaxis o))
                       (axis_settings o (kw_zaxis o))))
                 (I (0 + length plots)%nat)).
  { apply triple_for_seq. intros k Hk. apply plot_subplot_triple.
    - intros item. apply Hadd. lia.
    - apply Hstyle. lia. }
  destruct (HT s1 s2 _ Hf1 (Hinit specs widths) EF) as (f2 & Hf2 & HI).
  unfold get_fig. rewrite Hf2. intros [= <- <-]. split; [exact Hf2 | exact HI].
Qed.

(** What a trace that has been added leaves behind. *)
Lemma add_struct_trace_ok (idx ncols : Z) (o : options) (lighting : Lighting)
  (item : string * pyobj) (s s' : state) (f : figure) :
  st_fig s = Some f ->
  add_struct_trace idx ncols o lighting item s = (s', Ok tt) ->
  exists f' t center max_expand,
    st_fig s' = Some f'
    /\ same_grid f f'
    /\ fig_data f' = (fig_data f ++ [t])%list
    /\ tr_row t = idx / ncols + 1
    /\ tr_col t = idx mod ncols + 1
    /\ ncols <> 0
    /\ layout_of f' idx
       = _update_axes_bounds_float center max_expand (layout_of f idx)
    /\ (forall other, other <> idx -> layout_of f' other = layout_of f other).
Proof.
  intros Hfig Hrun. destruct item as [name [[m|p]|z|r]];
    cbn [add_struct_trace] in Hrun; try discriminate.
  - destruct (add_mesh_trace_ok _ _ _ _ _ _ _ _ Hfig Hrun)
      as (plotted & center & e & vc & f' & _ & _ & Hn & -> & HD & HG & HL
          & HF).
    exists f'. eexists. exists center, e.
    split; [reflexivity|]. split; [exact HG|]. split; [exact HD|].
    split; [reflexivity|]. split; [reflexivity|]. split; [exact Hn|].
    split; [exact HL|].
    intros other Hother. apply HF. intros E. now apply scene_key_inj in E.
  - destruct (add_pointcloud_trace_ok _ _ _ _ _ _ _ _ _ Hfig Hrun)
      as (indices & verts & color & center & e & s1 & f' & _ & _ & _ & _
          & Hn & -> & HD & HG & HL & HF).
    exists f'. eexists. exists (Some center), (Some e).
    split; [reflexivity|]. split; [exact HG|]. split; [exact HD|].
    split; [reflexivity|]. split; [reflexivity|]. split; [exact Hn|].
    split; [exact HL|].
    intros other Hother. apply HF. intros E. now apply scene_key_inj in E.
Qed.

(** What the block "Ensure update for every subplot" leaves behind. *)
Lemma style_subplot_ok (idx : Z) (xs ys zs : Py.dict setting)
  (s s' : state) (f : figure) :
  st_fig s = Some f ->
  style_subplot idx xs ys zs s = (s', Ok tt) ->
  exists f',
    st_fig s' = Some f'
    /\ same_grid f f'
    /\ fig_data f' = fig_data f
    /\ layout_of f' idx
       = mkScene (axis_update (xaxis (layout_of f idx)) xs)
                 (axis_update (yaxis (layout_of f idx)) ys)
                 (axis_update (zaxis (layout_of f idx)) zs)
                 (Some "cube") (Some (0, 1, 0))
    /\ (forall other, other <> idx -> layout_of f' other = layout_of f other).
Proof.
  intros Hfig. destruct s as [w r fg]. cbn [st_fig] in Hfig. subst fg.
  unfold style_subplot, bind, get_layout, bind, get_fig, ret,
    set_layout, modify_fig.
  cbn [option_map st_warnings st_rng st_fig].
  intros [= <-]. eexists. split; [reflexivity|].
  split; [repeat split|]. split; [reflexivity|]. split.
  - unfold layout_of. cbn [fig_layout]. now rewrite dict_get_set_same.
  - intros other Hother. unfold layout_of. cbn [fig_layout].
    rewrite dict_get_set_other; [reflexivity|].
    intros E. now apply scene_key_inj in E.
Qed.

(** ** The cells of the traces *)

(** X9. When the number of columns is positive and divides the number of
    subplots, the figure [plot_scene] returns has one cell per subplot
    and every trace is placed in a cell of the grid: its row is between 1
    and the number of rows, its column between 1 and [ncols]. *)
Theorem plot_scene_traces_inside_grid
  (plots : scene_dict) (ncols : Z) (o : options) (s s' : state)
  (fig : figure) :
  0 < ncols ->
  Z.of_nat (length plots) mod ncols = 0 ->
  plot_scene plots ncols o s = (s', Ok fig) ->
  fig_rows fig * fig_cols fig = Z.of_nat (length plots)
  /\ fig_titles fig = Py.keys plots
  /\ forall t, In t (fig_data fig) ->
       1 <= tr_row t <= fig_rows fig /\ 1 <= tr_col t <= fig_cols fig.
Proof.
  intros Hpos Hmod Hrun.
  set (n := Z.of_nat (length plots)) in *.
  pose (I := fun (_ : nat) (f : figure) =>
    fig_rows f = n / ncols /\ fig_cols f = ncols
    /\ fig_titles f = Py.keys plots
    /\ forall t, In t (fig_data f) ->
         exists idx, 0 <= idx < n
                     /\ tr_row t = idx / ncols + 1
                     /\ tr_col t = idx mod ncols + 1).
  destruct (plot_scene_triple I plots ncols o s s' fig) as (_ & HI);
    [ | | | exact Hrun | ].
  - intros k item Hk s0 s1 f Hf (R & C & T & D) Hstep.
    destruct (add_struct_trace_ok _ _ _ _ _ _ _ _ Hf Hstep)
      as (f' & t & _ & _ & Hf' & (G1 & G2 & _ & G4) & HD & Hr & Hc & _).
    exists f'. split; [exact Hf'|]. unfold I.
    rewrite G1, G2, G4. repeat (split; [assumption|]).
    intros t' Ht'. rewrite HD in Ht'. apply in_app_or in Ht'.
    destruct Ht' as [Ht'|[<-|[]]]; [now apply D|].
    exists (Z.of_nat k). subst n. repeat split; try assumption; lia.
  - intros k Hk s0 s1 f Hf (R & C & T & D) Hstep.
    destruct (style_subplot_ok _ _ _ _ _ _ _ Hf Hstep)
      as (f' & Hf' & (G1 & G2 & _ & G4) & HD & _).
    exists f'. split; [exact Hf'|]. unfold I.
    rewrite G1, G2, G4, HD. repeat (split; [assumption|]). exact D.
  - intros specs widths. unfold I. cbn. repeat split. intros t [].
  - destruct HI as (R & C & T & D).
    assert (Hn : n = ncols * (n / ncols)).
    { pose proof (Z.div_mod n ncols). lia. }
    split; [rewrite R, C; lia|]. split; [exact T|].
    intros t Ht. destruct (D t Ht) as (idx & Hidx & -> & ->).
    rewrite R, C.
    pose proof (Z.div_pos idx ncols). 
    pose proof (Z.mod_pos_bound idx ncols Hpos).
    assert (idx / ncols < n / ncols)
      by (apply Z.div_lt_upper_bound; lia).
    lia.
Qed.

Lemma plot_scene_traces_inside_grid_witness :
  exists fig,
    fig_rows fig * fig_cols fig = Z.of_nat (length two_subplots)
    /\ fig_titles fig = Py.keys two_subplots
    /\ forall t, In t (fig_data fig) ->
         1 <= tr_row t <= fig_rows fig /\ 1 <= tr_col t <= fig_cols fig.
Proof.
  assert (E : exists s' fig,
    plot_scene two_subplots 2 default_options init_state = (s', Ok fig))
    by (do 2 eexists; vm_compute; reflexivity).
  destruct E as (s' & fig & E). exists fig.
  apply (plot_scene_traces_inside_grid two_subplots 2 default_options
           init_state s' fig); [lia | reflexivity | exact E].
Defined.

(** ** The settings of the axes *)

Section Settings.

Context {V : Type}.

Lemma dict_set_present (d : Py.dict V) (k : string) (v : V) :
  In k (Py.keys d) -> Py.keys (Py.dict_set d k v) = Py.keys d.
Proof.
  induction d as [|[k0 v0] d IH]; cbn; [intros []|].
  destruct (String.eqb_spec k0 k) as [->|Hk]; [reflexivity|].
  intros [E|Hin]; [congruence|]. cbn. f_equal. now apply IH.
Qed.

Lemma dict_set_NoDup (d : Py.dict V) (k : string) (v : V) :
  NoDup (Py.keys d) -> NoDup (Py.keys (Py.dict_set d k v)).
Proof.
  intros ND. destruct (in_dec string_dec k (Py.keys d)) as [Hin|Hout].
  - now rewrite dict_set_present.
  - rewrite dict_set_fresh by exact Hout. unfold Py.keys.
    rewrite map_app. cbn. apply NoDup_app; [exact ND | repeat constructor; intros [] |].
    intros x Hx [<-|[]]. contradiction.
Qed.

Lemma dict_update_NoDup (other d : Py.dict V) :
  NoDup (Py.keys d) -> NoDup (Py.keys (Py.dict_update d other)).
Proof.
  unfold Py.dict_update. revert d.
  induction other as [|[k v] other IH]; intros d ND; cbn; [exact ND|].
  apply IH. now apply dict_set_NoDup.
Qed.

Lemma dict_update_fresh (other acc : Py.dict V) :
  NoDup (Py.keys acc ++ Py.keys other) ->
  Py.dict_update acc other = (acc ++ other)%list.
Proof.
  unfold Py.dict_update. revert acc.
  induction other as [|[k v] other IH]; intros acc ND; cbn.
  - now rewrite app_nil_r.
  - cbn in ND. rewrite dict_set_fresh.
    + rewrite IH; [now rewrite <- app_assoc|].
      unfold Py.keys in *. rewrite map_app, <- app_assoc. exact ND.
    + apply NoDup_remove_2 in ND. intros Hin. apply ND.
      apply in_or_app. now left.
Qed.

End Settings.

Lemma axis_settings_NoDup (o : options) (kw : option (Py.dict setting)) :
  NoDup (Py.keys (axis_settings o kw)).
Proof.
  unfold axis_settings. apply dict_update_NoDup.
  cbn. repeat constructor; cbn; intuition discriminate.
Qed.

(** An axis without settings gets exactly the settings it is updated
    with. *)
Lemma axis_update_fresh (a : axis) (o : options)
  (kw : option (Py.dict setting)) :
  ax_props a = [] ->
  ax_props (axis_update a (axis_settings o kw)) = axis_settings o kw.
Proof.
  intros E. unfold axis_update. cbn [ax_props]. rewrite E.
  apply (dict_update_fresh (axis_settings o kw) []).
  apply axis_settings_NoDup.
Qed.

(** The update of the axis bounds touches the ranges only. *)
Lemma styled_update (o : options) (c : option vec3) (e : option Q)
  (layout : scene) :
  styled o layout -> styled o (_update_axes_bounds_float c e layout).
Proof.
  destruct c as [[[x y] z]|], e as [e|]; intros H; exact H.
Qed.

Lemma unstyled_update (c : option vec3) (e : option Q) (layout : scene) :
  unstyled layout -> unstyled (_update_axes_bounds_float c e layout).
Proof.
  destruct c as [[[x y] z]|], e as [e|]; intros H; exact H.
Qed.

(** X11. In the figure [plot_scene] returns, every subplot of the scene
    dictionary, with or without traces, has the aspect mode "cube", the
    camera up vector (0, 1, 0), and on each axis exactly the settings of
    [axis_args] overridden by the keyword argument of that axis. *)
Theorem plot_scene_styles_every_subplot
  (plots : scene_dict) (ncols : Z) (o : options) (s s' : state)
  (fig : figure) :
  plot_scene plots ncols o s = (s', Ok fig) ->
  forall j, (j < length plots)%nat ->
    let layout := layout_of fig (Z.of_nat j) in
    aspectmode layout = Some "cube"
    /\ camera_up layout = Some (0, 1, 0)
    /\ ax_props (xaxis layout)
       = Py.dict_update
           (AxisArgs_asdict (kwargs_get (kw_axis_args o) AxisArgs_default))
           (kwargs_get (kw_xaxis o) [])
    /\ ax_props (yaxis layout)
       = Py.dict_update
           (AxisArgs_asdict (kwargs_get (kw_axis_args o) AxisArgs_default))
           (kwargs_get (kw_yaxis o) [])
    /\ ax_props (zaxis layout)
       = Py.dict_update
           (AxisArgs_asdict (kwargs_get (kw_axis_args o) AxisArgs_default))
           (kwargs_get (kw_zaxis o) []).
Proof.
  intros Hrun.
  pose (I := fun (k : nat) (f : figure) =>
    (forall j, (j < k)%nat -> styled o (layout_of f (Z.of_nat j)))
    /\ (forall j, (k <= j)%nat -> unstyled (layout_of f (Z.of_nat j)))).
  destruct (plot_scene_triple I plots ncols o s s' fig) as (_ & HI);
    [ | | | exact Hrun | ].
  - intros k item Hk s0 s1 f Hf (HS & HU) Hstep.
    destruct (add_struct_trace_ok _ _ _ _ _ _ _ _ Hf Hstep)
      as (f' & t & c & e & Hf' & _ & _ & _ & _ & _ & HL & HF).
    exists f'. split; [exact Hf'|]. split; intros j Hj.
    + rewrite HF by lia. now apply HS.
    + destruct (Nat.eq_dec j k) as [->|Hjk].
      * rewrite HL. apply unstyled_update. now apply HU.
      * rewrite HF by lia. now apply HU.
  - intros k Hk s0 s1 f Hf (HS & HU) Hstep.
    destruct (style_subplot_ok _ _ _ _ _ _ _ Hf Hstep)
      as (f' & Hf' & _ & _ & HL & HF).
    exists f'. split; [exact Hf'|]. split; intros j Hj.
    + destruct (Nat.eq_dec j k) as [->|Hjk].
      * rewrite HL. destruct (HU k (Nat.le_refl k)) as (Ux & Uy & Uz).
        unfold styled. cbn [aspectmode camera_up xaxis yaxis zaxis].
        rewrite !axis_update_fresh by assumption. repeat split.
      * rewrite HF by lia. apply HS. lia.
    + rewrite HF by lia. apply HU. lia.
  - intros specs widths. split; intros j Hj; [lia | repeat split].
  - intros j Hj. exact (proj1 HI j Hj).
Qed.

Lemma plot_scene_styles_every_subplot_witness :
  exists fig,
    forall j, (j < length two_subplots)%nat ->
      let layout := layout_of fig (Z.of_nat j) in
      aspectmode layout = Some "cube"
      /\ camera_up layout = Some (0, 1, 0)
      /\ ax_props (xaxis layout)
         = Py.dict_update (AxisArgs_asdict AxisArgs_default)
             [("showgrid", SBool true)]
      /\ ax_props (yaxis layout)
         = Py.dict_update (AxisArgs_asdict AxisArgs_default) []
      /\ ax_props (zaxis layout)
         = Py.dict_update (AxisArgs_asdict AxisArgs_default) [].
Proof.
  assert (E : exists s' fig,
    plot_scene two_subplots 1
      (mkOptions 20000 1 None None (Some [("showgrid", SBool true)]) None None)
      init_state
    = (s', Ok fig))
    by (do 2 eexists; vm_compute; reflexivity).
  destruct E as (s' & fig & E). exists fig.
  apply (plot_scene_styles_every_subplot two_subplots 1
           (mkOptions 20000 1 None None (Some [("showgrid", SBool true)])
              None None)
           init_state s' fig E).
Defined.

(** ** A grid with a cell for every scene *)

Lemma length_concat_repeat {A} (l : list A) (n : nat) :
  length (concat (repeat l n)) = (n * length l)%nat.
Proof.
  induction n as [|n IH]; cbn; [reflexivity|].
  now rewrite length_app, IH.
Qed.

(** X12. When the column count is positive and divides the scene count,
    which is itself positive, [_gen_fig_with_subplots] emits no warning
    and builds a grid with exactly one 3D-scene cell per scene:
    [scene_count // ncols] rows, at least one, of [ncols] columns, all
    columns of width 1. *)
Theorem gen_fig_with_subplots_exact_grid
  (scene_count ncols : Z) (titles : list string) (s : state) :
  0 < ncols ->
  0 < scene_count ->
  scene_count mod ncols = 0 ->
  exists f,
    _gen_fig_with_subplots scene_count ncols titles s
    = (mkState (st_warnings s) (st_rng s) (Some f), Ok tt)
    /\ 1 <= fig_rows f
    /\ fig_rows f * fig_cols f = scene_count
    /\ fig_specs f
       = repeat (repeat "scene" (Z.to_nat ncols))
                (Z.to_nat (scene_count / ncols))
    /\ length (concat (fig_specs f)) = Z.to_nat scene_count
    /\ fig_column_widths f = repeat 1%Q (Z.to_nat ncols)
    /\ fig_titles f = titles
    /\ fig_data f = [].
Proof.
  intros Hpos Hn Hmod. unfold _gen_fig_with_subplots, py_mod, py_floordiv.
  destruct (Z.eqb_spec ncols 0) as [E|_]; [lia|].
  unfold bind at 1. unfold ret at 1. rewrite Hmod. cbn [Z.eqb negb].
  unfold bind, ret, lift, make_subplots, set_fig.
  cbn [st_warnings st_rng st_fig].
  assert (Hq : scene_count = ncols * (scene_count / ncols)).
  { pose proof (Z.div_mod scene_count ncols). lia. }
  assert (Hq0 : 1 <= scene_count / ncols).
  { assert (0 < scene_count / ncols); [| lia].
    apply Z.div_str_pos. split; [lia|].
    destruct (Z.le_gt_cases ncols scene_count) as [|Hlt]; [assumption|].
    rewrite (Z.div_small scene_count ncols) in Hq by lia. lia. }
  destruct (Z.leb_spec (scene_count / ncols) 0) as [?|_]; [lia|].
  destruct (Z.leb_spec ncols 0) as [?|_]; [lia|].
  eexists. split; [reflexivity|].
  cbn [fig_rows fig_cols fig_specs fig_titles fig_data fig_column_widths].
  rewrite !list_mul_singleton.
  split; [lia|]. split; [lia|]. split; [reflexivity|].
  split; [| repeat split].
  rewrite length_concat_repeat, repeat_length.
  rewrite <- Z2Nat.inj_mul by lia. f_equal. lia.
Qed.

Lemma gen_fig_with_subplots_exact_grid_witness :
  exists f,
    _gen_fig_with_subplots 6 3 ["a"; "b"; "c"; "d"; "e"; "f"] init_state
    = (mkState [] [] (Some f), Ok tt)
    /\ 1 <= fig_rows f
    /\ fig_rows f * fig_cols f = 6
    /\ fig_specs f = repeat (repeat "scene" (Z.to_nat 3)) (Z.to_nat (6 / 3))
    /\ length (concat (fig_specs f)) = Z.to_nat 6
    /\ fig_column_widths f = repeat 1%Q (Z.to_nat 3)
    /\ fig_titles f = ["a"; "b"; "c"; "d"; "e"; "f"]
    /\ fig_data f = [].
Proof.
  apply (gen_fig_with_subplots_exact_grid 6 3 ["a"; "b"; "c"; "d"; "e"; "f"]
           init_state); [lia | lia | reflexivity].
Defined.

(** ** Subsampling of point clouds *)

Lemma gather_spec {A} (d : A) (l : list A) (idxs : list nat) (r : list A) :
  gather l idxs = Ok r ->
  Forall (fun i => (i < length l)%nat) idxs
  /\ r = map (fun i => nth i l d) idxs.
Proof.
  revert r. induction idxs as [|i idxs IH]; intros r; cbn [gather].
  - intros [= <-]. split; [constructor | reflexivity].
  - destruct (nth_error l i) as [a|] eqn:Ei; [| discriminate].
    destruct (gather l idxs) as [r'|e]; [| discriminate].
    intros [= <-]. destruct (IH r' eq_refl) as (HF & ->). split.
    + constructor; [| exact HF]. apply nth_error_Some. congruence.
    + cbn [map]. f_equal. symmetry. now apply nth_error_nth.
Qed.

Lemma mapR_length {A B} (f : A -> result B) (l : list A) (r : list B) :
  mapR f l = Ok r -> length r = length l.
Proof.
  revert r. induction l as [|a l IH]; intros r; cbn [mapR].
  - now intros [= <-].
  - destruct (f a) as [b|e]; [| discriminate].
    destruct (mapR f l) as [r'|e]; [| discriminate].
    intros [= <-]. cbn [length]. f_equal. now apply IH.
Qed.

Lemma colors_rgb_count (inner : list nat) (rows : list tensor)
  (cs : list string) :
  colors_rgb (Stack inner rows) = Ok cs -> length cs = length rows.
Proof.
  unfold colors_rgb, to_rgb255. cbn [tmap iter bindR]. intros H.
  apply mapR_length in H. now rewrite length_map in H.
Qed.

Lemma colors_rgba_count (inner : list nat) (rows : list tensor)
  (cs : list string) :
  colors_rgba (Stack inner rows) = Ok cs -> length cs = length rows.
Proof.
  unfold colors_rgba, slice_dim1, select_dim1.
  destruct inner as [|d rest]; [discriminate|]. cbn [bindR].
  destruct (3 <? d)%nat; [| discriminate].
  unfold to_rgb255. cbn [tmap iter bindR]. intros H.
  apply mapR_length in H.
  now rewrite length_combine, !length_map, Nat.min_id in H.
Qed.

(** With indices drawn, the block computing [color] gives one color per
    index or no color at all. *)
Lemma pointcloud_color_count (features : option tensor) (idxs : list nat)
  (cs : list string) :
  pointcloud_color features (Some idxs) = Ok (Some cs) ->
  length cs = length idxs.
Proof.
  unfold pointcloud_color. destruct features as [[x|inner rows]|];
    [discriminate | | discriminate].
  unfold tensor_index.
  destruct (gather rows idxs) as [picked|e] eqn:EG; [| discriminate].
  destruct (gather_spec (Scalar 0) rows idxs picked EG) as (_ & Hp).
  assert (HL : length picked = length idxs) by (rewrite Hp; apply length_map).
  cbn [bindR]. unfold shape1. cbn [shape].
  destruct inner as [|d rest]; [discriminate|]. cbn [bindR].
  destruct (Nat.eqb_spec d 4) as [->|H4].
  - destruct (colors_rgba (Stack (4%nat :: rest) picked)) as [c|e] eqn:EC;
      [| discriminate].
    cbn. intros [= <-]. rewrite <- HL. now apply colors_rgba_count in EC.
  - cbn [bindR]. destruct (Nat.eqb_spec d 3) as [->|H3]; [| discriminate].
    destruct (colors_rgb (Stack (3%nat :: rest) picked)) as [c|e] eqn:EC;
      [| discriminate].
    cbn. intros [= <-]. rewrite <- HL. now apply colors_rgb_count in EC.
Qed.

(** X13. When the cloud has no more points than
    [max_points_per_pointcloud * len(pointclouds)], a run of
    [_add_pointcloud_trace] that returns has plotted every point of the
    cloud, in order, and has neither consulted the random source nor
    emitted a warning. *)
Theorem pointcloud_trace_without_subsampling
  (pointclouds : Pointclouds) (trace_name : string)
  (subplot_idx ncols max_points marker_size : Z)
  (s s' : state) (f : figure) :
  st_fig s = Some f ->
  Z.of_nat (length (points_packed pointclouds))
  <= max_points * Z.of_nat (len (SPointclouds pointclouds)) ->
  _add_pointcloud_trace pointclouds trace_name subplot_idx ncols max_points
    marker_size s
  = (s', Ok tt) ->
  exists f' color,
    s' = mkState (st_warnings s) (st_rng s) (Some f')
    /\ fig_data f'
       = (fig_data f
          ++ [mkTrace (Scatter3d (map col0 (points_packed pointclouds))
                         (map col1 (points_packed pointclouds))
                         (map col2 (points_packed pointclouds))
                         color marker_size "markers")
                trace_name (subplot_idx / ncols + 1)
                (subplot_idx mod ncols + 1)])%list.
Proof.
  intros Hfig Hfew Hrun.
  destruct (add_pointcloud_trace_ok _ _ _ _ _ _ _ _ _ Hfig Hrun)
    as (indices & verts & color & center & e & s1 & f' & ESub & _ & _ & _
        & _ & -> & HD & _).
  unfold subsample in ESub.
  apply Z.ltb_ge in Hfew. rewrite Hfew in ESub.
  injection ESub as <- <- <-.
  exists f', color. split; [reflexivity | exact HD].
Qed.

Lemma pointcloud_trace_without_subsampling_witness :
  exists f' color,
    fst (_add_pointcloud_trace cloud_three_channels "cloud" 0 1 20000 1
           one_cell_state)
    = mkState (st_warnings one_cell_state) (st_rng one_cell_state) (Some f')
    /\ fig_data f'
       = (fig_data one_cell_figure
          ++ [mkTrace (Scatter3d (map col0 (points_packed cloud_three_channels))
                         (map col1 (points_packed cloud_three_channels))
                         (map col2 (points_packed cloud_three_channels))
                         color 1 "markers")
                "cloud" (0 / 1 + 1) (0 mod 1 + 1)])%list.
Proof.
  apply (pointcloud_trace_without_subsampling cloud_three_channels "cloud"
           0 1 20000 1 one_cell_state _ one_cell_figure).
  - reflexivity.
  - vm_compute. discriminate.
  - vm_compute. reflexivity.
Defined.

(** X14. When the cloud has more points than
    [max_points_per_pointcloud * len(pointclouds)] and the random source
    answers the call of [np.random.choice] with the indices [draw], a run
    of [_add_pointcloud_trace] that returns has consumed that answer and
    plotted exactly the points at the indices [draw], in the order drawn,
    each of them a point of the cloud; and if the trace has colors, it
    has exactly one color per plotted point. *)
Theorem pointcloud_trace_with_subsampling
  (pointclouds : Pointclouds) (trace_name : string)
  (subplot_idx ncols max_points marker_size : Z)
  (s s' : state) (f : figure) (draw : list nat) (tape : list (list nat)) :
  st_fig s = Some f ->
  max_points * Z.of_nat (len (SPointclouds pointclouds))
  < Z.of_nat (length (points_packed pointclouds)) ->
  st_rng s = draw :: tape ->
  _add_pointcloud_trace pointclouds trace_name subplot_idx ncols max_points
    marker_size s
  = (s', Ok tt) ->
  exists f' color,
    let verts :=
      map (fun i => nth i (points_packed pointclouds) (0, 0, 0)%Q) draw in
    st_fig s' = Some f'
    /\ st_rng s' = tape
    /\ Forall (fun i => (i < length (points_packed pointclouds))%nat) draw
    /\ (forall v, In v verts -> In v (points_packed pointclouds))
    /\ fig_data f'
       = (fig_data f
          ++ [mkTrace (Scatter3d (map col0 verts) (map col1 verts)
                         (map col2 verts) color marker_size "markers")
                trace_name (subplot_idx / ncols + 1)
                (subplot_idx mod ncols + 1)])%list
    /\ (forall cs, color = Some cs -> length cs = length verts).
Proof.
  intros Hfig Hmany Hrng Hrun.
  destruct (add_pointcloud_trace_ok _ _ _ _ _ _ _ _ _ Hfig Hrun)
    as (indices & verts & color & center & e & s1 & f' & ESub & EC & _ & _
        & _ & -> & HD & _).
  unfold subsample in ESub.
  apply Z.ltb_lt in Hmany. rewrite Hmany in ESub.
  unfold bind at 1 in ESub. unfold random_choice in ESub.
  destruct (_ <? 0); [discriminate|].
  rewrite Hrng in ESub. unfold bind, lift, ret in ESub.
  destruct (gather (points_packed pointclouds) draw) as [r|err] eqn:EG;
    [| discriminate].
  injection ESub as <- <- <-.
  destruct (gather_spec (0, 0, 0)%Q _ _ _ EG) as (HF & Hv).
  exists f', color. cbv zeta. subst r.
  split; [reflexivity|]. split; [reflexivity|]. split; [exact HF|].
  split; [| split; [exact HD|]].
  - intros v Hin. apply in_map_iff in Hin.
    destruct Hin as (i & <- & Hi). apply nth_In.
    rewrite Forall_forall in HF. now apply HF.
  - intros cs ->. rewrite (pointcloud_color_count _ _ _ EC).
    now rewrite length_map.
Qed.

Lemma pointcloud_trace_with_subsampling_witness :
  exists f' color,
    let verts :=
      map (fun i => nth i (points_packed cloud_three_channels) (0, 0, 0)%Q)
          [4; 1]%nat in
    st_fig (fst (_add_pointcloud_trace cloud_three_channels "cloud" 0 1 2 1
                   (mkState [] [[4; 1]%nat] (Some one_cell_figure))))
    = Some f'
    /\ st_rng (fst (_add_pointcloud_trace cloud_three_channels "cloud" 0 1 2 1
                      (mkState [] [[4; 1]%nat] (Some one_cell_figure))))
       = []
    /\ Forall (fun i => (i < length (points_packed cloud_three_channels))%nat)
              [4; 1]%nat
    /\ (forall v, In v verts -> In v (points_packed cloud_three_channels))
    /\ fig_data f'
       = (fig_data one_cell_figure
          ++ [mkTrace (Scatter3d (map col0 verts) (map col1 verts)
                         (map col2 verts) color 1 "markers")
                "cloud" (0 / 1 + 1) (0 mod 1 + 1)])%list
    /\ (forall cs, color = Some cs -> length cs = length verts).
Proof.
  apply (pointcloud_trace_with_subsampling cloud_three_channels "cloud"
           0 1 2 1 (mkState [] [[4; 1]%nat] (Some one_cell_figure)) _
           one_cell_figure [4; 1]%nat []).
  - reflexivity.
  - vm_compute. reflexivity.
  - reflexivity.
  - vm_compute. reflexivity.
Defined.

(** ** Vertex colors of a mesh trace *)

Lemma Qclamp_bounds (c : Q) : (0 <= Qclamp 0 1 c <= 1)%Q.
Proof.
  unfold Qclamp. split.
  - apply Q.min_glb; [apply Q.le_max_r | discriminate].
  - apply Q.le_min_r.
Qed.

Lemma scaled_color_bounds (c : vec3) (a : axis_name) :
  (0 <= coord a (vmap (fun x => 255 * Qclamp 0 1 x) c) <= 255)%Q.
Proof.
  destruct c as [[x y] z].
  pose proof (Qclamp_bounds x). pose proof (Qclamp_bounds y).
  pose proof (Qclamp_bounds z).
  destruct a; cbn [coord vmap col0 col1 col2 fst snd]; lra.
Qed.

(** X15. The trace a returning run of [_add_mesh_trace] adds carries
    vertex colors exactly when the textures of the mesh are vertex
    textures, and then every component of every color lies between 0 and
    255, the features having been clamped to [0, 1] before scaling. *)
Theorem mesh_trace_vertex_colors
  (meshes : Meshes) (trace_name : string) (subplot_idx ncols : Z)
  (lighting : Lighting) (s s' : state) (f : figure) :
  st_fig s = Some f ->
  _add_mesh_trace meshes trace_name subplot_idx ncols lighting s
  = (s', Ok tt) ->
  exists f' x y z vertexcolor i j k,
    st_fig s' = Some f'
    /\ fig_data f'
       = (fig_data f
          ++ [mkTrace (Mesh3d x y z vertexcolor i j k lighting) trace_name
                (subplot_idx / ncols + 1) (subplot_idx mod ncols + 1)])%list
    /\ (vertexcolor = None <-> forall fs, textures meshes <> TexturesVertex fs)
    /\ (forall cs c a, vertexcolor = Some cs -> In c cs ->
          (0 <= coord a c <= 255)%Q).
Proof.
  intros Hfig. unfold _add_mesh_trace. cbv zeta.
  unfold bind at 1. unfold lift at 1.
  destruct (reposition_unused _ _) as [[plotted center]|e]; [| discriminate].
  unfold py_floordiv, py_mod.
  destruct (Z.eqb_spec ncols 0) as [|Hn]; [discriminate|].
  unfold bind at 1. unfold ret at 1.
  unfold bind at 1. unfold ret at 1.
  unfold bind at 1. unfold add_trace, modify_fig. rewrite Hfig.
  cbn [option_map st_warnings st_rng st_fig].
  unfold bind at 1. unfold get_layout, bind, get_fig, ret, lift.
  cbn [st_warnings st_rng st_fig fig_layout].
  destruct (max_spread_float plotted) as [max_expand|]; [| discriminate].
  unfold set_layout, modify_fig.
  cbn [option_map st_warnings st_rng st_fig fig_rows fig_cols fig_specs
       fig_titles fig_column_widths fig_data fig_layout].
  intros [= <-]. do 8 eexists. split; [reflexivity|].
  cbn [st_fig fig_data]. split; [reflexivity|].
  unfold join_meshes_as_scene. cbn [textures].
  destruct (textures meshes) as [|fs|]; cbv beta iota.
  - split; [split; [intros _ fs'; discriminate | reflexivity]|].
    intros cs c a [=].
  - split; [split; [discriminate | intros H; now contradiction (H fs)]|].
    intros cs c a [= <-] Hin. apply in_map_iff in Hin.
    destruct Hin as (c0 & <- & _). apply scaled_color_bounds.
  - split; [split; [intros _ fs'; discriminate | reflexivity]|].
    intros cs c a [=].
Qed.

Lemma mesh_trace_vertex_colors_witness :
  exists f' x y z vertexcolor i j k,
    st_fig (fst (_add_mesh_trace
                   (mkMeshes [triangle] [[(0, 1, 2)%nat]]
                      (TexturesVertex [[(0, 1 # 2, 2); (-1, 1, 0); (1, 1, 1)]%Q]))
                   "mesh" 0 1 Lighting_default one_cell_state))
    = Some f'
    /\ fig_data f'
       = (fig_data one_cell_figure
          ++ [mkTrace (Mesh3d x y z vertexcolor i j k Lighting_default) "mesh"
                (0 / 1 + 1) (0 mod 1 + 1)])%list
    /\ (vertexcolor = None
        <-> forall fs,
              textures (mkMeshes [triangle] [[(0, 1, 2)%nat]]
                          (TexturesVertex
                             [[(0, 1 # 2, 2); (-1, 1, 0); (1, 1, 1)]%Q]))
              <> TexturesVertex fs)
    /\ (forall cs c a, vertexcolor = Some cs -> In c cs ->
          (0 <= coord a c <= 255)%Q).
Proof.
  apply (mesh_trace_vertex_colors
           (mkMeshes [triangle] [[(0, 1, 2)%nat]]
              (TexturesVertex [[(0, 1 # 2, 2); (-1, 1, 0); (1, 1, 1)]%Q]))
           "mesh" 0 1 Lighting_default one_cell_state _ one_cell_figure).
  - reflexivity.
  - vm_compute. reflexivity.
Defined.

(** ** Faces that name a missing vertex *)

Lemma set_true_none (mask : list bool) (i : nat) :
  (length mask <= i)%nat -> set_true mask i = None.
Proof.
  revert i. induction mask as [|b mask IH]; intros i Hi; [reflexivity|].
  destruct i as [|i]; cbn in Hi; [lia|]. cbn [set_true].
  rewrite IH by lia. reflexivity.
Qed.

Lemma set_true_length (mask mask' : list bool) (i : nat) :
  set_true mask i = Some mask' -> length mask' = length mask.
Proof.
  revert i mask'. induction mask as [|b mask IH]; intros i mask';
    [discriminate|].
  destruct i as [|i]; cbn [set_true].
  - now intros [= <-].
  - destruct (set_true mask i) as [m|] eqn:E; [| discriminate].
    intros [= <-]. cbn [length]. f_equal. now apply (IH i).
Qed.

Lemma index_put_true_out (idxs : list nat) (mask : list bool) (i : nat) :
  In i idxs -> (length mask <= i)%nat ->
  exists what, index_put_true mask idxs = Raise (IndexError what).
Proof.
  revert mask. induction idxs as [|i0 idxs IH]; intros mask Hin Hle;
    [destruct Hin|].
  cbn [index_put_true].
  destruct (set_true mask i0) as [mask'|] eqn:E; [| eexists; reflexivity].
  destruct Hin as [->|Hin].
  - rewrite set_true_none in E by exact Hle. discriminate.
  - apply IH; [exact Hin|]. now rewrite (set_true_length _ _ _ E).
Qed.

(** X16. A mesh one of whose packed faces names a vertex index that is
    not smaller than the number of packed vertices cannot be plotted:
    [_add_mesh_trace] raises [IndexError] when it marks the used vertices,
    before it touches the figure. *)
Theorem mesh_trace_face_index_out_of_range
  (meshes : Meshes) (trace_name : string) (subplot_idx ncols : Z)
  (lighting : Lighting) (s : state) (i : nat) :
  In i (flatten_faces (faces_packed (join_meshes_as_scene meshes))) ->
  (length (verts_packed (join_meshes_as_scene meshes)) <= i)%nat ->
  exists what,
    _add_mesh_trace meshes trace_name subplot_idx ncols lighting s
    = (s, Raise (IndexError what)).
Proof.
  intros Hin Hle.
  destruct (index_put_true_out
              (unique (flatten_faces
                         (faces_packed (join_meshes_as_scene meshes))))
              (repeat false
                 (length (verts_packed (join_meshes_as_scene meshes)))) i)
    as (what & E).
  - now apply unique_In.
  - now rewrite repeat_length.
  - exists what. unfold _add_mesh_trace. cbv zeta. unfold bind at 1.
    unfold lift, reposition_unused. rewrite E. reflexivity.
Qed.

Lemma mesh_trace_face_index_out_of_range_witness :
  exists what,
    _add_mesh_trace (mkMeshes [triangle] [[(0, 1, 5)%nat]] NoTextures) "mesh"
      0 1 Lighting_default one_cell_state
    = (one_cell_state, Raise (IndexError what)).
Proof.
  apply (mesh_trace_face_index_out_of_range
           (mkMeshes [triangle] [[(0, 1, 5)%nat]] NoTextures) "mesh" 0 1
           Lighting_default one_cell_state 5%nat).
  - cbn. tauto.
  - cbn. lia.
Defined.

(** ** The scene dictionary for given subplot titles *)

Lemma dict_set_twice {V} (d : Py.dict V) (k : string) (v v' : V) :
  Py.dict_set (Py.dict_set d k v) k v' = Py.dict_set d k v'.
Proof.
  induction d as [|[k0 v0] d IH]; cbn.
  - now rewrite String.eqb_refl.
  - destruct (String.eqb_spec k0 k) as [->|H]; cbn.
    + now rewrite String.eqb_refl.
    + destruct (String.eqb_spec k0 k); [congruence|]. now rewrite IH.
Qed.

Lemma dict_set_keys {V} (d : Py.dict V) (k k' : string) (v : V) :
  In k' (Py.keys (Py.dict_set d k v)) <-> k' = k \/ In k' (Py.keys d).
Proof.
  destruct (in_dec string_dec k (Py.keys d)) as [Hin|Hout].
  - rewrite dict_set_present by exact Hin. intuition congruence.
  - rewrite dict_set_fresh by exact Hout. unfold Py.keys.
    rewrite map_app, in_app_iff. cbn. intuition.
Qed.

Section GivenTitles.

Variables (b : batched) (extend_struct : bool).

Hypothesis sizes :
  match b with
  | Batch l => Forall (fun s => (1 <= len s)%nat) l
  | Single s => (1 <= len s)%nat
  end.

(** Adding one structure to the subplot [title]. *)
Lemma add_struct_from_batch_set (sd : scene_dict) (title : string)
  (acc : Py.dict pyobj) (n : nat) (ib : nat * structure) :
  (1 <= len (snd ib))%nat ->
  ~ In (fst (expected_trace n ib)) (Py.keys acc) ->
  _add_struct_from_batch (snd ib) (Z.of_nat n) title
    (Py.dict_set sd title acc) (Z.of_nat (fst ib) + 1)
  = Ok (Py.dict_set sd title (acc ++ [expected_trace n ib])%list).
Proof.
  intros Hlen Hn. unfold _add_struct_from_batch. cbv zeta.
  rewrite (getitem_clamped _ _ Hlen). cbn [bindR].
  rewrite dict_get_set_same, dict_set_twice.
  unfold expected_trace in *. cbn [fst] in Hn.
  now rewrite (dict_set_fresh acc _ _ Hn).
Qed.

(** The inner loop over the list positions, for a subplot anywhere in the
    dictionary. *)
Lemma positions_loop_set (sd : scene_dict) (title : string) (n : nat)
  (l : list structure) :
  Forall (fun s => (1 <= len s)%nat) l ->
  forall start acc,
    (forall name, In name (Py.keys acc) ->
       exists j, (j < start)%nat
                 /\ name = trace_name_of (Z.of_nat n) (Z.of_nat j + 1)) ->
    foldR (fun sd (ib : nat * structure) =>
             let '(i, batched_struct) := ib in
             if (len batched_struct <=? i)%nat && negb extend_struct
             then Ok sd
             else _add_struct_from_batch batched_struct (Z.of_nat n)
                    title sd (Z.of_nat i + 1))
          (combine (seq start (length l)) l) (Py.dict_set sd title acc)
    = Ok (Py.dict_set sd title
            (acc ++ expected_traces extend_struct n
                      (combine (seq start (length l)) l))%list).
Proof.
  intros Hl. induction Hl as [|s l Hs Hl IH]; intros start acc Hacc.
  - cbn. now rewrite app_nil_r.
  - cbn [length seq combine foldR]. unfold expected_traces.
    cbn [filter]. unfold skipped at 1. cbn [fst snd].
    destruct ((len s <=? start)%nat && negb extend_struct) eqn:Eskip;
      cbn [negb bindR map].
    + apply IH. intros name Hin. destruct (Hacc name Hin) as (j & Hj & E).
      exists j. split; [lia | exact E].
    + assert (Hfresh : ~ In (fst (expected_trace n (start, s))) (Py.keys acc)).
      { intros Hin. destruct (Hacc _ Hin) as (j & Hj & E).
        cbn [expected_trace fst] in E. apply trace_name_inj in E. lia. }
      pose proof (add_struct_from_batch_set sd title acc n (start, s)
                    Hs Hfresh) as HA.
      cbn [fst snd] in HA. rewrite HA. cbn [bindR].
      rewrite (IH (S start)).
      * unfold expected_traces. now rewrite <- app_assoc.
      * intros name Hin. unfold Py.keys in Hin.
        rewrite map_app in Hin. apply in_app_or in Hin.
        destruct Hin as [Hin|[<-|[]]].
        -- destruct (Hacc name Hin) as (j & Hj & E).
           exists j. split; [lia | exact E].
        -- exists start. split; [lia | reflexivity].
Qed.

(** One iteration of the outer loop amounts to one assignment. *)
Lemma add_scene_set (titles : option (list string)) (sd : scene_dict)
  (n : nat) (t : string) :
  subplot_title_of titles n = Ok t ->
  add_scene b extend_struct titles sd n
  = Ok (Py.dict_set sd t (scene_traces b extend_struct n)).
Proof.
  intros Ht. unfold add_scene. rewrite Ht. cbn [bindR]. cbv zeta.
  unfold scene_traces. destruct b as [s|l].
  - apply (add_struct_from_batch_set sd t [] n (0%nat, s) sizes).
    intros [].
  - unfold enumerate.
    rewrite (positions_loop_set sd t n l sizes 0 []); [reflexivity|].
    intros name [].
Qed.

Lemma scenes_loop (titles : list string) (l : list string) :
  forall start sd,
    (forall i t, nth_error l i = Some t ->
                 subplot_title_of (Some titles) (start + i) = Ok t) ->
    foldR (add_scene b extend_struct (Some titles)) (seq start (length l)) sd
    = Ok (assign_scenes b extend_struct (combine (seq start (length l)) l) sd).
Proof.
  induction l as [|t l IH]; intros start sd H; [reflexivity|].
  cbn [length seq foldR combine]. unfold assign_scenes. cbn [fold_left fst snd].
  pose proof (H 0%nat t eq_refl) as H0. rewrite Nat.add_0_r in H0.
  rewrite (add_scene_set (Some titles) sd start t H0). cbn [bindR].
  apply IH. intros i t' Hi. rewrite Nat.add_succ_l, <- Nat.add_succ_r.
  apply (H (S i) t' Hi).
Qed.

(** The scene dictionary built for given titles: one assignment per
    scene, in order. *)
Lemma build_given_titles (titles : list string) :
  titles <> [] ->
  build_scene_dictionary b (length titles) extend_struct (Some titles)
  = Ok (assign_scenes b extend_struct (enumerate titles) []).
Proof.
  intros Hne. unfold build_scene_dictionary, enumerate.
  apply scenes_loop. intros i t Hi. unfold subplot_title_of.
  destruct titles as [|t0 titles']; [congruence|].
  cbn [truthy kwargs_get Nat.add]. now rewrite Hi.
Qed.

Lemma assign_scenes_fresh (titled : list (nat * string)) :
  forall sd,
    NoDup (Py.keys sd ++ map snd titled) ->
    assign_scenes b extend_struct titled sd
    = (sd ++ map (fun nt : nat * string =>
                    (snd nt, scene_traces b extend_struct (fst nt)))
                 titled)%list.
Proof.
  unfold assign_scenes.
  induction titled as [|[n t] titled IH]; intros sd ND; cbn [fold_left map].
  - now rewrite app_nil_r.
  - cbn [map snd fst] in *. rewrite dict_set_fresh.
    + rewrite IH; [now rewrite <- app_assoc|].
      unfold Py.keys in *. rewrite map_app, <- app_assoc. exact ND.
    + apply NoDup_remove_2 in ND. intros Hin. apply ND.
      apply in_or_app. now left.
Qed.

Lemma assign_scenes_keys (titled : list (nat * string)) :
  forall sd k,
    In k (Py.keys (assign_scenes b extend_struct titled sd))
    <-> In k (Py.keys sd) \/ In k (map snd titled).
Proof.
  unfold assign_scenes.
  induction titled as [|[n t] titled IH]; intros sd k; cbn [fold_left map].
  - cbn. tauto.
  - rewrite IH, dict_set_keys. cbn. intuition.
Qed.

Lemma assign_scenes_NoDup (titled : list (nat * string)) :
  forall sd, NoDup (Py.keys sd) ->
             NoDup (Py.keys (assign_scenes b extend_struct titled sd)).
Proof.
  unfold assign_scenes.
  induction titled as [|[n t] titled IH]; intros sd ND; cbn [fold_left];
    [exact ND|].
  apply IH. now apply dict_set_NoDup.
Qed.

Lemma assign_scenes_other (titled : list (nat * string)) (t : string) :
  ~ In t (map snd titled) ->
  forall sd,
    Py.dict_get (assign_scenes b extend_struct titled sd) t = Py.dict_get sd t.
Proof.
  unfold assign_scenes.
  induction titled as [|[n t0] titled IH]; intros Hout sd; cbn [fold_left];
    [reflexivity|].
  cbn [map snd fst In] in *.
  rewrite IH by (intros Hin; apply Hout; now right).
  apply dict_get_set_other. intros ->. apply Hout. now left.
Qed.

(** The last assignment to a title decides what the title holds. *)
Lemma assign_scenes_last (pre post : list (nat * string)) (n : nat)
  (t : string) (sd : scene_dict) :
  ~ In t (map snd post) ->
  Py.dict_get (assign_scenes b extend_struct (pre ++ (n, t) :: post) sd) t
  = Some (scene_traces b extend_struct n).
Proof.
  intros Hout. unfold assign_scenes. rewrite fold_left_app. cbn [fold_left].
  fold (assign_scenes b extend_struct pre sd).
  match goal with
  | |- Py.dict_get (fold_left ?f post ?d) t = _ =>
      change (fold_left f post d) with (assign_scenes b extend_struct post d)
  end.
  rewrite (assign_scenes_other post t Hout). cbn [fst snd].
  apply dict_get_set_same.
Qed.

End GivenTitles.

Lemma combine_app_same {A B} (l1 l1' : list A) (l2 l2' : list B) :
  length l1 = length l2 ->
  combine (l1 ++ l1') (l2 ++ l2') = (combine l1 l2 ++ combine l1' l2')%list.
Proof.
  revert l2. induction l1 as [|a l1 IH]; intros [|c l2] H; cbn in *;
    try discriminate; [reflexivity|].
  f_equal. apply IH. lia.
Qed.

Lemma enumerate_app {A} (pre post : list A) (x : A) :
  enumerate (pre ++ x :: post)
  = (enumerate pre
     ++ (length pre, x) :: combine (seq (S (length pre)) (length post)) post)%list.
Proof.
  unfold enumerate. rewrite length_app. cbn [length].
  rewrite seq_app. cbn [seq Nat.add].
  rewrite combine_app_same by apply length_seq. reflexivity.
Qed.

Lemma map_snd_combine_seq {A} (l : list A) (start : nat) :
  map snd (combine (seq start (length l)) l) = l.
Proof.
  revert start. induction l as [|a l IH]; intros start; cbn; [reflexivity|].
  now rewrite IH.
Qed.

Lemma truthy_nonempty {A} (l : list A) : l <> [] -> truthy (Some l) = true.
Proof. destruct l; [congruence | reflexivity]. Qed.

(** With titles of the right number, [plot_batch_individually] plots the
    dictionary of the assignments. *)
Lemma plot_batch_individually_assigns (b : batched) (ncols : Z)
  (extend_struct : bool) (titles : list string) (o : options) (s : state) :
  valid_batch b ->
  titles <> [] ->
  length titles = max_size_of b ->
  plot_batch_individually b ncols extend_struct (Some titles) o s
  = (fig <- plot_scene (assign_scenes b extend_struct (enumerate titles) [])
              ncols o ;;
     ret (Some fig)) s.
Proof.
  intros Hv Hne Hlen.
  rewrite (plot_batch_individually_checked b ncols extend_struct
             (Some titles) o s Hv).
  unfold plot_checked. rewrite (truthy_nonempty titles Hne).
  cbn [kwargs_get]. rewrite <- Hlen, Nat.eqb_refl. cbn [negb].
  unfold bind at 1. unfold ret at 1.
  unfold bind at 1. unfold lift.
  rewrite (build_given_titles b extend_struct (valid_batch_nonempty b Hv)
             titles Hne).
  reflexivity.
Qed.

(** X17. The equivalence stated in the docstring of
    [plot_batch_individually]: with distinct subplot titles, one per batch
    element, the call is the call of [plot_scene] on the dictionary that
    maps the n-th title to the traces of batch element n, in order, with
    the same [ncols] and keyword arguments. *)
Theorem plot_batch_individually_with_titles
  (b : batched) (ncols : Z) (extend_struct : bool) (titles : list string)
  (o : options) (s : state) :
  valid_batch b ->
  titles <> [] ->
  length titles = max_size_of b ->
  NoDup titles ->
  plot_batch_individually b ncols extend_struct (Some titles) o s
  = (fig <- plot_scene
              (map (fun nt : nat * string =>
                      (snd nt, scene_traces b extend_struct (fst nt)))
                   (enumerate titles))
              ncols o ;;
     ret (Some fig)) s.
Proof.
  intros Hv Hne Hlen ND.
  rewrite (plot_batch_individually_assigns b ncols extend_struct titles o s
             Hv Hne Hlen).
  rewrite (assign_scenes_fresh b extend_struct (enumerate titles) []);
    [reflexivity|].
  cbn [Py.keys map app]. unfold enumerate.
  now rewrite map_snd_combine_seq.
Qed.

Lemma plot_batch_individually_with_titles_witness :
  plot_batch_individually (Batch [two_meshes; two_clouds]) 1 true
    (Some ["plot1"; "plot2"]) default_options init_state
  = (fig <- plot_scene
              (map (fun nt : nat * string =>
                      (snd nt,
                       scene_traces (Batch [two_meshes; two_clouds]) true
                         (fst nt)))
                   (enumerate ["plot1"; "plot2"]))
              1 default_options ;;
     ret (Some fig)) init_state.
Proof.
  apply (plot_batch_individually_with_titles (Batch [two_meshes; two_clouds])
           1 true ["plot1"; "plot2"] default_options init_state).
  - split; [discriminate|]. split; [discriminate|].
    repeat (constructor; [right; reflexivity|]). constructor.
  - discriminate.
  - reflexivity.
  - repeat constructor; cbn; intuition discriminate.
Defined.

(** X18. A subplot title that is given more than once names one subplot
    only: [plot_batch_individually] plots a dictionary with one entry per
    distinct title, and the entry of a title holds the traces of the last
    batch element that carries it, so the earlier batch elements with
    that title are not plotted. *)
Theorem plot_batch_individually_repeated_titles
  (b : batched) (ncols : Z) (extend_struct : bool) (titles : list string)
  (o : options) (s : state) :
  valid_batch b ->
  titles <> [] ->
  length titles = max_size_of b ->
  exists scene_dictionary,
    plot_batch_individually b ncols extend_struct (Some titles) o s
    = (fig <- plot_scene scene_dictionary ncols o ;; ret (Some fig)) s
    /\ NoDup (Py.keys scene_dictionary)
    /\ (forall t, In t (Py.keys scene_dictionary) <-> In t titles)
    /\ (forall pre t post,
          titles = (pre ++ t :: post)%list -> ~ In t post ->
          Py.dict_get scene_dictionary t
          = Some (scene_traces b extend_struct (length pre))).
Proof.
  intros Hv Hne Hlen.
  exists (assign_scenes b extend_struct (enumerate titles) []).
  split; [now apply plot_batch_individually_assigns|].
  split; [apply assign_scenes_NoDup; constructor|]. split.
  - intros t. rewrite assign_scenes_keys. unfold enumerate.
    rewrite map_snd_combine_seq. cbn. tauto.
  - intros pre t post -> Hout. rewrite enumerate_app.
    apply assign_scenes_last. now rewrite map_snd_combine_seq.
Qed.

Lemma plot_batch_individually_repeated_titles_witness :
  exists scene_dictionary,
    plot_batch_individually (Single two_meshes) 1 true (Some ["a"; "a"])
      default_options init_state
    = (fig <- plot_scene scene_dictionary 1 default_options ;;
       ret (Some fig)) init_state
    /\ NoDup (Py.keys scene_dictionary)
    /\ (forall t, In t (Py.keys scene_dictionary) <-> In t ["a"; "a"])
    /\ (forall pre t post,
          ["a"; "a"] = (pre ++ t :: post)%list -> ~ In t post ->
          Py.dict_get scene_dictionary t
          = Some (scene_traces (Single two_meshes) true (length pre))).
Proof.
  apply (plot_batch_individually_repeated_titles (Single two_meshes) 1 true
           ["a"; "a"] default_options init_state).
  - repeat split; discriminate.
  - discriminate.
  - reflexivity.
Defined.

(** ** The keyword arguments reach every trace *)

(** X19. In the figure [plot_scene] returns, every mesh trace carries the
    [lighting] keyword argument (the default [Lighting()] if none is
    given), and every point cloud trace is drawn with markers of the size
    [pointcloud_marker_size]. *)
Theorem plot_scene_traces_follow_keywords
  (plots : scene_dict) (ncols : Z) (o : options) (s s' : state)
  (fig : figure) :
  plot_scene plots ncols o s = (s', Ok fig) ->
  forall t, In t (fig_data fig) ->
    match tr_data t with
    | Mesh3d _ _ _ _ _ _ _ lighting =>
        lighting = kwargs_get (kw_lighting o) Lighting_default
    | Scatter3d _ _ _ _ size mode =>
        size = pointcloud_marker_size o /\ mode = "markers"
    end.
Proof.
  intros Hrun.
  pose (I := fun (_ : nat) (f : figure) =>
    forall t, In t (fig_data f) ->
      match tr_data t with
      | Mesh3d _ _ _ _ _ _ _ lighting =>
          lighting = kwargs_get (kw_lighting o) Lighting_default
      | Scatter3d _ _ _ _ size mode =>
          size = pointcloud_marker_size o /\ mode = "markers"
      end).
  destruct (plot_scene_triple I plots ncols o s s' fig) as (_ & HI);
    [ | | | exact Hrun | exact HI].
  - intros k [name [[m|p]|z|r]] Hk s0 s1 f Hf HIf Hstep;
      cbn [add_struct_trace] in Hstep; try discriminate.
    + destruct (add_mesh_trace_ok _ _ _ _ _ _ _ _ Hf Hstep)
        as (plotted & center & e & vc & f' & _ & _ & _ & -> & HD & _).
      exists f'. split; [reflexivity|]. intros t Ht. rewrite HD in Ht.
      apply in_app_or in Ht. destruct Ht as [Ht|[<-|[]]];
        [now apply HIf | reflexivity].
    + destruct (add_pointcloud_trace_ok _ _ _ _ _ _ _ _ _ Hf Hstep)
        as (indices & verts & color & center & e & s2 & f' & _ & _ & _ & _
            & _ & -> & HD & _).
      exists f'. split; [reflexivity|]. intros t Ht. rewrite HD in Ht.
      apply in_app_or in Ht. destruct Ht as [Ht|[<-|[]]];
        [now apply HIf | split; reflexivity].
  - intros k Hk s0 s1 f Hf HIf Hstep.
    destruct (style_subplot_ok _ _ _ _ _ _ _ Hf Hstep)
      as (f' & Hf' & _ & HD & _).
    exists f'. split; [exact Hf'|]. intros t Ht. rewrite HD in Ht.
    now apply HIf.
  - intros specs widths t [].
Qed.

Lemma plot_scene_traces_follow_keywords_witness :
  exists fig,
    forall t, In t (fig_data fig) ->
      match tr_data t with
      | Mesh3d _ _ _ _ _ _ _ lighting =>
          lighting
          = kwargs_get (kw_lighting (mkOptions 20000 7 None None None None None))
              Lighting_default
      | Scatter3d _ _ _ _ size mode =>
          size = pointcloud_marker_size
                   (mkOptions 20000 7 None None None None None)
          /\ mode = "markers"
      end.
Proof.
  assert (E : exists s' fig,
    plot_scene two_subplots 1 (mkOptions 20000 7 None None None None None)
      init_state
    = (s', Ok fig))
    by (do 2 eexists; vm_compute; reflexivity).
  destruct E as (s' & fig & E). exists fig.
  apply (plot_scene_traces_follow_keywords two_subplots 1
           (mkOptions 20000 7 None None None None None) init_state s' fig E).
Defined.

(** ** One trace per value *)

Lemma keys_of_items_count (ncols : Z) (plots : scene_dict) :
  forall start,
    length (keys_of_items ncols (combine (seq start (length plots)) plots))
    = length (scene_values plots).
Proof.
  induction plots as [|[title traces] rest IH]; intros start; [reflexivity|].
  cbn [length seq combine]. unfold keys_of_items, scene_values in *.
  cbn [flat_map fst snd]. rewrite !length_app. unfold keys_of_traces.
  rewrite !length_map. f_equal. apply IH.
Qed.

(** X20. For a scene dictionary whose values are all [Meshes] or
    [Pointclouds], the figure [plot_scene] returns has exactly one trace
    per value, in the iteration order of the dictionary; the trace of a
    value is named by its key and placed at row [idx // ncols + 1] and
    column [idx % ncols + 1] of the grid, [idx] being the position of its
    subplot. *)
Theorem plot_scene_one_trace_per_value
  (plots : scene_dict) (ncols : Z) (o : options) (s s' : state)
  (fig : figure) :
  NoDup (Py.keys plots) ->
  first_invalid plots = None ->
  plot_scene plots ncols o s = (s', Ok fig) ->
  map (fun t => (tr_name t, tr_row t, tr_col t)) (fig_data fig)
  = flat_map
      (fun it : nat * (string * Py.dict pyobj) =>
         map (fun nv : string * pyobj =>
                (fst nv, Z.of_nat (fst it) / ncols + 1,
                 Z.of_nat (fst it) mod ncols + 1))
             (snd (snd it)))
      (enumerate plots)
  /\ length (fig_data fig) = length (scene_values plots).
Proof.
  intros ND Hvalid Hrun.
  pose proof (plot_scene_valid plots ncols o s ND Hvalid) as H.
  rewrite Hrun in H. destruct H as (_ & _ & _ & _ & HK).
  split; [exact HK|].
  apply (f_equal (@length _)) in HK. rewrite length_map in HK. rewrite HK.
  apply keys_of_items_count.
Qed.

Lemma plot_scene_one_trace_per_value_witness :
  exists fig,
    map (fun t => (tr_name t, tr_row t, tr_col t)) (fig_data fig)
    = flat_map
        (fun it : nat * (string * Py.dict pyobj) =>
           map (fun nv : string * pyobj =>
                  (fst nv, Z.of_nat (fst it) / 2 + 1,
                   Z.of_nat (fst it) mod 2 + 1))
               (snd (snd it)))
        (enumerate two_subplots)
    /\ length (fig_data fig) = length (scene_values two_subplots).
Proof.
  assert (E : exists s' fig,
    plot_scene two_subplots 2 default_options init_state = (s', Ok fig))
    by (do 2 eexists; vm_compute; reflexivity).
  destruct E as (s' & fig & E). exists fig.
  apply (plot_scene_one_trace_per_value two_subplots 2 default_options
           init_state s' fig); [| reflexivity | exact E].
  repeat constructor; cbn; intuition discriminate.
Defined.

(** ** Warnings *)

Section Quiet.

Lemma quiet_ret {A} (a : A) : quiet (ret a).
Proof. intros s. reflexivity. Qed.

Lemma quiet_raise {A} (e : exn) : quiet (@raise A e).
Proof. intros s. reflexivity. Qed.

Lemma quiet_lift {A} (r : result A) : quiet (lift r).
Proof. intros s. reflexivity. Qed.

Lemma quiet_bind {A B} (c : M A) (k : A -> M B) :
  quiet c -> (forall a, quiet (k a)) -> quiet (bind c k).
Proof.
  intros Hc Hk s. unfold bind. specialize (Hc s).
  destruct (c s) as [s1 [a|e]]; cbn [fst] in *; [| exact Hc].
  rewrite <- Hc. apply Hk.
Qed.

Lemma quiet_for {A} (l : list A) (body : A -> M unit) :
  (forall x, quiet (body x)) -> quiet (for_ l body).
Proof.
  intros H. induction l as [|x l IH]; cbn [for_]; [apply quiet_ret|].
  apply quiet_bind; [apply H | intros _; exact IH].
Qed.

Lemma quiet_modify_fig (g : figure -> figure) : quiet (modify_fig g).
Proof. intros s. reflexivity. Qed.

Lemma quiet_get_fig : quiet get_fig.
Proof. intros s. unfold get_fig. now destruct (st_fig s). Qed.

Lemma quiet_get_layout (key : string) : quiet (get_layout key).
Proof.
  unfold get_layout. apply quiet_bind; [apply quiet_get_fig|].
  intros f. apply quiet_ret.
Qed.

Lemma quiet_py_floordiv (a b : Z) : quiet (py_floordiv a b).
Proof.
  unfold py_floordiv. destruct (b =? 0); [apply quiet_raise | apply quiet_ret].
Qed.

Lemma quiet_py_mod (a b : Z) : quiet (py_mod a b).
Proof.
  unfold py_mod. destruct (b =? 0); [apply quiet_raise | apply quiet_ret].
Qed.

Lemma quiet_random_choice (n : nat) (k : Z) : quiet (random_choice n k).
Proof.
  unfold random_choice. destruct (k <? 0); [apply quiet_raise|].
  intros s. now destruct (st_rng s).
Qed.

Lemma quiet_subsample (verts : list vec3) (total : Z) :
  quiet (subsample verts total).
Proof.
  unfold subsample. destruct (total <? _); [| apply quiet_ret].
  apply quiet_bind; [apply quiet_random_choice|]. intros idxs.
  apply quiet_bind; [apply quiet_lift|]. intros v. apply quiet_ret.
Qed.

Lemma quiet_add_mesh_trace (meshes : Meshes) (trace_name : string)
  (subplot_idx ncols : Z) (lighting : Lighting) :
  quiet (_add_mesh_trace meshes trace_name subplot_idx ncols lighting).
Proof.
  unfold _add_mesh_trace. cbv zeta.
  apply quiet_bind; [apply quiet_lift|]. intros [verts center].
  apply quiet_bind; [apply quiet_py_floordiv|]. intros q.
  apply quiet_bind; [apply quiet_py_mod|]. intros r.
  apply quiet_bind; [apply quiet_modify_fig|]. intros _.
  apply quiet_bind; [apply quiet_get_layout|]. intros layout.
  apply quiet_bind; [apply quiet_lift|]. intros max_expand.
  apply quiet_modify_fig.
Qed.

Lemma quiet_add_pointcloud_trace (pointclouds : Pointclouds)
  (trace_name : string) (subplot_idx ncols max_points marker_size : Z) :
  quiet (_add_pointcloud_trace pointclouds trace_name subplot_idx ncols
           max_points marker_size).
Proof.
  unfold _add_pointcloud_trace. cbv zeta.
  apply quiet_bind; [apply quiet_subsample|]. intros [indices verts].
  apply quiet_bind; [apply quiet_lift|]. intros color.
  apply quiet_bind; [apply quiet_py_floordiv|]. intros q.
  apply quiet_bind; [apply quiet_py_mod|]. intros r.
  apply quiet_bind; [apply quiet_modify_fig|]. intros _.
  apply quiet_bind; [apply quiet_get_layout|]. intros layout.
  apply quiet_bind; [apply quiet_lift|]. intros max_expand.
  apply quiet_modify_fig.
Qed.

Lemma quiet_add_struct_trace (subplot_idx ncols : Z) (o : options)
  (lighting : Lighting) (item : string * pyobj) :
  quiet (add_struct_trace subplot_idx ncols o lighting item).
Proof.
  destruct item as [name [[m|p]|z|r]]; cbn [add_struct_trace].
  - apply quiet_add_mesh_trace.
  - apply quiet_add_pointcloud_trace.
  - apply quiet_raise.
  - apply quiet_raise.
Qed.

Lemma quiet_style_subplot (subplot_idx : Z) (xs ys zs : Py.dict setting) :
  quiet (style_subplot subplot_idx xs ys zs).
Proof.
  unfold style_subplot. cbv zeta.
  apply quiet_bind; [apply quiet_get_layout|]. intros layout.
  apply quiet_modify_fig.
Qed.

Lemma quiet_plot_subplot (plots : scene_dict) (subplots : list string)
  (ncols : Z) (o : options) (lighting : Lighting)
  (xs ys zs : Py.dict setting) (k : nat) :
  quiet (plot_subplot plots subplots ncols o lighting xs ys zs k).
Proof.
  unfold plot_subplot.
  destruct (nth_error subplots k) as [name|]; [| apply quiet_raise].
  destruct (Py.dict_get plots name) as [traces|]; [| apply quiet_raise].
  apply quiet_bind; [| intros _; apply quiet_style_subplot].
  apply quiet_for. intros item. apply quiet_add_struct_trace.
Qed.

Lemma quiet_set_fig (f : figure) : quiet (set_fig f).
Proof. intros s. reflexivity. Qed.

(** What follows a computation adds no warning when it is quiet. *)
Lemma quiet_after {A B} (c : M A) (k : A -> M B) (s : state) :
  (forall a, quiet (k a)) ->
  st_warnings (fst (bind c k s)) = st_warnings (fst (c s)).
Proof.
  intros Hk. unfold bind. destruct (c s) as [s1 [a|e]]; cbn [fst];
    [apply Hk | reflexivity].
Qed.

End Quiet.

(** The warnings of the grid construction. *)
Lemma gen_fig_with_subplots_warnings (n ncols : Z) (titles : list string)
  (s : state) :
  st_warnings (fst (_gen_fig_with_subplots n ncols titles s))
  = (st_warnings s
     ++ (if (ncols =? 0) || (n mod ncols =? 0)
         then []
         else ["ncols is invalid for the given mesh batch size."]))%list.
Proof.
  unfold _gen_fig_with_subplots, py_mod.
  destruct (ncols =? 0) eqn:En; cbn [orb].
  - cbn. now rewrite app_nil_r.
  - unfold bind at 1. unfold ret at 1.
    assert (Hrest : forall u : unit,
      quiet (fig_rows <- py_floordiv n ncols ;;
             fig <- lift (make_subplots fig_rows ncols
                            (list_mul [list_mul ["scene"] ncols] fig_rows)
                            titles (list_mul [1%Q] ncols)) ;;
             set_fig fig)).
    { intros u. apply quiet_bind; [apply quiet_py_floordiv | intros q].
      apply quiet_bind; [apply quiet_lift | intros fig].
      apply quiet_set_fig. }
    rewrite (quiet_after _ _ _ Hrest).
    destruct (n mod ncols =? 0); cbn [negb]; cbn;
      [now rewrite app_nil_r | reflexivity].
Qed.

(** X21. The only warning this module emits during [plot_scene] is the
    one about [ncols]: whether the call returns a figure or raises, it
    leaves exactly that warning when [ncols] is not zero and does not
    divide the number of subplots, and no warning otherwise. *)
Theorem plot_scene_warns_only_about_columns
  (plots : scene_dict) (ncols : Z) (o : options) (s : state) :
  st_warnings (fst (plot_scene plots ncols o s))
  = (st_warnings s
     ++ (if (ncols =? 0) || (Z.of_nat (length plots) mod ncols =? 0)
         then []
         else ["ncols is invalid for the given mesh batch size."]))%list.
Proof.
  unfold plot_scene. cbv zeta.
  assert (HK : length (Py.keys plots) = length plots) by apply length_map.
  rewrite HK. rewrite quiet_after.
  - apply gen_fig_with_subplots_warnings.
  - intros u. apply quiet_bind; [| intros _; apply quiet_get_fig].
    apply quiet_for. intros k. apply quiet_plot_subplot.
Qed.

(** ** A mesh without faces *)





